(** * Memory leak detection (tmll)

    A shallow embedding of
    [tmll/ml/modules/anomaly_detection/memory_leak_detection_module.py]
    and the properties of its analysis engine.

    Conventions of the embedding.
    - Python floats are idealised as rationals ([Q]): no rounding and no
      infinities.  NaN is kept where the module can meet it: as a table
      cell ([CNull]) and as [None] in a [pyfloat], the type of the values
      that come back from a regression or from a reduction of a series.
    - Timestamps are integers, in nanoseconds.
    - A pandas [DataFrame] is a list of rows under a list of column names;
      reading a column that is not declared raises [KeyError].
    - Python exceptions are the [Raise] results of the [result] monad; a
      method of the module takes [self] and returns its result together
      with [self] as the call left it.
    - Calls into scipy, the windowing and formatting routines of pandas,
      and tmll code outside this file are fields of [Externals].
    - Logging and rendering produce no value and are left out.

    The file has the embedding first, function by function in the order of
    the source, then the vocabulary of the statements and the examples they
    are run on, then the properties. *)

From Stdlib Require Import QArith Qminmax Lqa ZArith Lia.
From stdpp Require Import gmap strings list sorting.

(** ** Numbers *)

Definition Qltb (x y : Q) : bool := negb (Qle_bool y x).

(** Python's [min(a, b)]: [b] when [b < a], else [a]. *)
Definition py_min (a b : Q) : Q := if Qltb b a then b else a.

(** A float that may be NaN. *)
Definition pyfloat : Type := option Q.

Definition fadd (a b : pyfloat) : pyfloat :=
  match a, b with Some x, Some y => Some (x + y)%Q | _, _ => None end.
Definition fsub (a b : pyfloat) : pyfloat :=
  match a, b with Some x, Some y => Some (x - y)%Q | _, _ => None end.
Definition fmul (a b : pyfloat) : pyfloat :=
  match a, b with Some x, Some y => Some (x * y)%Q | _, _ => None end.

(** [a < b]; a comparison with NaN is [False]. *)
Definition fltb (a b : pyfloat) : bool :=
  match a, b with Some x, Some y => Qltb x y | _, _ => false end.

(** [min(a, b)] for [b] a float that may be NaN *)
Definition fmin (a : Q) (b : pyfloat) : Q :=
  if fltb b (Some a) then default a b else a.

(** ** Exceptions *)

Inductive exn :=
| KeyError (key : string)
| ZeroDivisionError
| ValueError
| TypeError
| IndexError.

Inductive result (A : Type) :=
| Ok (a : A)
| Raise (e : exn).
Arguments Ok {A} a.
Arguments Raise {A} e.

#[global] Instance result_ret : MRet result := fun A a => Ok a.
#[global] Instance result_bind : MBind result :=
  fun A B f m => match m with Ok a => f a | Raise e => Raise e end.

(** Python's true division [a / b] between Python numbers.  (A numpy float
    divided by zero gives an infinity or NaN instead, which the rationals do
    not have; the statements below that divide by a threshold take it from a
    run in which the division returned.) *)
Definition py_div (a b : Q) : result Q :=
  if Qeq_bool b 0%Q then Raise ZeroDivisionError else Ok (a / b)%Q.

(** ** Tables *)

Inductive Cell :=
| CStr (s : string)
| CNum (x : Q)
| CTime (ns : Z)
| CNull.

Record Row := { row_index : Z; row_cells : gmap string Cell }.

Record DataFrame := { df_columns : list string; df_rows : list Row }.

(** [pd.DataFrame()] *)
Definition empty_frame : DataFrame := {| df_columns := []; df_rows := [] |}.

(** [df.empty]: one of the two axes has length 0. *)
Definition df_empty (d : DataFrame) : bool :=
  match df_columns d, df_rows d with
  | [], _ => true
  | _, [] => true
  | _, _ => false
  end.

(** The entry of a row under a column; a row that has none reads as null. *)
Definition cell (r : Row) (k : string) : Cell := default CNull (row_cells r !! k).

Definition set_cell (r : Row) (k : string) (v : Cell) : Row :=
  {| row_index := row_index r; row_cells := <[k := v]> (row_cells r) |}.

Definition has_column (d : DataFrame) (k : string) : bool :=
  bool_decide (k ∈ df_columns d).

(** [df[k]] *)
Definition getitem (d : DataFrame) (k : string) : result (list Cell) :=
  if has_column d k then Ok (map (fun r => cell r k) (df_rows d))
  else Raise (KeyError k).

Definition add_column (cols : list string) (k : string) : list string :=
  if bool_decide (k ∈ cols) then cols else cols ++ [k].

(** [df[k] = v] for a scalar [v] *)
Definition assign_all (d : DataFrame) (k : string) (v : Cell) : DataFrame :=
  {| df_columns := add_column (df_columns d) k;
     df_rows := map (fun r => set_cell r k v) (df_rows d) |}.

(** [df.loc[mask, k] = v] *)
Definition assign_where (d : DataFrame) (mask : Row → bool) (k : string) (v : Cell)
  : DataFrame :=
  {| df_columns := add_column (df_columns d) k;
     df_rows := map (fun r => if mask r then set_cell r k v else r) (df_rows d) |}.

(** [df[mask]] *)
Definition select (d : DataFrame) (mask : Row → bool) : DataFrame :=
  {| df_columns := df_columns d; df_rows := List.filter mask (df_rows d) |}.

Definition rename_row (old new : string) (r : Row) : Row :=
  match row_cells r !! old with
  | Some v =>
      {| row_index := row_index r;
         row_cells := <[new := v]> (delete old (row_cells r)) |}
  | None => r
  end.

(** [df.rename({old: new}, axis=1)]; a column that is absent is ignored. *)
Definition rename (d : DataFrame) (old new : string) : DataFrame :=
  if has_column d old then
    {| df_columns := map (fun c => if bool_decide (c = old) then new else c) (df_columns d);
       df_rows := map (rename_row old new) (df_rows d) |}
  else d.

(** [df[k] = df[k].astype(...)], with the conversion [f] of one cell. *)
Definition convert_column (d : DataFrame) (k : string) (f : Cell → result Cell)
  : result DataFrame :=
  _ ← getitem d k;
  rows ← mapM (fun r => v ← f (cell r k); mret (set_cell r k v)) (df_rows d);
  mret {| df_columns := df_columns d; df_rows := rows |}.

(** ** Strings *)

(** [pat in s]; the patterns of the module, ["malloc"] and ["free"], have no
    special character, so that the regular expression that
    [str.contains] makes of them is a search for the substring. *)
Fixpoint str_contains (pat s : string) : bool :=
  String.prefix pat s ||
  match s with
  | EmptyString => false
  | String _ s' => str_contains pat s'
  end.

(** One entry of [series.str.contains(pat, na=False)]: an entry that is not
    a string counts as [False]. *)
Definition cell_contains (pat : string) (c : Cell) : bool :=
  match c with
  | CStr s => str_contains pat s
  | _ => false
  end.

(** [c == v] for a string [v] *)
Definition cell_is_str (v : string) (c : Cell) : bool :=
  match c with
  | CStr s => bool_decide (s = v)
  | _ => false
  end.

(** ** Records of the module *)

Inductive MemoryLeakSeverity := NONE | LOW | MEDIUM | HIGH | CRITICAL.

Record MemoryThresholds := {
  window_size : string;
  fragmentation : Q;
  growth_slope : Q
}.

Definition default_thresholds : MemoryThresholds :=
  {| window_size := "1s"; fragmentation := 0.7%Q; growth_slope := 0.5%Q |}.

Record MemoryMetrics := {
  unreleased_allocations : Z;
  total_allocations : Z;
  leak_rate : Q;
  avg_allocation_size : Q;
  max_continuous_growth_duration : pyfloat;
  memory_fragmentation_score : Q;
  regression_slope : pyfloat;
  regression_intercept : pyfloat
}.

Record LeakAnalysisResult := {
  severity : MemoryLeakSeverity;
  confidence_score : Q;
  metrics : MemoryMetrics;
  detected_patterns : list string;
  suspicious_locations : DataFrame
}.

(** The state of a [MemoryLeakDetection] object. *)
Record Module := {
  dataframes : gmap string DataFrame;
  thresholds : MemoryThresholds;
  ptr_lifecycle : DataFrame
}.

Definition set_dataframe (self : Module) (k : string) (d : DataFrame) : Module :=
  {| dataframes := <[k := d]> (dataframes self);
     thresholds := thresholds self;
     ptr_lifecycle := ptr_lifecycle self |}.

Definition set_thresholds (self : Module) (t : MemoryThresholds) : Module :=
  {| dataframes := dataframes self; thresholds := t; ptr_lifecycle := ptr_lifecycle self |}.

Definition set_ptr_lifecycle (self : Module) (d : DataFrame) : Module :=
  {| dataframes := dataframes self; thresholds := thresholds self; ptr_lifecycle := d |}.

(** A numeric series under a time index. *)
Definition Series : Type := list (Z * pyfloat).

Record LinregressResult := {
  lr_slope : pyfloat;
  lr_intercept : pyfloat;
  lr_rvalue : pyfloat;
  lr_pvalue : pyfloat
}.

(** The dictionary that [_analyze_memory_trend] returns when it has data. *)
Record MemoryTrend := {
  slope : pyfloat;
  intercept : pyfloat;
  r_squared : pyfloat;
  p_value : pyfloat;
  growth_rate : Q;
  is_significant : bool;
  rolling_mean : Series;
  rolling_std : Series
}.

(** The dictionary that [_analyze_allocation_patterns] returns when it has
    data; [patterns_total_allocations] is its key ["total_allocations"]. *)
Record AllocationPatterns := {
  allocation_frequency : Series;
  mean_allocation_size : Q;
  median_allocation_size : pyfloat;
  size_std : pyfloat;
  patterns_total_allocations : Z;
  unique_sizes : Z;
  null_size_count : Z
}.

(** [d[k]] on one of the two dictionaries above; [None] is the empty
    dictionary, where every key is missing. *)
Definition dict_get {D A : Type} (d : option D) (k : string) (field : D → A) : result A :=
  match d with
  | Some d => Ok (field d)
  | None => Raise (KeyError k)
  end.

(** ** What the module calls and this file does not define *)

Record Externals := {
  (** [float(s)] on one string of a column under [astype(float)] *)
  float_of_string : string → result (option Q);
  (** [str(x)] on a number and on a timestamp under [astype(str)] *)
  str_of_num : Q → string;
  str_of_time : Z → string;
  (** [self.data_preprocessor.normalize] *)
  normalize : DataFrame → result DataFrame;
  (** [pd.Timedelta(s)], in nanoseconds *)
  Timedelta : string → result Z;
  (** [series.rolling(window=w).mean()] and [.std()] *)
  rolling_window_mean : Z → list (Z * Cell) → result Series;
  rolling_window_std : Z → list (Z * Cell) → result Series;
  (** [scipy.stats.linregress(x, y)] *)
  linregress : list Q → list Cell → result LinregressResult;
  (** [frame.resample(window).size()] *)
  resample_size : string → DataFrame → result Series;
  (** [series.std()] and [series.median()] on the values that are not NaN *)
  values_std : list Q → pyfloat;
  values_median : list Q → pyfloat;
  (** [Formatter.format_bytes] and the format [:.2f] *)
  format_bytes : Q → Q * string;
  format_2f : Q → string
}.

Section Engine.

Variable ext : Externals.

(** ** Event classification *)

(** One entry of [series.astype(float)] *)
Definition astype_float (c : Cell) : result Cell :=
  match c with
  | CNum x => Ok (CNum x)
  | CNull => Ok CNull
  | CStr s => o ← float_of_string ext s; mret (from_option CNum CNull o)
  | CTime _ => Raise TypeError
  end.

(** One entry of [series.astype(str)] *)
Definition astype_str (c : Cell) : result Cell :=
  match c with
  | CStr s => Ok (CStr s)
  | CNum x => Ok (CStr (str_of_num ext x))
  | CTime t => Ok (CStr (str_of_time ext t))
  | CNull => Ok (CStr "nan")
  end.

(** [df["Event type"].str.contains(pat, na=False)] on one row *)
Definition event_type_contains (pat : string) (r : Row) : bool :=
  cell_contains pat (cell r "Event type").

(** [df["event_category"] == c] on one row *)
Definition is_category (c : string) (r : Row) : bool :=
  cell_is_str c (cell r "event_category").

(** The three assignments of [event_category], in the order of the source. *)
Definition categorise (df1 : DataFrame) : DataFrame :=
  let df2 := assign_where df1 (event_type_contains "malloc")
               "event_category" (CStr "allocation") in
  assign_where df2 (event_type_contains "free")
    "event_category" (CStr "deallocation").

(** The filter, the renaming and the two conversions. *)
Definition keep_memory_events (df3 : DataFrame) : result DataFrame :=
  let df := select df3 (fun r => negb (is_category "other" r)) in
  let df := rename df "size" "allocation_size" in
  df ← convert_column df "allocation_size" astype_float;
  convert_column df "ptr" astype_str.

Definition _post_process (self : Module) : result unit * Module :=
  match dataframes self !! "Events Table" with
  | None => (Ok (), self)
  | Some df =>
      if negb (forallb (has_column df) ["size"; "ptr"]) then
        (Ok (), set_dataframe self "Events Table" empty_frame)
      else
        let df1 := assign_all df "event_category" (CStr "other") in
        match getitem df1 "Event type" with
        | Raise e => (Raise e, set_dataframe self "Events Table" df1)
        | Ok _ =>
            let df3 := categorise df1 in
            match keep_memory_events df3 with
            | Raise e => (Raise e, set_dataframe self "Events Table" df3)
            | Ok df' => (Ok (), set_dataframe self "Events Table" df')
            end
        end
  end.

(** [_separate_events(dataframe)]: the value returned. *)
Definition _separate_events (dataframe : DataFrame) : result DataFrame :=
  let df1 := assign_all dataframe "event_category" (CStr "other") in
  _ ← getitem df1 "Event type";
  keep_memory_events (categorise df1).

(** ** Lifecycle tracking *)

(** [isna] on one cell *)
Definition is_null (c : Cell) : bool :=
  match c with CNull => true | _ => false end.

(** Equality of two join or group keys. *)
Definition cell_eqb (a b : Cell) : bool :=
  match a, b with
  | CStr s, CStr t => bool_decide (s = t)
  | CNum x, CNum y => Qeq_bool x y
  | CTime x, CTime y => bool_decide (x = y)
  | CNull, CNull => true
  | _, _ => false
  end.

(** The order in which [groupby] lists its keys. *)
Definition cell_leb (a b : Cell) : bool :=
  match a, b with
  | CStr s, CStr t => String.leb s t
  | CNum x, CNum y => Qle_bool x y
  | CTime x, CTime y => bool_decide (x ≤ y)%Z
  | CNull, _ => false
  | _, CNull => true
  | CNum _, _ => true
  | _, CNum _ => false
  | CTime _, _ => true
  | _, CTime _ => false
  end.

(** [df[k] = df.index] *)
Definition with_index_as (d : DataFrame) (k : string) : DataFrame :=
  {| df_columns := add_column (df_columns d) k;
     df_rows := map (fun r => set_cell r k (CTime (row_index r))) (df_rows d) |}.

(** [any(series.value_counts() > 1)]: value_counts leaves nulls out. *)
Fixpoint has_duplicate (ks : list Cell) : bool :=
  match ks with
  | [] => false
  | k :: ks' => (negb (is_null k) && existsb (cell_eqb k) ks') || has_duplicate ks'
  end.

(** The distinct keys that are not null, in order of first appearance. *)
Fixpoint distinct_keys (ks : list Cell) : list Cell :=
  match ks with
  | [] => []
  | k :: ks' =>
      let rest := List.filter (fun k' => negb (cell_eqb k k')) (distinct_keys ks') in
      if is_null k then rest else k :: rest
  end.

(** The keys of [groupby], sorted. *)
Definition sorted_keys (ks : list Cell) : list Cell :=
  merge_sort (fun a b => Is_true (cell_leb a b)) (distinct_keys ks).

(** The first entry of a column that is not null. *)
Definition first_valid (cs : list Cell) : Cell :=
  default CNull (head (List.filter (fun c => negb (is_null c)) cs)).

(** The rows renumbered 0, 1, 2, ... *)
Definition reset_index (rows : list Row) : list Row :=
  imap (fun i r => {| row_index := Z.of_nat i; row_cells := row_cells r |}) rows.

(** [df.groupby(k).first().reset_index()] *)
Definition groupby_first (d : DataFrame) (k : string) : DataFrame :=
  let others := List.filter (fun c => negb (bool_decide (c = k))) (df_columns d) in
  let group key := List.filter (fun r => cell_eqb key (cell r k)) (df_rows d) in
  let first_of key :=
    {| row_index := 0;
       row_cells :=
         <[k := key]>
           (list_to_map
              (map (fun c => (c, first_valid (map (fun r => cell r c) (group key))))
                 others)) |} in
  {| df_columns := k :: others;
     df_rows := reset_index (map first_of (sorted_keys (map (fun r => cell r k) (df_rows d)))) |}.

(** [df[cols]] *)
Definition project (d : DataFrame) (cols : list string) : result DataFrame :=
  _ ← mapM (getitem d) cols;
  mret {| df_columns := cols;
          df_rows := map (fun r =>
                            {| row_index := row_index r;
                               row_cells := list_to_map (map (fun c => (c, cell r c)) cols) |})
                         (df_rows d) |}.

(** The cells of [r] under the columns [cols], written into [l]. *)
Definition join_cells (cols : list string) (l : Row) (r : option Row) : Row :=
  foldr (fun c acc => set_cell acc c (from_option (fun r => cell r c) CNull r)) l cols.

(** [pd.merge(left, right, on=k, how="left")] *)
Definition merge_left (left right : DataFrame) (k : string) : DataFrame :=
  let others := List.filter (fun c => negb (bool_decide (c = k))) (df_columns right) in
  let joined l :=
    match List.filter (fun r => cell_eqb (cell l k) (cell r k)) (df_rows right) with
    | [] => [join_cells others l None]
    | rs => map (fun r => join_cells others l (Some r)) rs
    end in
  {| df_columns := df_columns left ++ others;
     df_rows := reset_index (flat_map joined (df_rows left)) |}.

(** [(d - a).dt.total_seconds()] on one row *)
Definition total_seconds_between (d a : Cell) : result Cell :=
  match d, a with
  | CTime td, CTime ta => Ok (CNum ((td - ta) # 1000000000))
  | CNull, CTime _ | CTime _, CNull | CNull, CNull => Ok CNull
  | _, _ => Raise TypeError
  end.

(** One entry of [series.clip(lower=0)] *)
Definition clip_lower_0 (c : Cell) : result Cell :=
  match c with
  | CNum x => Ok (CNum (if Qltb x 0%Q then 0%Q else x))
  | CNull => Ok CNull
  | _ => Raise TypeError
  end.

(** [df[k] = f(row)], row by row *)
Definition assign_rows (d : DataFrame) (k : string) (f : Row → result Cell)
  : result DataFrame :=
  rows ← mapM (fun r => v ← f r; mret (set_cell r k v)) (df_rows d);
  mret {| df_columns := add_column (df_columns d) k; df_rows := rows |}.

(** The body of [_track_pointer_lifecycle] once the events table is there. *)
Definition lifecycle_of (events_df : DataFrame) : result DataFrame :=
  _ ← getitem events_df "event_category";
  let allocations := select events_df (is_category "allocation") in
  let deallocations := select events_df (is_category "deallocation") in
  let allocation_records := with_index_as allocations "allocation_time" in
  ptrs ← getitem allocation_records "ptr";
  let allocation_records :=
    if has_duplicate ptrs then groupby_first allocation_records "ptr"
    else allocation_records in
  right ← project deallocations ["ptr"];
  let right := with_index_as right "deallocation_time" in
  let merged := merge_left allocation_records right "ptr" in
  merged ← assign_rows merged "lifetime"
             (fun r => total_seconds_between (cell r "deallocation_time")
                                             (cell r "allocation_time"));
  merged ← convert_column merged "lifetime" clip_lower_0;
  mret (rename merged "allocation_size" "size").

Definition _track_pointer_lifecycle (self : Module) : result DataFrame * Module :=
  match dataframes self !! "Events Table" with
  | None => (Ok empty_frame, self)
  | Some events_df =>
      if df_empty events_df then (Ok empty_frame, self)
      else
        match lifecycle_of events_df with
        | Ok merged => (Ok merged, set_ptr_lifecycle self merged)
        | Raise e => (Raise e, self)
        end
  end.

(** ** Trend analysis *)

(** [df.index] *)
Definition index_of (d : DataFrame) : list Z := map row_index (df_rows d).

(** [timedelta.total_seconds()] *)
Definition seconds (ns : Z) : Q := ns # 1000000000.

Definition _analyze_memory_trend (self : Module) : result (option MemoryTrend) :=
  match dataframes self !! "Memory Usage" with
  | None => Ok None
  | Some df =>
      if df_empty df then Ok None
      else
        memory_df ← normalize ext df;
        (* Convert timestamps to seconds from start *)
        t0 ← from_option Ok (Raise IndexError) (head (index_of memory_df));
        let time_seconds := map (fun t => seconds (t - t0)) (index_of memory_df) in
        (* Calculate rolling statistics *)
        window ← Timedelta ext (window_size (thresholds self));
        usage ← getitem memory_df "Memory Usage";
        rolling_mean ← rolling_window_mean ext window (zip (index_of memory_df) usage);
        rolling_std ← rolling_window_std ext window (zip (index_of memory_df) usage);
        (* Perform linear regression with actual time intervals *)
        lr ← linregress ext time_seconds usage;
        let slope := lr_slope lr in
        let p_value := lr_pvalue lr in
        (* Calculate growth characteristics *)
        let is_significant := fltb p_value (Some 0.05%Q) in
        let is_increasing := fltb (Some 0%Q) slope in
        let growth_rate := if is_increasing then default 0%Q slope else 0%Q in
        mret (Some {| slope := slope;
                      intercept := lr_intercept lr;
                      r_squared := fmul (lr_rvalue lr) (lr_rvalue lr);
                      p_value := p_value;
                      growth_rate := growth_rate;
                      is_significant := is_significant;
                      rolling_mean := rolling_mean;
                      rolling_std := rolling_std |})
  end.

(** ** Allocation patterns *)

(** The numbers of a column, its nulls left out ([dropna]). *)
Fixpoint valid_numbers (cs : list Cell) : result (list Q) :=
  match cs with
  | [] => Ok []
  | CNum x :: cs' => xs ← valid_numbers cs'; mret (x :: xs)
  | CNull :: cs' => valid_numbers cs'
  | _ :: _ => Raise TypeError
  end.

(** [sum(xs)] *)
Definition Qsum (xs : list Q) : Q := foldr Qplus 0%Q xs.

(** [len(l[f(l)])], a Python int *)
Definition count_where {A : Type} (f : A → bool) (l : list A) : Z :=
  Z.of_nat (length (List.filter f l)).

Definition _analyze_allocation_patterns (self : Module)
  : result (option AllocationPatterns) :=
  match dataframes self !! "Events Table" with
  | None => Ok None
  | Some events_df =>
      if df_empty events_df then Ok None
      else
        _ ← getitem events_df "event_category";
        let allocation_events := select events_df (is_category "allocation") in
        (* Check for null values in allocation size *)
        allocation_sizes ← getitem allocation_events "allocation_size";
        let null_sizes := count_where is_null allocation_sizes in
        (* Calculate allocation frequencies *)
        allocation_freq ← resample_size ext (window_size (thresholds self)) allocation_events;
        (* Analyze allocation sizes with null handling *)
        valid_sizes ← valid_numbers allocation_sizes;
        let empty := bool_decide (length valid_sizes = 0%nat) in
        mret (Some {|
          allocation_frequency := allocation_freq;
          mean_allocation_size :=
            if empty then 0%Q
            else (Qsum valid_sizes / inject_Z (Z.of_nat (length valid_sizes)))%Q;
          median_allocation_size := if empty then Some 0%Q else values_median ext valid_sizes;
          size_std := if empty then Some 0%Q else values_std ext valid_sizes;
          patterns_total_allocations := Z.of_nat (length (df_rows allocation_events));
          unique_sizes :=
            if empty then 0%Z
            else Z.of_nat (length (distinct_keys (map CNum valid_sizes)));
          null_size_count := null_sizes |})
  end.

(** ** Metrics *)

(** [series.diff()] *)
Fixpoint diff_from (prev : pyfloat) (vs : list pyfloat) : list pyfloat :=
  match vs with
  | [] => []
  | v :: vs' => fsub v prev :: diff_from v vs'
  end.

Definition diff (vs : list pyfloat) : list pyfloat := diff_from None vs.

(** [s != s.shift()] on a series of booleans: the entry before the first
    one is missing, and differs from it. *)
Fixpoint ne_shift_from (prev : option bool) (bs : list bool) : list bool :=
  match bs with
  | [] => []
  | b :: bs' => negb (bool_decide (prev = Some b)) :: ne_shift_from (Some b) bs'
  end.

Definition ne_shift (bs : list bool) : list bool := ne_shift_from None bs.

(** [s.cumsum()] on a series of booleans *)
Fixpoint cumsum_from (acc : nat) (bs : list bool) : list nat :=
  match bs with
  | [] => []
  | b :: bs' =>
      let acc' := if b then S acc else acc in
      acc' :: cumsum_from acc' bs'
  end.

Definition cumsum (bs : list bool) : list nat := cumsum_from 0 bs.

(** [s.groupby(labels)]: one group per label, the labels in increasing
    order, each group in the order of the series. *)
Definition groupby_labels {A : Type} (labels : list nat) (items : list A) : list (list A) :=
  map (fun l => map snd (List.filter (fun p => bool_decide (p.1 = l)) (zip labels items)))
      (merge_sort le (remove_dups labels)).

(** [lambda x: (x.index[-1] - x.index[0]).total_seconds() if len(x) > 1 else 0] *)
Definition span_of_group (x : list (Z * bool)) : Q :=
  if bool_decide (1 < length x)%nat then
    match head x, last x with
    | Some a, Some b => seconds (b.1 - a.1)
    | _, _ => 0%Q
    end
  else 0%Q.

(** [series.max()]; NaN on the empty series. *)
Definition max_of (xs : list Q) : pyfloat :=
  match xs with
  | [] => None
  | x :: xs' => Some (fold_left (fun m y => if Qltb m y then y else m) xs' x)
  end.

(** The three lines that compute [max_growth_duration]. *)
Definition max_growth_duration_of (rolling_mean : Series) : pyfloat :=
  let growth_periods := map (fltb (Some 0%Q)) (diff (map snd rolling_mean)) in
  let consecutive_periods :=
    groupby_labels (cumsum (ne_shift growth_periods))
                   (zip (map fst rolling_mean) growth_periods) in
  max_of (map span_of_group consecutive_periods).

Definition _calculate_memory_metrics (ptr_tracking : DataFrame)
    (memory_trend : option MemoryTrend) (allocation_patterns : option AllocationPatterns)
  : result MemoryMetrics :=
  (* Calculate unreleased allocations *)
  deallocation_times ← getitem ptr_tracking "deallocation_time";
  let unreleased := count_where is_null deallocation_times in
  (* Calculate memory fragmentation score *)
  fragmentation_score ←
    (if negb (df_empty ptr_tracking) then
       let allocated_chunks := Z.of_nat (length (df_rows ptr_tracking)) in
       let concurrent_chunks := count_where is_null deallocation_times in
       if bool_decide (0 < allocated_chunks)%Z
       then py_div (inject_Z concurrent_chunks) (inject_Z allocated_chunks)
       else Ok 0%Q
     else Ok 0%Q);
  (* Calculate maximum continuous growth duration *)
  rolling_mean ← dict_get memory_trend "rolling_mean" rolling_mean;
  let max_growth_duration := max_growth_duration_of rolling_mean in
  total ← dict_get allocation_patterns "total_allocations" patterns_total_allocations;
  rate ← dict_get memory_trend "growth_rate" growth_rate;
  avg ← dict_get allocation_patterns "mean_allocation_size" mean_allocation_size;
  slope ← dict_get memory_trend "slope" slope;
  intercept ← dict_get memory_trend "intercept" intercept;
  mret {| unreleased_allocations := unreleased;
          total_allocations := total;
          leak_rate := rate;
          avg_allocation_size := avg;
          max_continuous_growth_duration := max_growth_duration;
          memory_fragmentation_score := fragmentation_score;
          regression_slope := slope;
          regression_intercept := intercept |}.

(** ** Severity *)

(** The weighted score of [_evaluate_severity]. *)
Definition weighted_score (th : MemoryThresholds) (metrics : MemoryMetrics) : result Q :=
  (* Calculate base scores *)
  g ← py_div (leak_rate metrics) (growth_slope th);
  let growth_score := py_min 1%Q g in
  u ← py_div (inject_Z (unreleased_allocations metrics))
             (inject_Z (total_allocations metrics));
  let unreleased_score := py_min 1%Q u in
  f ← py_div (memory_fragmentation_score metrics) (fragmentation th);
  let fragmentation_score := py_min 1%Q f in
  (* Weight the scores *)
  mret (0.4 * growth_score + 0.4 * unreleased_score + 0.2 * fragmentation_score)%Q.

Definition _evaluate_severity (self : Module) (metrics : MemoryMetrics) (p_value : pyfloat)
  : result (MemoryLeakSeverity * Q) :=
  weighted_score ← weighted_score (thresholds self) metrics;
  (* Calculate confidence based on data quality *)
  let confidence :=
    fmin 1%Q (fadd (fmul (Some 0.6%Q) (fsub (Some 1%Q) p_value))
                 (Some (0.4 * inject_Z (total_allocations metrics))%Q)) in
  (* Determine severity *)
  let severity :=
    if Qltb weighted_score 0.2%Q then NONE
    else if Qltb weighted_score 0.4%Q then LOW
    else if Qltb weighted_score 0.6%Q then MEDIUM
    else if Qltb weighted_score 0.8%Q then HIGH
    else CRITICAL in
  mret (severity, confidence).

(** ** Suspicious locations *)

(** The order of [sort_values(ascending=False)]: larger first, nulls last. *)
Definition cell_geb (a b : Cell) : bool :=
  match a, b with
  | _, CNull => true
  | CNull, _ => false
  | _, _ => cell_leb b a
  end.

(** [df.sort_values(k, ascending=False)]; rows with equal keys keep their
    order here, where pandas does not promise one. *)
Definition sort_descending (d : DataFrame) (k : string) : DataFrame :=
  {| df_columns := df_columns d;
     df_rows := merge_sort (fun a b => Is_true (cell_geb (cell a k) (cell b k))) (df_rows d) |}.

Definition _identify_suspicious_locations (self : Module) (ptr_tracking : DataFrame)
  : result DataFrame :=
  match dataframes self !! "Events Table" with
  | None => Ok empty_frame
  | Some events_df =>
      if df_empty events_df then Ok empty_frame
      else
        (* Find allocations without matching deallocations *)
        _ ← getitem ptr_tracking "deallocation_time";
        unfreed_ptrs ←
          getitem (select ptr_tracking (fun r => is_null (cell r "deallocation_time"))) "ptr";
        (* Get allocation events for unfreed pointers *)
        _ ← getitem events_df "event_category";
        _ ← getitem events_df "ptr";
        let suspicious_allocs :=
          select events_df
            (fun r => is_category "allocation" r
                      && existsb (cell_eqb (cell r "ptr")) unfreed_ptrs) in
        (* Group by location and calculate metrics *)
        _ ← getitem suspicious_allocs "allocation_size";
        _ ← getitem suspicious_allocs "Event type";
        let group key :=
          List.filter (fun r => cell_eqb key (cell r "ptr")) (df_rows suspicious_allocs) in
        rows ← mapM (fun key =>
                  sizes ← valid_numbers (map (fun r => cell r "allocation_size") (group key));
                  mret {| row_index := 0;
                          row_cells :=
                            list_to_map
                              [("ptr", key);
                               ("total_bytes", CNum (Qsum sizes));
                               ("allocation_count", CNum (inject_Z (Z.of_nat (length sizes))));
                               ("event_context",
                                first_valid (map (fun r => cell r "Event type") (group key)))]
                       |})
                (sorted_keys (map (fun r => cell r "ptr") (df_rows suspicious_allocs)));
        let location_metrics :=
          {| df_columns := ["ptr"; "total_bytes"; "allocation_count"; "event_context"];
             df_rows := reset_index rows |} in
        mret (sort_descending location_metrics "total_bytes")
  end.

(** ** Narrated patterns *)

(** [series.mean()]: the mean of the values that are not NaN. *)
Definition valid_values (s : Series) : list Q := omap snd s.

Definition series_mean (s : Series) : pyfloat :=
  match valid_values s with
  | [] => None
  | xs => Some (Qsum xs / inject_Z (Z.of_nat (length xs)))%Q
  end.

Definition _collect_detected_patterns (memory_trend : option MemoryTrend)
    (allocation_patterns : option AllocationPatterns) : result (list string) :=
  significant ← dict_get memory_trend "is_significant" is_significant;
  slope ← dict_get memory_trend "slope" slope;
  rate ← dict_get memory_trend "growth_rate" growth_rate;
  let growth :=
    if significant && fltb (Some 0%Q) slope then
      let '(growth_val, growth_unit) := format_bytes ext rate in
      ["Systematic memory growth detected: " +:+ format_2f ext growth_val
         +:+ " " +:+ growth_unit +:+ "/s"]
    else [] in
  frequency ← dict_get allocation_patterns "allocation_frequency" allocation_frequency;
  let irregular :=
    if fltb (series_mean frequency) (values_std ext (valid_values frequency))
    then ["Irregular allocation pattern detected"] else [] in
  rolling_std ← dict_get memory_trend "rolling_std" rolling_std;
  rolling_mean ← dict_get memory_trend "rolling_mean" rolling_mean;
  let volatile :=
    if fltb (fmul (series_mean rolling_mean) (Some 0.1%Q)) (series_mean rolling_std)
    then ["High memory usage volatility detected"] else [] in
  mret (growth ++ irregular ++ volatile).

(** ** The analysis *)

(** [self.dataframes.get(k) is None or self.dataframes[k].empty] *)
Definition missing_or_empty (self : Module) (k : string) : bool :=
  match dataframes self !! k with
  | None => true
  | Some d => df_empty d
  end.

(** The result returned when there is not enough data. *)
Definition neutral_result : LeakAnalysisResult :=
  {| severity := NONE;
     confidence_score := 0%Q;
     metrics := {| unreleased_allocations := 0%Z;
                   total_allocations := 0%Z;
                   leak_rate := 0%Q;
                   avg_allocation_size := 0%Q;
                   max_continuous_growth_duration := Some 0%Q;
                   memory_fragmentation_score := 0%Q;
                   regression_slope := Some 0%Q;
                   regression_intercept := Some 0%Q |};
     detected_patterns := [];
     suspicious_locations := empty_frame |}.

Definition analyze_memory_leaks (self : Module) (window_size : string)
    (fragmentation_threshold slope_threshold : Q)
  : result LeakAnalysisResult * Module :=
  if missing_or_empty self "Events Table" || missing_or_empty self "Memory Usage" then
    (Ok neutral_result, self)
  else
    let self := set_thresholds self
                  {| window_size := window_size;
                     fragmentation := fragmentation_threshold;
                     growth_slope := slope_threshold |} in
    match _track_pointer_lifecycle self with
    | (Raise e, self) => (Raise e, self)
    | (Ok ptr_tracking, self) =>
        (memory_trend ← _analyze_memory_trend self;
         allocation_patterns ← _analyze_allocation_patterns self;
         metrics ← _calculate_memory_metrics ptr_tracking memory_trend allocation_patterns;
         p ← dict_get memory_trend "p_value" p_value;
         '(severity, confidence) ← _evaluate_severity self metrics p;
         suspicious_locs ← _identify_suspicious_locations self ptr_tracking;
         patterns ← _collect_detected_patterns memory_trend allocation_patterns;
         mret {| severity := severity;
                 confidence_score := confidence;
                 metrics := metrics;
                 detected_patterns := patterns;
                 suspicious_locations := suspicious_locs |},
         self)
    end.

(** ** Presentation

    [interpret] and [plot_memory_leak_analysis] take the result object and
    may write to it: each returns the object as the call left it.  What they
    print or draw is left out; what they read, and so may fail to find, and
    what they write is kept. *)

(** [self.dataframes[k]] *)
Definition lookup_frame (self : Module) (k : string) : result DataFrame :=
  from_option Ok (Raise (KeyError k)) (dataframes self !! k).

Definition interpret (self : Module) (analysis_result : LeakAnalysisResult)
  : result unit * Module * LeakAnalysisResult :=
  let reads : result unit :=
    let locations := suspicious_locations analysis_result in
    _ ← (if negb (df_empty locations) then
           _ ← getitem locations "total_bytes";
           _ ← getitem locations "ptr";
           _ ← getitem locations "allocation_count";
           _ ← getitem locations "event_context";
           mret ()
         else mret ());
    memory_df ← lookup_frame self "Memory Usage";
    _ ← getitem memory_df "Memory Usage";
    events_df ← lookup_frame self "Events Table";
    _ ← getitem events_df "event_category";
    _ ← getitem (select events_df (is_category "allocation")) "ptr";
    mret () in
  match reads with
  | Raise e => (Raise e, self, analysis_result)
  | Ok _ =>
      match _track_pointer_lifecycle self with
      | (Raise e, self) => (Raise e, self, analysis_result)
      | (Ok ptr_tracking, self) =>
          (_ ← getitem ptr_tracking "lifetime"; mret (), self, analysis_result)
      end
  end.

(** [series.max()] on a column *)
Definition column_max (cs : list Cell) : result pyfloat :=
  xs ← valid_numbers cs; mret (max_of xs).

Definition set_regression_intercept (m : MemoryMetrics) (v : pyfloat) : MemoryMetrics :=
  {| unreleased_allocations := unreleased_allocations m;
     total_allocations := total_allocations m;
     leak_rate := leak_rate m;
     avg_allocation_size := avg_allocation_size m;
     max_continuous_growth_duration := max_continuous_growth_duration m;
     memory_fragmentation_score := memory_fragmentation_score m;
     regression_slope := regression_slope m;
     regression_intercept := v |}.

Definition set_regression_slope (m : MemoryMetrics) (v : pyfloat) : MemoryMetrics :=
  {| unreleased_allocations := unreleased_allocations m;
     total_allocations := total_allocations m;
     leak_rate := leak_rate m;
     avg_allocation_size := avg_allocation_size m;
     max_continuous_growth_duration := max_continuous_growth_duration m;
     memory_fragmentation_score := memory_fragmentation_score m;
     regression_slope := v;
     regression_intercept := regression_intercept m |}.

Definition set_metrics (r : LeakAnalysisResult) (m : MemoryMetrics) : LeakAnalysisResult :=
  {| severity := severity r;
     confidence_score := confidence_score r;
     metrics := m;
     detected_patterns := detected_patterns r;
     suspicious_locations := suspicious_locations r |}.

(** The first block of [plot_memory_leak_analysis], under
    [if not memory_df.empty]. *)
Definition plot_memory_usage (memory_df : DataFrame) (analysis_result : LeakAnalysisResult)
  : result unit * LeakAnalysisResult :=
  (* Scale the trend line as it was trained on normalized data *)
  match getitem memory_df "Memory Usage" ≫= column_max with
  | Raise e => (Raise e, analysis_result)
  | Ok usage_max =>
      let analysis_result :=
        set_metrics analysis_result
          (set_regression_intercept (metrics analysis_result)
             (fmul (regression_intercept (metrics analysis_result)) usage_max)) in
      let analysis_result :=
        set_metrics analysis_result
          (set_regression_slope (metrics analysis_result)
             (fmul (regression_slope (metrics analysis_result)) usage_max)) in
      (Ok (), analysis_result)
  end.

(** The second block, under [if not events_df.empty]. *)
Definition plot_memory_operations (self : Module) (events_df : DataFrame)
  : result unit * Module :=
  match getitem events_df "event_category" with
  | Raise e => (Raise e, self)
  | Ok _ =>
      match _track_pointer_lifecycle self with
      | (Raise e, self) => (Raise e, self)
      | (Ok ptr_tracking, self) =>
          (_ ← getitem ptr_tracking "lifetime";
           _ ← Timedelta ext (window_size (thresholds self));
           mret (),
           self)
      end
  end.

Definition plot_memory_leak_analysis (self : Module) (analysis_result : LeakAnalysisResult)
  : result unit * Module * LeakAnalysisResult :=
  let memory_df := default empty_frame (dataframes self !! "Memory Usage") in
  let events_df := default empty_frame (dataframes self !! "Events Table") in
  let '(drawn, analysis_result) :=
    if negb (df_empty memory_df) then plot_memory_usage memory_df analysis_result
    else (Ok (), analysis_result) in
  match drawn with
  | Raise e => (Raise e, self, analysis_result)
  | Ok _ =>
      if negb (df_empty events_df) then
        let '(r, self) := plot_memory_operations self events_df in
        (r, self, analysis_result)
      else (Ok (), self, analysis_result)
  end.

End Engine.

(** * The vocabulary of the statements *)

(** ** Too little data *)

(** The three ways in which a call has too little data: no or an empty
    events table, no or an empty memory-usage table, or an events table that
    [_post_process] found without a [size] or a [ptr] column. *)
Definition insufficient_data (ext : Externals) (self : Module) : Prop :=
  missing_or_empty self "Events Table" = true
  ∨ missing_or_empty self "Memory Usage" = true
  ∨ ∃ raw df,
      dataframes raw !! "Events Table" = Some df
      ∧ forallb (has_column df) ["size"; "ptr"] = false
      ∧ self = (_post_process ext raw).2.

(** ** Severity and confidence *)

(** The position of a level in [MemoryLeakSeverity]. *)
Definition severity_rank (s : MemoryLeakSeverity) : nat :=
  match s with NONE => 0 | LOW => 1 | MEDIUM => 2 | HIGH => 3 | CRITICAL => 4 end.

(** The five bands of the weighted score, as a relation. *)
Definition in_band (w : Q) (s : MemoryLeakSeverity) : Prop :=
  match s with
  | NONE => (w < 0.2)%Q
  | LOW => (0.2 <= w)%Q ∧ (w < 0.4)%Q
  | MEDIUM => (0.4 <= w)%Q ∧ (w < 0.6)%Q
  | HIGH => (0.6 <= w)%Q ∧ (w < 0.8)%Q
  | CRITICAL => (0.8 <= w)%Q
  end.

(** [clamp(x, lo, hi)] *)
Definition clamp (x lo hi : Q) : Q :=
  if Qltb x lo then lo else if Qltb hi x then hi else x.

(** The confidence before it is capped. *)
Definition raw_confidence (p_value : Q) (total : Z) : Q :=
  (0.6 * (1 - p_value) + 0.4 * inject_Z total)%Q.

(** ** Series *)

(** A series without NaN. *)
Definition to_series (samples : list (Z * Q)) : Series :=
  map (fun p => (p.1, Some p.2)) samples.

(** The values after [prev] never exceed the one before them. *)
Fixpoint never_increases (prev : Q) (vs : list Q) : Prop :=
  match vs with
  | [] => True
  | v :: vs' => (v <= prev)%Q ∧ never_increases v vs'
  end.

(** ** Event types *)

(** The cell is a string with both ["malloc"] and ["free"] in it. *)
Definition names_malloc_and_free (c : Cell) : Prop :=
  ∃ s pre post pre' post',
    c = CStr s ∧ s = pre +:+ "malloc" +:+ post ∧ s = pre' +:+ "free" +:+ post'.

(** What a step of the classification leaves alone: the index of the row,
    its event type and its category. *)
Definition same_event (r r' : Row) : Prop :=
  row_index r' = row_index r
  ∧ cell r' "Event type" = cell r "Event type"
  ∧ cell r' "event_category" = cell r "event_category".

(** ** Lifecycle records *)

(** The number of entries of [l] that satisfy [f]. *)
Definition count {A : Type} (f : A → bool) (l : list A) : nat :=
  length (List.filter f l).

(** The row has the pointer identity [p]. *)
Definition ptr_is (p : string) (r : Row) : bool := cell_is_str p (cell r "ptr").

(** [events_df[events_df["event_category"] == "allocation"]], its rows *)
Definition allocations_of (events : DataFrame) : list Row :=
  List.filter (is_category "allocation") (df_rows events).

(** [events_df[events_df["event_category"] == "deallocation"]], its rows *)
Definition deallocations_of (events : DataFrame) : list Row :=
  List.filter (is_category "deallocation") (df_rows events).

(** [allocation_records["allocation_time"] = allocation_records.index] on one row *)
Definition stamp_allocation (r : Row) : Row :=
  set_cell r "allocation_time" (CTime (row_index r)).

(** [allocation_records] as the merge receives it. *)
Definition allocation_records (events : DataFrame) : DataFrame :=
  let records := with_index_as (select events (is_category "allocation")) "allocation_time" in
  if has_duplicate (map (fun r => cell r "ptr") (df_rows records))
  then groupby_first records "ptr"
  else records.

(** The cell is a timestamp or NaT. *)
Definition time_or_null (c : Cell) : Prop := c = CNull ∨ ∃ t, c = CTime t.

(** [deallocations[["ptr"]].assign(deallocation_time=deallocations.index)] on one row *)
Definition stamp_deallocation (r : Row) : Row :=
  set_cell {| row_index := row_index r;
              row_cells := list_to_map [("ptr", cell r "ptr")] |}
    "deallocation_time" (CTime (row_index r)).

(** The right-hand table of the merge. *)
Definition deallocation_times (events : DataFrame) : DataFrame :=
  {| df_columns := ["ptr"; "deallocation_time"];
     df_rows := map stamp_deallocation (deallocations_of events) |}.

(** The rows that the merge makes of one allocation record. *)
Definition joined (events : DataFrame) (rec : Row) : list Row :=
  match List.filter (fun r => cell_eqb (cell rec "ptr") (cell r "ptr"))
          (df_rows (deallocation_times events)) with
  | [] => [set_cell rec "deallocation_time" CNull]
  | rs => map (fun r => set_cell rec "deallocation_time" (cell r "deallocation_time")) rs
  end.

(** What the last steps leave alone in a row. *)
Definition same_record (r r' : Row) : Prop :=
  cell r' "ptr" = cell r "ptr"
  ∧ cell r' "allocation_time" = cell r "allocation_time"
  ∧ cell r' "deallocation_time" = cell r "deallocation_time".

(** ** Classified rows *)

(** The event type of the row names malloc or free. *)
Definition names_memory_event (r : Row) : bool :=
  event_type_contains "malloc" r || event_type_contains "free" r.

(** The category that the three assignments leave on such a row. *)
Definition category_of (r : Row) : string :=
  if event_type_contains "free" r then "deallocation" else "allocation".

(** The cell is a float, NaN included. *)
Definition float_cell (c : Cell) : Prop := c = CNull ∨ ∃ x, c = CNum x.

(** The cell is a string. *)
Definition str_cell (c : Cell) : Prop := ∃ s, c = CStr s.

(** The three assignments, on one row. *)
Definition categorise_one (r : Row) : Row :=
  let r1 := set_cell r "event_category" (CStr "other") in
  let r2 := if event_type_contains "malloc" r1
            then set_cell r1 "event_category" (CStr "allocation") else r1 in
  if event_type_contains "free" r2
  then set_cell r2 "event_category" (CStr "deallocation") else r2.

(** ** Lifetimes and unmatched records *)

(** The lifetime that the last steps write into a merged row. *)
Definition lifetime_written (m r : Row) : Prop :=
  match cell m "deallocation_time", cell m "allocation_time" with
  | CTime td, CTime ta =>
      cell r "lifetime" = CNum (if bool_decide (td < ta)%Z then 0%Q else seconds (td - ta))
  | _, _ => cell r "lifetime" = CNull
  end.

(** The allocation records that no deallocation matches. *)
Definition unmatched_records (events : DataFrame) : list Row :=
  List.filter
    (fun rec => negb (existsb (fun d => cell_eqb (cell rec "ptr") (cell d "ptr"))
                        (deallocations_of events)))
    (df_rows (allocation_records events)).

(** [series.isna()] on the deallocation time of a row *)
Definition not_deallocated (r : Row) : bool := is_null (cell r "deallocation_time").

(** ** Suspicious locations *)

(** Row [a] comes before row [b] in the order of [total_bytes], both being
    numbers. *)
Definition more_bytes (a b : Row) : Prop :=
  ∃ x y, cell a "total_bytes" = CNum x ∧ cell b "total_bytes" = CNum y ∧ (y <= x)%Q.

(** The rows that [_identify_suspicious_locations] builds before it sorts
    them. *)
Definition location_row (suspicious_allocs : list Row) (key : Cell) (sizes : list Q) : Row :=
  {| row_index := 0;
     row_cells :=
       list_to_map
         [("ptr", key);
          ("total_bytes", CNum (Qsum sizes));
          ("allocation_count", CNum (inject_Z (Z.of_nat (length sizes))));
          ("event_context",
           first_valid
             (map (fun r => cell r "Event type")
                (List.filter (fun r => cell_eqb key (cell r "ptr")) suspicious_allocs)))] |}.

(** ** Narrated patterns *)

(** The sentence on systematic growth. *)
Definition growth_sentence (ext : Externals) (rate : Q) : string :=
  "Systematic memory growth detected: " +:+ format_2f ext (format_bytes ext rate).1
    +:+ " " +:+ (format_bytes ext rate).2 +:+ "/s".

(** * Examples *)

Module Examples.

(** Stand-ins for the routines outside the file: the identity for
    [normalize], one second for every window, the series itself for its
    rolling mean, and a regression that is flat and not significant. *)
Definition externals : Externals := {|
  float_of_string := fun _ => Raise ValueError;
  str_of_num := fun _ => "";
  str_of_time := fun _ => "";
  normalize := Ok;
  Timedelta := fun _ => Ok 1000000000%Z;
  rolling_window_mean :=
    fun _ s => Ok (map (fun p => (p.1, match p.2 with CNum x => Some x | _ => None end)) s);
  rolling_window_std := fun _ s => Ok (map (fun p => (p.1, None)) s);
  linregress :=
    fun _ _ => Ok {| lr_slope := Some 0%Q; lr_intercept := Some 1%Q;
                     lr_rvalue := Some 0%Q; lr_pvalue := Some 1%Q |};
  resample_size := fun _ _ => Ok [];
  values_std := fun _ => None;
  values_median := fun _ => None;
  format_bytes := fun x => (x, "B");
  format_2f := fun _ => ""
|}.

Definition event (t : Z) (type : string) (size : Cell) (ptr : string) : Row :=
  {| row_index := t;
     row_cells := list_to_map [("Event type", CStr type); ("size", size); ("ptr", CStr ptr)] |}.

Definition events_table (rows : list Row) : DataFrame :=
  {| df_columns := ["Event type"; "size"; "ptr"]; df_rows := rows |}.

Definition sample (p : Z * Q) : Row :=
  {| row_index := p.1 * 1000000000; row_cells := {["Memory Usage" := CNum p.2]} |}.

(** A memory-usage table with one sample a second. *)
Definition memory_table (samples : list (Z * Q)) : DataFrame :=
  {| df_columns := ["Memory Usage"]; df_rows := map sample samples |}.

Definition module_of (tables : list (string * DataFrame)) : Module :=
  {| dataframes := list_to_map tables;
     thresholds := default_thresholds;
     ptr_lifecycle := empty_frame |}.

End Examples.

(** Metrics of a trace with one allocation, which was released. *)
Definition one_allocation : MemoryMetrics :=
  {| unreleased_allocations := 0; total_allocations := 1;
     leak_rate := 0; avg_allocation_size := 0;
     max_continuous_growth_duration := Some 0%Q;
     memory_fragmentation_score := 0;
     regression_slope := Some 0%Q; regression_intercept := Some 0%Q |}.

(** Metrics with the weighted score 0.2 under the default thresholds. *)
Definition quarter_rate : MemoryMetrics :=
  {| unreleased_allocations := 0; total_allocations := 1;
     leak_rate := 0.25; avg_allocation_size := 0;
     max_continuous_growth_duration := Some 0%Q;
     memory_fragmentation_score := 0;
     regression_slope := Some 0.25%Q; regression_intercept := Some 0%Q |}.

(** Metrics with the weighted score 0.8 under the default thresholds. *)
Definition all_leaked : MemoryMetrics :=
  {| unreleased_allocations := 1; total_allocations := 1;
     leak_rate := 1; avg_allocation_size := 0;
     max_continuous_growth_duration := Some 0%Q;
     memory_fragmentation_score := 0;
     regression_slope := Some 1%Q; regression_intercept := Some 0%Q |}.

Module TrendExample.

(** Three samples a second apart, 1/3, 1 and 2/3 of their maximum.  The
    least-squares line through them has slope 1/6 and intercept 1/2, with
    correlation 1/2; with one degree of freedom the two-sided p-value of
    that correlation is 2/3. *)
Definition regression : LinregressResult :=
  {| lr_slope := Some (1 # 6); lr_intercept := Some (1 # 2);
     lr_rvalue := Some (1 # 2); lr_pvalue := Some (2 # 3) |}.

Definition externals : Externals := {|
  float_of_string := float_of_string Examples.externals;
  str_of_num := str_of_num Examples.externals;
  str_of_time := str_of_time Examples.externals;
  normalize := Ok;
  Timedelta := Timedelta Examples.externals;
  rolling_window_mean := rolling_window_mean Examples.externals;
  rolling_window_std := rolling_window_std Examples.externals;
  linregress := fun _ _ => Ok regression;
  resample_size := resample_size Examples.externals;
  values_std := values_std Examples.externals;
  values_median := values_median Examples.externals;
  format_bytes := format_bytes Examples.externals;
  format_2f := format_2f Examples.externals
|}.

Definition usage : DataFrame :=
  Examples.memory_table [(0%Z, 1 # 3); (1%Z, 1%Q); (2%Z, 2 # 3)].

Definition self : Module := Examples.module_of [("Memory Usage", usage)].

End TrendExample.

Module PlotExample.

Definition self : Module :=
  Examples.module_of [("Memory Usage", Examples.memory_table [(0%Z, 2%Q); (1%Z, 4%Q)])].

(** A result whose trend line is [0.5 t + 0.5] on the normalised data. *)
Definition analysis_result : LeakAnalysisResult :=
  {| severity := NONE;
     confidence_score := 0.4;
     metrics := {| unreleased_allocations := 0; total_allocations := 1;
                   leak_rate := 0.5; avg_allocation_size := 8;
                   max_continuous_growth_duration := Some 1%Q;
                   memory_fragmentation_score := 0;
                   regression_slope := Some 0.5%Q;
                   regression_intercept := Some 0.5%Q |};
     detected_patterns := [];
     suspicious_locations := empty_frame |}.

Definition plotted (r : LeakAnalysisResult) : LeakAnalysisResult :=
  (plot_memory_leak_analysis Examples.externals self r).2.

End PlotExample.

Module GrowthExample.

(** A rolling mean that rises for two seconds and is flat for five. *)
Definition means : Series :=
  to_series
    (map (fun p : Z * Q => (p.1 * 1000000000, p.2)%Z)
       [(0%Z, 1%Q); (1%Z, 2%Q); (2%Z, 3%Q); (3%Z, 2%Q);
        (4%Z, 2%Q); (5%Z, 2%Q); (6%Z, 2%Q); (7%Z, 2%Q)]).

Definition memory_trend : MemoryTrend :=
  {| slope := Some 0%Q; intercept := Some 2%Q; r_squared := Some 0%Q;
     p_value := Some 1%Q; growth_rate := 0; is_significant := false;
     rolling_mean := means; rolling_std := [] |}.

Definition allocation_patterns : AllocationPatterns :=
  {| allocation_frequency := []; mean_allocation_size := 8;
     median_allocation_size := Some 8%Q; size_std := None;
     patterns_total_allocations := 1; unique_sizes := 1; null_size_count := 0 |}.

Definition ptr_tracking : DataFrame :=
  {| df_columns := ["ptr"; "allocation_time"; "deallocation_time"; "lifetime"];
     df_rows := [{| row_index := 0;
                    row_cells := list_to_map [("ptr", CStr "0x1");
                                              ("allocation_time", CTime 0);
                                              ("deallocation_time", CNull);
                                              ("lifetime", CNull)] |}] |}.

End GrowthExample.

Module ClassificationExample.

Definition raw : DataFrame :=
  Examples.events_table
    [Examples.event 0 "lttng_ust_libc:malloc" (CNum 64) "0x1";
     Examples.event 1 "malloc_then_free" (CNum 32) "0x2";
     Examples.event 2 "sched_switch" CNull "0x0";
     Examples.event 3 "lttng_ust_libc:free" CNull "0x1"].

Definition self : Module := Examples.module_of [("Events Table", raw)].

Definition self' : Module := (_post_process Examples.externals self).2.

Definition events : DataFrame := default empty_frame (dataframes self' !! "Events Table").

End ClassificationExample.

Module LifecycleExample.

(** One pointer used twice: allocated, freed, allocated again, freed. *)
Definition reused : Module :=
  (_post_process Examples.externals
     (Examples.module_of
        [("Events Table",
          Examples.events_table
            [Examples.event 0 "malloc" (CNum 8) "0x1";
             Examples.event 1000000000 "free" CNull "0x1";
             Examples.event 2000000000 "malloc" (CNum 16) "0x1";
             Examples.event 3000000000 "free" CNull "0x1"])])).2.

(** Two allocations and one deallocation on one pointer. *)
Definition twice_allocated : Module :=
  (_post_process Examples.externals
     (Examples.module_of
        [("Events Table",
          Examples.events_table
            [Examples.event 0 "malloc" (CNum 8) "0x1";
             Examples.event 1000000000 "malloc" (CNum 16) "0x1";
             Examples.event 2000000000 "free" CNull "0x1"])])).2.

Definition events_of (self : Module) : DataFrame :=
  default empty_frame (dataframes self !! "Events Table").

Definition lifecycle_of_module (self : Module) : DataFrame :=
  match (_track_pointer_lifecycle self).1 with
  | Ok d => d
  | Raise _ => empty_frame
  end.

End LifecycleExample.

Module LeakExample.

(** Two pointers that are never freed, the smaller one allocated twice, and
    one that is freed. *)
Definition self : Module :=
  (_post_process Examples.externals
     (Examples.module_of
        [("Events Table",
          Examples.events_table
            [Examples.event 0 "malloc" (CNum 8) "0x1";
             Examples.event 1000000000 "malloc" (CNum 64) "0x2";
             Examples.event 2000000000 "malloc" (CNum 16) "0x3";
             Examples.event 3000000000 "free" CNull "0x3";
             Examples.event 4000000000 "malloc" (CNum 8) "0x1"])])).2.

Definition events : DataFrame := LifecycleExample.events_of self.

Definition ptr_tracking : DataFrame := LifecycleExample.lifecycle_of_module self.

Definition self' : Module := (_track_pointer_lifecycle self).2.

Definition locations : DataFrame :=
  match _identify_suspicious_locations self' ptr_tracking with
  | Ok d => d
  | Raise _ => empty_frame
  end.

End LeakExample.

Module AnalysisExample.

(** The events of [LeakExample] with three samples of memory usage. *)
Definition self : Module :=
  set_dataframe LeakExample.self "Memory Usage"
    (Examples.memory_table [(0%Z, 1%Q); (1%Z, 2%Q); (2%Z, 4%Q)]).

Definition run : result LeakAnalysisResult * Module :=
  analyze_memory_leaks TrendExample.externals self "1s" 0.7%Q 0.5%Q.

Definition analysis_result : LeakAnalysisResult :=
  match run.1 with Ok r => r | Raise _ => neutral_result end.

Definition self' : Module := run.2.

End AnalysisExample.

(** * Properties *)

(** ** Comparisons *)

Lemma Qltb_lt (x y : Q) : Qltb x y = true ↔ (x < y)%Q.
Proof.
  unfold Qltb. rewrite negb_true_iff, <- not_true_iff_false, Qle_bool_iff.
  split; [apply Qnot_le_lt | apply Qlt_not_le].
Qed.

Lemma Qltb_ge (x y : Q) : Qltb x y = false ↔ (y <= x)%Q.
Proof.
  unfold Qltb. rewrite negb_false_iff. apply Qle_bool_iff.
Qed.

Lemma py_min_spec (a b : Q) :
  ((b < a)%Q ∧ py_min a b = b) ∨ ((a <= b)%Q ∧ py_min a b = a).
Proof.
  unfold py_min. destruct (Qltb b a) eqn:E.
  - left. split; [by apply Qltb_lt | done].
  - right. split; [by apply Qltb_ge | done].
Qed.

#[global] Arguments py_div : simpl never.

Lemma py_div_ok (a b : Q) : ¬ (b == 0)%Q → py_div a b = Ok (a / b)%Q.
Proof.
  intros Hb. unfold py_div. destruct (Qeq_bool b 0) eqn:E; [|done].
  by apply Qeq_bool_iff in E.
Qed.

Lemma py_div_zero (a b : Q) : (b == 0)%Q → py_div a b = Raise ZeroDivisionError.
Proof.
  intros Hb. unfold py_div. by apply Qeq_bool_iff in Hb as ->.
Qed.

(** ** C1: not enough data *)

Section InsufficientData.

Variable ext : Externals.

Lemma post_process_missing_columns (raw : Module) (df : DataFrame) :
  dataframes raw !! "Events Table" = Some df →
  forallb (has_column df) ["size"; "ptr"] = false →
  _post_process ext raw = (Ok (), set_dataframe raw "Events Table" empty_frame).
Proof.
  intros Hdf Hcols. unfold _post_process. by rewrite Hdf, Hcols.
Qed.

(** C1. When the events table or the memory-usage table is missing or
    empty, also when the events table was emptied by [_post_process] for
    want of the [size] or [ptr] column, [analyze_memory_leaks] raises
    nothing and returns the neutral result: severity NONE, confidence 0, the
    eight metrics 0, no pattern and no suspicious location; the module is
    left as it was. *)
Theorem analyze_memory_leaks_insufficient_data
    (self : Module) (window : string) (fragmentation_threshold slope_threshold : Q) :
  insufficient_data ext self →
  ∃ r, analyze_memory_leaks ext self window fragmentation_threshold slope_threshold
       = (Ok r, self)
       ∧ severity r = NONE
       ∧ confidence_score r = 0%Q
       ∧ metrics r = {| unreleased_allocations := 0; total_allocations := 0;
                        leak_rate := 0; avg_allocation_size := 0;
                        max_continuous_growth_duration := Some 0%Q;
                        memory_fragmentation_score := 0;
                        regression_slope := Some 0%Q;
                        regression_intercept := Some 0%Q |}
       ∧ detected_patterns r = []
       ∧ suspicious_locations r = empty_frame.
Proof.
  intros H. exists neutral_result. split; [|done].
  assert (missing_or_empty self "Events Table" || missing_or_empty self "Memory Usage"
          = true) as Hguard.
  { destruct H as [H | [H | (raw & df & Hdf & Hcols & ->)]].
    - by rewrite H.
    - rewrite H. apply orb_true_r.
    - rewrite (post_process_missing_columns raw df Hdf Hcols). simpl.
      unfold missing_or_empty at 1. simpl. by rewrite lookup_insert_eq. }
  unfold analyze_memory_leaks. by rewrite Hguard.
Qed.

End InsufficientData.

(** The events table of the example has no [size] column. *)
Lemma analyze_memory_leaks_insufficient_data_witness :
  let df := {| df_columns := ["Event type"; "ptr"];
               df_rows := [{| row_index := 0;
                              row_cells := list_to_map [("Event type", CStr "malloc");
                                                        ("ptr", CStr "0x1")] |}] |} in
  let raw := Examples.module_of
               [("Events Table", df);
                ("Memory Usage", Examples.memory_table [(0%Z, 1%Q); (1%Z, 2%Q)])] in
  let self := (_post_process Examples.externals raw).2 in
  ∃ r, analyze_memory_leaks Examples.externals self "1s" 0.7%Q 0.5%Q = (Ok r, self)
       ∧ severity r = NONE
       ∧ confidence_score r = 0%Q
       ∧ metrics r = {| unreleased_allocations := 0; total_allocations := 0;
                        leak_rate := 0; avg_allocation_size := 0;
                        max_continuous_growth_duration := Some 0%Q;
                        memory_fragmentation_score := 0;
                        regression_slope := Some 0%Q;
                        regression_intercept := Some 0%Q |}
       ∧ detected_patterns r = []
       ∧ suspicious_locations r = empty_frame.
Proof.
  intros df raw self.
  apply (analyze_memory_leaks_insufficient_data Examples.externals self).
  right. right. exists raw, df. split; [|split].
  - vm_compute. reflexivity.
  - vm_compute. reflexivity.
  - reflexivity.
Defined.

(** ** C2, C3, C8: the severity evaluator *)

Lemma weighted_score_defined (th : MemoryThresholds) (m : MemoryMetrics) :
  ¬ (growth_slope th == 0)%Q → total_allocations m ≠ 0%Z → ¬ (fragmentation th == 0)%Q →
  ∃ w, weighted_score th m = Ok w.
Proof.
  intros Hg Ht Hf. unfold weighted_score.
  assert (¬ (inject_Z (total_allocations m) == 0)%Q) as Ht'.
  { intros H. apply Ht. by apply (inject_Z_injective _ 0). }
  rewrite (py_div_ok _ _ Hg), (py_div_ok _ _ Ht'), (py_div_ok _ _ Hf).
  simpl. eauto.
Qed.

Lemma weighted_score_zero_allocations (th : MemoryThresholds) (m : MemoryMetrics) :
  total_allocations m = 0%Z → weighted_score th m = Raise ZeroDivisionError.
Proof.
  intros Ht. unfold weighted_score.
  destruct (py_div (leak_rate m) (growth_slope th)) as [g|e] eqn:Eg; simpl.
  - rewrite Ht, (py_div_zero (inject_Z (unreleased_allocations m)) (inject_Z 0));
      [done | reflexivity].
  - unfold py_div in Eg. destruct (Qeq_bool _ _); congruence.
Qed.

Lemma evaluate_severity_of_score (self : Module) (m : MemoryMetrics) (p : pyfloat) (w : Q) :
  weighted_score (thresholds self) m = Ok w →
  ∃ s, _evaluate_severity self m p
       = Ok (s, fmin 1 (fadd (fmul (Some 0.6%Q) (fsub (Some 1%Q) p))
                             (Some (0.4 * inject_Z (total_allocations m))%Q)))
       ∧ in_band w s.
Proof.
  intros Hw. unfold _evaluate_severity. rewrite Hw. simpl.
  destruct (Qltb w 0.2) eqn:E1.
  { eexists. split; [done|]. by apply Qltb_lt. }
  destruct (Qltb w 0.4) eqn:E2.
  { eexists. split; [done|]. split; [by apply Qltb_ge | by apply Qltb_lt]. }
  destruct (Qltb w 0.6) eqn:E3.
  { eexists. split; [done|]. split; [by apply Qltb_ge | by apply Qltb_lt]. }
  destruct (Qltb w 0.8) eqn:E4.
  { eexists. split; [done|]. split; [by apply Qltb_ge | by apply Qltb_lt]. }
  eexists. split; [done|]. by apply Qltb_ge.
Qed.

Lemma in_band_monotone (w w' : Q) (s s' : MemoryLeakSeverity) :
  in_band w s → in_band w' s' → (w <= w')%Q → severity_rank s ≤ severity_rank s'.
Proof.
  destruct s, s'; simpl; intros; try lia; exfalso; lra.
Qed.

(** C2. Whenever the evaluator has a weighted score [w], the severity it
    returns is NONE for [w < 0.2], LOW for [0.2 <= w < 0.4], MEDIUM for
    [0.4 <= w < 0.6], HIGH for [0.6 <= w < 0.8] and CRITICAL from 0.8 on; so
    of two evaluations the one with the larger score has the severity that
    is at least as high, and the scores 0.2, 0.4, 0.6 and 0.8 themselves
    get LOW, MEDIUM, HIGH and CRITICAL. *)
Theorem evaluate_severity_bands
    (self self' : Module) (m m' : MemoryMetrics) (p p' : pyfloat) (w w' : Q) :
  weighted_score (thresholds self) m = Ok w →
  weighted_score (thresholds self') m' = Ok w' →
  ∃ s c s' c',
    _evaluate_severity self m p = Ok (s, c)
    ∧ _evaluate_severity self' m' p' = Ok (s', c')
    ∧ ((w < 0.2)%Q → s = NONE)
    ∧ ((0.2 <= w)%Q → (w < 0.4)%Q → s = LOW)
    ∧ ((0.4 <= w)%Q → (w < 0.6)%Q → s = MEDIUM)
    ∧ ((0.6 <= w)%Q → (w < 0.8)%Q → s = HIGH)
    ∧ ((0.8 <= w)%Q → s = CRITICAL)
    ∧ ((w <= w')%Q → severity_rank s ≤ severity_rank s')
    ∧ ((w == 0.2)%Q → s = LOW)
    ∧ ((w == 0.4)%Q → s = MEDIUM)
    ∧ ((w == 0.6)%Q → s = HIGH)
    ∧ ((w == 0.8)%Q → s = CRITICAL).
Proof.
  intros Hw Hw'.
  destruct (evaluate_severity_of_score self m p w Hw) as (s & Hs & Hb).
  destruct (evaluate_severity_of_score self' m' p' w' Hw') as (s' & Hs' & Hb').
  eexists s, _, s', _. split; [exact Hs|]. split; [exact Hs'|].
  repeat split; try (by intros; eapply in_band_monotone);
    intros; destruct s; simpl in Hb; try done; exfalso; lra.
Qed.

(** C3 (the code does otherwise). With [total_allocations = 0] the division
    [unreleased_allocations / total_allocations] is not guarded: the
    evaluator raises [ZeroDivisionError] and computes no score. *)
Theorem evaluate_severity_zero_allocations
    (self : Module) (m : MemoryMetrics) (p : pyfloat) :
  total_allocations m = 0%Z →
  _evaluate_severity self m p = Raise ZeroDivisionError.
Proof.
  intros Ht. unfold _evaluate_severity.
  by rewrite (weighted_score_zero_allocations _ _ Ht).
Qed.

Lemma evaluate_severity_zero_allocations_witness :
  _evaluate_severity (Examples.module_of []) (metrics neutral_result) (Some 1%Q)
  = Raise ZeroDivisionError.
Proof.
  apply (evaluate_severity_zero_allocations
           (Examples.module_of []) (metrics neutral_result) (Some 1%Q)).
  reflexivity.
Defined.

(** A trace that holds deallocations only reaches the evaluator with
    [total_allocations = 0], and the analysis ends in the same error. *)
Lemma analyze_memory_leaks_only_deallocations :
  let raw := Examples.module_of
               [("Events Table",
                 Examples.events_table [Examples.event 0 "free" CNull "0x1"]);
                ("Memory Usage", Examples.memory_table [(0%Z, 1%Q); (1%Z, 1%Q)])] in
  let self := (_post_process Examples.externals raw).2 in
  missing_or_empty self "Events Table" = false
  ∧ (analyze_memory_leaks Examples.externals self "1s" 0.7%Q 0.5%Q).1
    = Raise ZeroDivisionError.
Proof. vm_compute. split; reflexivity. Qed.

Lemma fmin_some (a x : Q) : fmin a (Some x) = py_min a x.
Proof. reflexivity. Qed.

Lemma clamp_unit (x : Q) : (0 <= x)%Q → (clamp x 0 1 == py_min 1 x)%Q.
Proof.
  intros Hx. unfold clamp, py_min.
  destruct (Qltb x 0) eqn:E0; [apply Qltb_lt in E0; lra|].
  destruct (Qltb 1 x) eqn:E1, (Qltb x 1) eqn:E2; try reflexivity.
  - apply Qltb_lt in E1, E2. lra.
  - apply Qltb_ge in E1, E2. lra.
Qed.

(** C8, amended. The confidence is [min(1, 0.6 (1 - p) + 0.4 total)]: it is
    capped at 1 and has no lower bound of its own.  It equals the clamp to
    [0, 1], and lies in [0, 1], when the sum is not negative, as it is for
    every [p <= 1] and [total >= 0]. *)
Theorem evaluate_severity_confidence
    (self : Module) (m : MemoryMetrics) (p w : Q) :
  weighted_score (thresholds self) m = Ok w →
  ∃ s c,
    _evaluate_severity self m (Some p) = Ok (s, c)
    ∧ c = py_min 1 (raw_confidence p (total_allocations m))
    ∧ (c <= 1)%Q
    ∧ ((0 <= raw_confidence p (total_allocations m))%Q →
       (c == clamp (raw_confidence p (total_allocations m)) 0 1)%Q ∧ (0 <= c)%Q)
    ∧ ((p <= 1)%Q → (0 ≤ total_allocations m)%Z → (0 <= c)%Q ∧ (c <= 1)%Q).
Proof.
  intros Hw.
  destruct (evaluate_severity_of_score self m (Some p) w Hw) as (s & Hs & _).
  eexists s, _. split; [exact Hs|]. simpl fadd. rewrite fmin_some.
  fold (raw_confidence p (total_allocations m)).
  set (x := raw_confidence p (total_allocations m)).
  assert (py_min 1 x <= 1)%Q as Hle.
  { destruct (py_min_spec 1 x) as [[? ->] | [? ->]]; lra. }
  assert ((0 <= x)%Q → (0 <= py_min 1 x)%Q) as Hge.
  { intros. destruct (py_min_spec 1 x) as [[? ->] | [? ->]]; lra. }
  split; [done|]. split; [done|]. split.
  - intros Hx. split; [symmetry; by apply clamp_unit | by apply Hge].
  - intros Hp Ht. split; [|done]. apply Hge. unfold x, raw_confidence.
    assert (0 <= inject_Z (total_allocations m))%Q.
    { unfold Qle. simpl. lia. }
    lra.
Qed.

Lemma evaluate_severity_confidence_witness :
  ∃ s c,
    _evaluate_severity (Examples.module_of []) one_allocation (Some 0.5%Q) = Ok (s, c)
    ∧ c = py_min 1 (raw_confidence 0.5 1)
    ∧ (c <= 1)%Q
    ∧ ((0 <= raw_confidence 0.5 1)%Q →
       (c == clamp (raw_confidence 0.5 1) 0 1)%Q ∧ (0 <= c)%Q)
    ∧ ((0.5 <= 1)%Q → (0 ≤ 1)%Z → (0 <= c)%Q ∧ (c <= 1)%Q).
Proof.
  apply (evaluate_severity_confidence (Examples.module_of []) one_allocation 0.5
           (match weighted_score default_thresholds one_allocation with
            | Ok w => w | Raise _ => 0%Q end)).
  vm_compute. reflexivity.
Defined.

(** C8 as stated fails: with [p_value = 3] and one allocation the
    confidence is -0.8, below 0 and not the clamp of the sum. *)
Lemma evaluate_severity_confidence_negative :
  ∃ s c,
    _evaluate_severity (Examples.module_of []) one_allocation (Some 3%Q) = Ok (s, c)
    ∧ (c == -0.8)%Q
    ∧ ¬ (0 <= c)%Q
    ∧ ¬ (c == clamp (raw_confidence 3 1) 0 1)%Q.
Proof.
  eexists _, _. split; [vm_compute; reflexivity|].
  split; [reflexivity|]. split; intros H; vm_compute in H;
    first [discriminate H | by apply H].
Qed.

(** Two evaluations: one with the weighted score 0.2, one with 0.8. *)
Lemma evaluate_severity_bands_witness :
  let w := (700000 # 3500000)%Q in
  let w' := (5600 # 7000)%Q in
  ∃ s c s' c',
    _evaluate_severity (Examples.module_of []) quarter_rate (Some 1%Q) = Ok (s, c)
    ∧ _evaluate_severity (Examples.module_of []) all_leaked (Some 1%Q) = Ok (s', c')
    ∧ ((w < 0.2)%Q → s = NONE)
    ∧ ((0.2 <= w)%Q → (w < 0.4)%Q → s = LOW)
    ∧ ((0.4 <= w)%Q → (w < 0.6)%Q → s = MEDIUM)
    ∧ ((0.6 <= w)%Q → (w < 0.8)%Q → s = HIGH)
    ∧ ((0.8 <= w)%Q → s = CRITICAL)
    ∧ ((w <= w')%Q → severity_rank s ≤ severity_rank s')
    ∧ ((w == 0.2)%Q → s = LOW)
    ∧ ((w == 0.4)%Q → s = MEDIUM)
    ∧ ((w == 0.6)%Q → s = HIGH)
    ∧ ((w == 0.8)%Q → s = CRITICAL).
Proof.
  intros w w'.
  apply (evaluate_severity_bands (Examples.module_of []) (Examples.module_of [])
           quarter_rate all_leaked (Some 1%Q) (Some 1%Q) w w');
    vm_compute; reflexivity.
Defined.

(** ** C4: the growth rate of the trend *)

Section Trend.

Variable ext : Externals.

(** C4, amended. When the normalisation, the rolling statistics and the
    regression it calls return, the trend analyzer returns a trend whose
    growth rate is the regression slope when the slope is positive and zero
    when it is not (NaN included), whatever the p-value; the p-value decides
    the significance flag alone, which is set for [p < 0.05]. *)
Theorem analyze_memory_trend_growth_rate
    (self : Module) (df memory_df : DataFrame) (t0 window : Z) (usage : list Cell)
    (means stds : Series) (lr : LinregressResult) :
  dataframes self !! "Memory Usage" = Some df →
  df_empty df = false →
  normalize ext df = Ok memory_df →
  head (index_of memory_df) = Some t0 →
  Timedelta ext (window_size (thresholds self)) = Ok window →
  getitem memory_df "Memory Usage" = Ok usage →
  rolling_window_mean ext window (zip (index_of memory_df) usage) = Ok means →
  rolling_window_std ext window (zip (index_of memory_df) usage) = Ok stds →
  linregress ext (map (fun t => seconds (t - t0)) (index_of memory_df)) usage = Ok lr →
  ∃ trend,
    _analyze_memory_trend ext self = Ok (Some trend)
    ∧ slope trend = lr_slope lr
    ∧ p_value trend = lr_pvalue lr
    ∧ (∀ s, lr_slope lr = Some s → (0 < s)%Q → growth_rate trend = s)
    ∧ (∀ s, lr_slope lr = Some s → (s <= 0)%Q → growth_rate trend = 0%Q)
    ∧ (lr_slope lr = None → growth_rate trend = 0%Q)
    ∧ (is_significant trend = true
       ↔ ∃ p, lr_pvalue lr = Some p ∧ (p < 0.05)%Q).
Proof.
  intros Hdf Hne Hnorm Ht0 Hwin Husage Hmean Hstd Hlr.
  unfold _analyze_memory_trend. rewrite Hdf, Hne, Hnorm. simpl.
  rewrite Ht0. simpl. rewrite Hwin. simpl. rewrite Husage. simpl.
  rewrite Hmean. simpl. rewrite Hstd. simpl. rewrite Hlr. simpl.
  eexists. split; [reflexivity|]. simpl.
  split; [done|]. split; [done|]. split; [|split; [|split]].
  - intros s -> Hs. simpl. by apply Qltb_lt in Hs as ->.
  - intros s -> Hs. simpl. by apply Qltb_ge in Hs as ->.
  - by intros ->.
  - destruct (lr_pvalue lr) as [p|]; simpl.
    + rewrite Qltb_lt. split; [eauto|]. by intros (? & [= <-] & ?).
    + split; [done|]. by intros (? & ? & ?).
Qed.

(** The analyzer has no guard of its own around the regression: what
    [linregress] raises, it raises. *)
Lemma analyze_memory_trend_regression_raises
    (self : Module) (df memory_df : DataFrame) (t0 window : Z) (usage : list Cell)
    (means stds : Series) (e : exn) :
  dataframes self !! "Memory Usage" = Some df →
  df_empty df = false →
  normalize ext df = Ok memory_df →
  head (index_of memory_df) = Some t0 →
  Timedelta ext (window_size (thresholds self)) = Ok window →
  getitem memory_df "Memory Usage" = Ok usage →
  rolling_window_mean ext window (zip (index_of memory_df) usage) = Ok means →
  rolling_window_std ext window (zip (index_of memory_df) usage) = Ok stds →
  linregress ext (map (fun t => seconds (t - t0)) (index_of memory_df)) usage = Raise e →
  _analyze_memory_trend ext self = Raise e.
Proof.
  intros Hdf Hne Hnorm Ht0 Hwin Husage Hmean Hstd Hlr.
  unfold _analyze_memory_trend. rewrite Hdf, Hne, Hnorm. simpl.
  rewrite Ht0. simpl. rewrite Hwin. simpl. rewrite Husage. simpl.
  rewrite Hmean. simpl. rewrite Hstd. simpl. by rewrite Hlr.
Qed.

End Trend.

Lemma analyze_memory_trend_growth_rate_witness :
  ∃ trend,
    _analyze_memory_trend TrendExample.externals TrendExample.self = Ok (Some trend)
    ∧ slope trend = Some (1 # 6)
    ∧ p_value trend = Some (2 # 3)
    ∧ (∀ s, Some (1 # 6) = Some s → (0 < s)%Q → growth_rate trend = s)
    ∧ (∀ s, Some (1 # 6) = Some s → (s <= 0)%Q → growth_rate trend = 0%Q)
    ∧ (@eq pyfloat (Some (1 # 6)) None → growth_rate trend = 0%Q)
    ∧ (is_significant trend = true
       ↔ ∃ p, Some (2 # 3) = Some p ∧ (p < 0.05)%Q).
Proof.
  apply (analyze_memory_trend_growth_rate TrendExample.externals TrendExample.self
           TrendExample.usage TrendExample.usage 0 1000000000
           (map (fun r => cell r "Memory Usage") (df_rows TrendExample.usage))
           [(0%Z, Some (1 # 3)); (1000000000%Z, Some 1%Q); (2000000000%Z, Some (2 # 3))]
           [(0%Z, None); (1000000000%Z, None); (2000000000%Z, None)]
           TrendExample.regression);
    vm_compute; reflexivity.
Defined.

(** C4 as stated fails: the slope is positive, the p-value is 2/3 and the
    trend is not significant, yet the growth rate is the slope, not 0. *)
Lemma growth_rate_without_significance :
  ∃ trend,
    _analyze_memory_trend TrendExample.externals TrendExample.self = Ok (Some trend)
    ∧ slope trend = Some (1 # 6)
    ∧ p_value trend = Some (2 # 3)
    ∧ is_significant trend = false
    ∧ growth_rate trend = (1 # 6)
    ∧ ¬ (growth_rate trend == 0)%Q.
Proof.
  eexists. split; [vm_compute; reflexivity|]. simpl.
  repeat split. intros H. discriminate H.
Qed.

(** ** C9: the metrics after the result is built *)

Section Presentation.

Variable ext : Externals.

(** [interpret] reads the result and leaves it as it was. *)
Lemma interpret_keeps_result (self : Module) (r : LeakAnalysisResult) :
  (interpret self r).2 = r.
Proof.
  unfold interpret.
  destruct (_ ← _; _) as [[]|e]; [|done].
  by destruct (_track_pointer_lifecycle self) as [[?|?] ?].
Qed.

Lemma plot_memory_usage_metrics
    (df : DataFrame) (r : LeakAnalysisResult) (usage_max : pyfloat) :
  getitem df "Memory Usage" ≫= column_max = Ok usage_max →
  plot_memory_usage df r
  = (Ok (),
     set_metrics r
       {| unreleased_allocations := unreleased_allocations (metrics r);
          total_allocations := total_allocations (metrics r);
          leak_rate := leak_rate (metrics r);
          avg_allocation_size := avg_allocation_size (metrics r);
          max_continuous_growth_duration := max_continuous_growth_duration (metrics r);
          memory_fragmentation_score := memory_fragmentation_score (metrics r);
          regression_slope := fmul (regression_slope (metrics r)) usage_max;
          regression_intercept := fmul (regression_intercept (metrics r)) usage_max |}).
Proof.
  intros Hmax. unfold plot_memory_usage. by rewrite Hmax.
Qed.

(** C9 (the code does otherwise). With a memory-usage table that is not
    empty, [plot_memory_leak_analysis] writes to the metrics of the result
    it is given: the regression slope and intercept are multiplied by the
    maximum of the memory usage, and stay so whether or not the rest of the
    call succeeds. *)
Theorem plot_rescales_regression
    (self : Module) (r : LeakAnalysisResult) (df : DataFrame) (usage_max : pyfloat) :
  dataframes self !! "Memory Usage" = Some df →
  df_empty df = false →
  getitem df "Memory Usage" ≫= column_max = Ok usage_max →
  let r' := (plot_memory_leak_analysis ext self r).2 in
  regression_slope (metrics r') = fmul (regression_slope (metrics r)) usage_max
  ∧ regression_intercept (metrics r') = fmul (regression_intercept (metrics r)) usage_max.
Proof.
  intros Hdf Hne Hmax r'.
  assert (r' = (plot_memory_usage df r).2) as ->.
  { unfold r', plot_memory_leak_analysis. rewrite Hdf.
    change (default empty_frame (Some df)) with df. rewrite Hne.
    change (negb false) with true. cbv iota.
    destruct (plot_memory_usage df r) as [[[]|e] r1]; [|done].
    destruct (negb _); [|done].
    by destruct (plot_memory_operations _ _ _) as [? ?]. }
  by rewrite (plot_memory_usage_metrics df r usage_max Hmax).
Qed.

End Presentation.

Lemma plot_rescales_regression_witness :
  let r' := PlotExample.plotted PlotExample.analysis_result in
  regression_slope (metrics r') = fmul (Some 0.5%Q) (Some 4%Q)
  ∧ regression_intercept (metrics r') = fmul (Some 0.5%Q) (Some 4%Q).
Proof.
  apply (plot_rescales_regression Examples.externals PlotExample.self
           PlotExample.analysis_result
           (Examples.memory_table [(0%Z, 2%Q); (1%Z, 4%Q)]) (Some 4%Q));
    vm_compute; reflexivity.
Defined.

(** One call turns the slope 0.5 into 2, a second call into 8. *)
Lemma plot_twice_rescales_twice :
  let once := PlotExample.plotted PlotExample.analysis_result in
  let twice := PlotExample.plotted once in
  (∃ a b, regression_slope (metrics once) = Some a ∧ (a == 2)%Q
          ∧ regression_intercept (metrics once) = Some b ∧ (b == 2)%Q)
  ∧ (∃ a b, regression_slope (metrics twice) = Some a ∧ (a == 8)%Q
            ∧ regression_intercept (metrics twice) = Some b ∧ (b == 8)%Q).
Proof.
  split; eexists _, _; (split; [vm_compute; reflexivity|]);
    (split; [reflexivity|]); (split; [vm_compute; reflexivity|reflexivity]).
Qed.

(** ** C6: the maximum continuous growth duration *)

Lemma growth_periods_never_increases (prev : Q) (vs : list Q) :
  never_increases prev vs →
  map (fltb (Some 0%Q)) (diff_from (Some prev) (map Some vs))
  = replicate (length vs) false.
Proof.
  revert prev. induction vs as [|v vs IH]; intros prev; simpl; [done|].
  intros [Hv Hvs]. rewrite (IH v Hvs). f_equal.
  apply Qltb_ge. lra.
Qed.

Lemma ne_shift_from_replicate (b : bool) (n : nat) :
  ne_shift_from (Some b) (replicate n b) = replicate n false.
Proof.
  induction n as [|n IH]; simpl; [done|].
  rewrite IH. by rewrite bool_decide_true.
Qed.

Lemma cumsum_from_replicate_false (acc n : nat) :
  cumsum_from acc (replicate n false) = replicate n acc.
Proof.
  induction n as [|n IH]; simpl; [done|]. by rewrite IH.
Qed.

Lemma remove_dups_replicate (a n : nat) : remove_dups (replicate (S n) a) = [a].
Proof.
  induction n as [|n IH]; [done|].
  change (replicate (S (S n)) a) with (a :: replicate (S n) a).
  cbn [remove_dups].
  destruct (decide_rel elem_of a (replicate (S n) a)) as [_|Hn]; [exact IH|].
  exfalso. apply Hn. simpl. left.
Qed.

Lemma filter_zip_replicate {A : Type} (a n : nat) (items : list A) :
  List.filter (fun p => bool_decide (p.1 = a)) (zip (replicate n a) items)
  = zip (replicate n a) items.
Proof.
  revert items. induction n as [|n IH]; intros [|x items]; simpl; try done.
  rewrite bool_decide_true by done. by rewrite IH.
Qed.

Lemma map_snd_zip_replicate {A : Type} (a : nat) (items : list A) :
  map snd (zip (replicate (length items) a) items) = items.
Proof.
  induction items as [|x items IH]; simpl; [done|]. by rewrite IH.
Qed.

(** A series with one label is one group. *)
Lemma groupby_labels_single {A : Type} (a : nat) (x : A) (items : list A) :
  groupby_labels (replicate (length (x :: items)) a) (x :: items) = [x :: items].
Proof.
  unfold groupby_labels. simpl length. rewrite remove_dups_replicate.
  change (merge_sort le [a]) with [a]. cbn [map].
  rewrite filter_zip_replicate. f_equal.
  apply (map_snd_zip_replicate a (x :: items)).
Qed.

Lemma zip_snoc_replicate {A B : Type} (l : list A) (x : A) (b : B) :
  zip (l ++ [x]) (replicate (S (length l)) b) = zip l (replicate (length l) b) ++ [(x, b)].
Proof.
  induction l as [|y l IH]; [done|].
  simpl length. change (replicate (S (S (length l))) b) with (b :: replicate (S (length l)) b).
  simpl. by rewrite <- IH.
Qed.

Lemma to_series_values (samples : list (Z * Q)) :
  map snd (to_series samples) = map Some (map snd samples).
Proof. unfold to_series. rewrite !map_map. done. Qed.

Lemma to_series_index (samples : list (Z * Q)) :
  map fst (to_series samples) = map fst samples.
Proof. unfold to_series. rewrite !map_map. done. Qed.

(** On a series of at least two samples whose value never increases, the
    computation returns the time from the first sample to the last. *)
Lemma max_growth_duration_never_increases
    (t0 tn : Z) (v0 vn : Q) (middle : list (Z * Q)) :
  never_increases v0 (map snd (middle ++ [(tn, vn)])) →
  max_growth_duration_of (to_series ((t0, v0) :: middle ++ [(tn, vn)]))
  = Some (seconds (tn - t0)).
Proof.
  intros Hdown. unfold max_growth_duration_of.
  rewrite to_series_values, to_series_index.
  set (rest := middle ++ [(tn, vn)]) in *.
  assert (map fst ((t0, v0) :: rest) = t0 :: map fst middle ++ [tn]) as ->.
  { simpl. unfold rest. by rewrite map_app. }
  cbn [map snd].
  assert (length (map snd rest) = S (length (map fst middle))) as Hlen.
  { unfold rest. rewrite !length_map, length_app. simpl. lia. }
  assert (map (fltb (Some 0%Q)) (diff (Some v0 :: map Some (map snd rest)))
          = false :: replicate (S (length (map fst middle))) false) as ->.
  { unfold diff. cbn [diff_from map]. f_equal.
    by rewrite (growth_periods_never_increases v0 _ Hdown), Hlen. }
  unfold ne_shift. cbn [ne_shift_from]. rewrite ne_shift_from_replicate.
  unfold cumsum. cbn [cumsum_from]. rewrite cumsum_from_replicate_false.
  cbn [zip zip_with]. fold (zip (map fst middle ++ [tn])
                              (replicate (S (length (map fst middle))) false)).
  rewrite zip_snoc_replicate.
  set (items := zip (map fst middle) (replicate (length (map fst middle)) false)
                ++ [(tn, false)]).
  assert (S (length (map fst middle)) = length items) as ->.
  { unfold items. rewrite length_app, length_zip, length_replicate. simpl. lia. }
  change (if negb (bool_decide (None = Some false)) then 1 else 0) with 1.
  change (1 :: replicate (length items) 1)
    with (replicate (length ((t0, false) :: items)) 1).
  rewrite (groupby_labels_single 1 (t0, false) items).
  simpl map. unfold max_of, span_of_group. simpl fold_left.
  rewrite bool_decide_true.
  2:{ unfold items. simpl. rewrite length_app. simpl. lia. }
  simpl head. unfold items. rewrite app_comm_cons, last_snoc. done.
Qed.

(** C6 (the code does otherwise). The runs are those of the flag "the mean
    grew", the runs where it did not grow among them: on a mean that rises
    from 0 s to 2 s and is flat from 3 s to 7 s the metrics record holds
    4 s, the span of the flat run, and on a mean that falls for the whole
    of 10 s it holds 10 s. *)
Theorem max_growth_duration_counts_flat_runs :
  (∃ m d, _calculate_memory_metrics GrowthExample.ptr_tracking
            (Some GrowthExample.memory_trend) (Some GrowthExample.allocation_patterns)
          = Ok m
          ∧ max_continuous_growth_duration m = Some d ∧ (d == 4)%Q)
  ∧ (∃ d, max_growth_duration_of
            (to_series [(0%Z, 3%Q); (5000000000%Z, 2%Q); (10000000000%Z, 1%Q)])
          = Some d ∧ (d == 10)%Q).
Proof.
  split.
  - eexists _, _. split; [vm_compute; reflexivity|]. split; reflexivity.
  - eexists. split.
    + apply (max_growth_duration_never_increases 0 10000000000 3 1 [(5000000000%Z, 2%Q)]).
      simpl. repeat split; lra.
    + reflexivity.
Qed.

(** ** C10: an event type that names both malloc and free *)

Lemma append_cons (a : Ascii.ascii) (p q : string) :
  String a p +:+ q = String a (p +:+ q).
Proof. reflexivity. Qed.

Lemma append_nil (q : string) : "" +:+ q = q.
Proof. reflexivity. Qed.

Lemma prefix_app (p s : string) :
  String.prefix p s = true ↔ ∃ post, s = p +:+ post.
Proof.
  revert s. induction p as [|a p IH]; intros s; simpl.
  - destruct s; split; eauto.
  - destruct s as [|b s]; simpl.
    + split; [done|]. intros [post H]. by rewrite append_cons in H.
    + destruct (Ascii.ascii_dec a b) as [->|Hab].
      * rewrite IH. split; intros [post Hs]; exists post; rewrite append_cons in *;
          congruence.
      * split; [done|]. intros [post H]. rewrite append_cons in H. congruence.
Qed.

Lemma str_contains_nil (pat : string) :
  str_contains pat "" = String.prefix pat "" || false.
Proof. reflexivity. Qed.

Lemma str_contains_cons (pat : string) (c : Ascii.ascii) (s : string) :
  str_contains pat (String c s) = String.prefix pat (String c s) || str_contains pat s.
Proof. reflexivity. Qed.

(** [str_contains pat s] holds exactly when [pat] is a substring of [s]. *)
Lemma str_contains_spec (pat s : string) :
  str_contains pat s = true ↔ ∃ pre post, s = pre +:+ pat +:+ post.
Proof.
  split.
  - induction s as [|c s IH].
    + rewrite str_contains_nil, orb_true_iff.
      intros [H|H]; [|done]. apply prefix_app in H as [post Hs]. by exists "", post.
    + rewrite str_contains_cons, orb_true_iff. intros [H|H].
      * apply prefix_app in H as [post Hs]. by exists "", post.
      * destruct (IH H) as (pre & post & ->). by exists (String c pre), post.
  - intros (pre & post & ->). induction pre as [|c pre IH].
    + rewrite append_nil.
      assert (String.prefix pat (pat +:+ post) = true) as Hp.
      { apply prefix_app. eauto. }
      destruct (pat +:+ post).
      * by rewrite str_contains_nil, Hp.
      * by rewrite str_contains_cons, Hp.
    + rewrite append_cons, str_contains_cons. apply orb_true_iff. by right.
Qed.

Lemma names_malloc_and_free_contains (c : Cell) :
  names_malloc_and_free c → cell_contains "malloc" c = true ∧ cell_contains "free" c = true.
Proof.
  intros (s & pre & post & pre' & post' & -> & H1 & H2). simpl.
  split; apply str_contains_spec; eauto.
Qed.

Lemma cell_set_cell_ne (r : Row) (k k' : string) (v : Cell) :
  k ≠ k' → cell (set_cell r k v) k' = cell r k'.
Proof. intros Hk. unfold cell, set_cell. simpl. by rewrite lookup_insert_ne. Qed.

Lemma cell_set_cell_eq (r : Row) (k : string) (v : Cell) :
  cell (set_cell r k v) k = v.
Proof. unfold cell, set_cell. simpl. by rewrite lookup_insert_eq. Qed.

Lemma cell_rename_row_ne (r : Row) (old new k : string) :
  k ≠ old → k ≠ new → cell (rename_row old new r) k = cell r k.
Proof.
  intros Ho Hn. unfold rename_row, cell. destruct (row_cells r !! old); [|done].
  simpl. by rewrite lookup_insert_ne, lookup_delete_ne.
Qed.

Lemma mapM_result_Forall2 {A B : Type} (f : A → result B) (l : list A) (l' : list B) :
  mapM f l = Ok l' → Forall2 (fun x y => f x = Ok y) l l'.
Proof.
  revert l'. induction l as [|x l IH]; intros l'; simpl.
  - intros [= <-]. constructor.
  - destruct (f x) as [y|e] eqn:Hy; simpl; [|done].
    destruct (mapM f l) as [ys|e]; simpl; [|done].
    intros [= <-]. constructor; [done|]. by apply IH.
Qed.

Lemma convert_column_rows (d d' : DataFrame) (k : string) (f : Cell → result Cell) :
  convert_column d k f = Ok d' →
  df_columns d' = df_columns d
  ∧ Forall2 (fun r r' => ∃ v, f (cell r k) = Ok v ∧ r' = set_cell r k v)
      (df_rows d) (df_rows d').
Proof.
  unfold convert_column. destruct (getitem d k); simpl; [|done].
  destruct (mapM _ (df_rows d)) as [rows|e] eqn:Hrows; simpl; [|done].
  intros [= <-]. split; [done|]. simpl.
  apply mapM_result_Forall2 in Hrows.
  eapply Forall2_impl; [exact Hrows|]. simpl. intros r r' Hr.
  destruct (f (cell r k)) as [v|e]; simpl in Hr; [|done].
  injection Hr as <-. eauto.
Qed.

Lemma convert_column_same_event (d d' : DataFrame) (k : string) (f : Cell → result Cell) :
  k ≠ "Event type" → k ≠ "event_category" →
  convert_column d k f = Ok d' →
  Forall2 same_event (df_rows d) (df_rows d').
Proof.
  intros H1 H2 Hc. apply convert_column_rows in Hc as [_ Hrows].
  eapply Forall2_impl; [exact Hrows|]. intros r r' (v & _ & ->).
  split; [done|]. split; by apply cell_set_cell_ne.
Qed.

Lemma rename_same_event (d : DataFrame) :
  Forall2 same_event (df_rows d) (df_rows (rename d "size" "allocation_size")).
Proof.
  unfold rename. destruct (has_column d "size"); simpl.
  - induction (df_rows d) as [|r rows IH]; simpl; constructor; [|done].
    split; [|split; by apply cell_rename_row_ne].
    unfold rename_row. by destruct (row_cells r !! "size").
  - induction (df_rows d); constructor; [done|done].
Qed.

Section Classification.

Variable ext : Externals.

(** The category of a row after the three assignments. *)
Lemma categorise_row (df : DataFrame) :
  df_rows (categorise (assign_all df "event_category" (CStr "other")))
  = map (fun r =>
           let r1 := set_cell r "event_category" (CStr "other") in
           let r2 := if event_type_contains "malloc" r1
                     then set_cell r1 "event_category" (CStr "allocation") else r1 in
           if event_type_contains "free" r2
           then set_cell r2 "event_category" (CStr "deallocation") else r2)
        (df_rows df).
Proof. unfold categorise, assign_where, assign_all. simpl. by rewrite !map_map. Qed.

Lemma categorise_both (df : DataFrame) (r : Row) :
  r ∈ df_rows df → names_malloc_and_free (cell r "Event type") →
  ∃ r3, r3 ∈ df_rows (categorise (assign_all df "event_category" (CStr "other")))
        ∧ same_event (set_cell r "event_category" (CStr "deallocation")) r3.
Proof.
  intros Hr Hboth. apply names_malloc_and_free_contains in Hboth as [Hm Hf].
  rewrite categorise_row. eexists. split.
  { apply list_elem_of_In, in_map, list_elem_of_In, Hr. }
  cbv zeta.
  assert (event_type_contains "malloc" (set_cell r "event_category" (CStr "other"))
          = true) as ->.
  { unfold event_type_contains. by rewrite cell_set_cell_ne. }
  assert (event_type_contains "free"
            (set_cell (set_cell r "event_category" (CStr "other"))
               "event_category" (CStr "allocation")) = true) as ->.
  { unfold event_type_contains. by rewrite !cell_set_cell_ne. }
  split; [done|]. split; [by rewrite !cell_set_cell_ne|].
  by rewrite !cell_set_cell_eq.
Qed.

Lemma categorise_invariant (df : DataFrame) (r3 : Row) :
  r3 ∈ df_rows (categorise (assign_all df "event_category" (CStr "other"))) →
  names_malloc_and_free (cell r3 "Event type") →
  cell r3 "event_category" = CStr "deallocation".
Proof.
  rewrite categorise_row. intros Hr Hboth.
  apply list_elem_of_In, in_map_iff in Hr as (r & <- & _).
  apply names_malloc_and_free_contains in Hboth as [_ Hf].
  revert Hf. simpl.
  set (r2 := if event_type_contains "malloc" _ then _ else _).
  destruct (event_type_contains "free" r2) eqn:E.
  - intros _. apply cell_set_cell_eq.
  - intros Hf. unfold event_type_contains in E. congruence.
Qed.

(** The rows that [keep_memory_events] returns are those that are not
    ["other"], each the same event as before. *)
Lemma keep_memory_events_rows (df3 df' : DataFrame) :
  keep_memory_events ext df3 = Ok df' →
  Forall2 same_event
    (List.filter (fun r => negb (is_category "other" r)) (df_rows df3)) (df_rows df').
Proof.
  unfold keep_memory_events.
  set (sel := select df3 _).
  destruct (convert_column (rename sel _ _) _ _) as [d1|e] eqn:H1; simpl; [|done].
  intros H2.
  apply convert_column_same_event in H1; [|done..].
  apply convert_column_same_event in H2; [|done..].
  pose proof (rename_same_event sel) as H0.
  assert (∀ l1 l2 l3 : list Row,
             Forall2 same_event l1 l2 → Forall2 same_event l2 l3 →
             Forall2 same_event l1 l3) as Htrans.
  { intros l1 l2 l3 Ha. revert l3. induction Ha; intros l3 Hb; inversion Hb; subst;
      constructor; [|by auto].
    unfold same_event in *. intuition congruence. }
  eapply Htrans; [|exact H2]. eapply Htrans; [exact H0|exact H1].
Qed.

Lemma Forall2_same_event_r (l l' : list Row) (r' : Row) :
  Forall2 same_event l l' → r' ∈ l' → ∃ r, r ∈ l ∧ same_event r r'.
Proof.
  induction 1 as [|x y l l' Hxy _ IH]; intros Hr.
  - by apply elem_of_nil in Hr.
  - apply elem_of_cons in Hr as [->|Hr].
    + exists x. split; [left|done].
    + destruct (IH Hr) as (r & ? & ?). exists r. split; [by right|done].
Qed.

Lemma Forall2_same_event_l (l l' : list Row) (r : Row) :
  Forall2 same_event l l' → r ∈ l → ∃ r', r' ∈ l' ∧ same_event r r'.
Proof.
  induction 1 as [|x y l l' Hxy _ IH]; intros Hr.
  - by apply elem_of_nil in Hr.
  - apply elem_of_cons in Hr as [->|Hr].
    + exists y. split; [left|done].
    + destruct (IH Hr) as (r' & ? & ?). exists r'. split; [by right|done].
Qed.

(** [_separate_events] classifies as [_post_process] does. *)
Lemma separate_events_malloc_and_free (dataframe separated : DataFrame) (r : Row) :
  _separate_events ext dataframe = Ok separated →
  r ∈ df_rows separated →
  names_malloc_and_free (cell r "Event type") →
  cell r "event_category" = CStr "deallocation".
Proof.
  unfold _separate_events. destruct (getitem _ "Event type"); simpl; [|done].
  intros Hkeep Hr Hboth. apply keep_memory_events_rows in Hkeep.
  destruct (Forall2_same_event_r _ _ r Hkeep Hr) as (r3 & Hr3 & _ & Hty & Hcat).
  apply list_elem_of_In, filter_In in Hr3 as [Hr3 _]. apply list_elem_of_In in Hr3.
  rewrite Hty in Hboth.
  pose proof (categorise_invariant dataframe r3 Hr3 Hboth). congruence.
Qed.

(** C10. After [_post_process], a row of the events table whose event type
    contains both ["malloc"] and ["free"] has the category
    ["deallocation"], and it is not among the rows that the later steps
    select as allocations; each such row of the table that was given is
    kept, as a deallocation; and [_separate_events] gives such a row the
    same category. *)
Theorem post_process_malloc_and_free
    (self self' : Module) (raw events : DataFrame) :
  dataframes self !! "Events Table" = Some raw →
  _post_process ext self = (Ok (), self') →
  dataframes self' !! "Events Table" = Some events →
  (∀ r, r ∈ df_rows events →
        names_malloc_and_free (cell r "Event type") →
        cell r "event_category" = CStr "deallocation"
        ∧ is_category "deallocation" r = true
        ∧ is_category "allocation" r = false
        ∧ r ∉ df_rows (select events (is_category "allocation")))
  ∧ (forallb (has_column raw) ["size"; "ptr"] = true →
     ∀ r0, r0 ∈ df_rows raw →
           names_malloc_and_free (cell r0 "Event type") →
           ∃ r, r ∈ df_rows events
                ∧ row_index r = row_index r0
                ∧ cell r "Event type" = cell r0 "Event type"
                ∧ cell r "event_category" = CStr "deallocation")
  ∧ (∀ dataframe separated r,
       _separate_events ext dataframe = Ok separated →
       r ∈ df_rows separated →
       names_malloc_and_free (cell r "Event type") →
       cell r "event_category" = CStr "deallocation").
Proof.
  intros Hraw Hpost Hevents.
  refine ((fun H => conj (proj1 H) (conj (proj2 H) _)) _);
    [apply separate_events_malloc_and_free|].
  unfold _post_process in Hpost. rewrite Hraw in Hpost.
  assert (∀ r, cell r "event_category" = CStr "deallocation" →
               is_category "deallocation" r = true
               ∧ is_category "allocation" r = false
               ∧ r ∉ df_rows (select events (is_category "allocation"))) as Hdown.
  { intros r Hc. unfold is_category. rewrite Hc. simpl. split; [done|]. split; [done|].
    intros Hin. apply list_elem_of_In, filter_In in Hin as [_ Hin].
    unfold is_category in Hin. by rewrite Hc in Hin. }
  destruct (forallb (has_column raw) ["size"; "ptr"]) eqn:Hcols; simpl in Hpost.
  2:{ injection Hpost as <-. simpl in Hevents. rewrite lookup_insert_eq in Hevents.
      injection Hevents as <-. split; [|done]. intros r Hr. by apply elem_of_nil in Hr. }
  set (df1 := assign_all raw "event_category" (CStr "other")) in *.
  destruct (getitem df1 "Event type"); [|done].
  destruct (keep_memory_events ext (categorise df1)) as [df'|e] eqn:Hkeep; [|done].
  injection Hpost as <-. simpl in Hevents. rewrite lookup_insert_eq in Hevents.
  injection Hevents as <-.
  apply keep_memory_events_rows in Hkeep.
  split.
  - intros r Hr Hboth.
    destruct (Forall2_same_event_r _ _ r Hkeep Hr) as (r3 & Hr3 & _ & Hty & Hcat).
    apply list_elem_of_In, filter_In in Hr3 as [Hr3 _]. apply list_elem_of_In in Hr3.
    rewrite Hty in Hboth.
    pose proof (categorise_invariant raw r3 Hr3 Hboth) as Hc.
    assert (cell r "event_category" = CStr "deallocation") as Hc' by congruence.
    split; [done|]. by apply Hdown.
  - intros _ r0 Hr0 Hboth.
    destruct (categorise_both raw r0 Hr0 Hboth) as (r3 & Hr3 & Hi3 & Hty3 & Hcat3).
    rewrite cell_set_cell_eq in Hcat3. rewrite cell_set_cell_ne in Hty3 by done.
    simpl in Hi3.
    assert (r3 ∈ List.filter (fun r => negb (is_category "other" r))
                    (df_rows (categorise df1))) as Hsel.
    { apply list_elem_of_In, filter_In. split; [by apply list_elem_of_In|].
      unfold is_category. by rewrite Hcat3. }
    destruct (Forall2_same_event_l _ _ r3 Hkeep Hsel) as (r & Hr & Hi & Hty & Hcat).
    exists r. split; [done|]. split; [congruence|]. split; congruence.
Qed.

End Classification.

Lemma post_process_malloc_and_free_witness :
  (∀ r, r ∈ df_rows ClassificationExample.events →
        names_malloc_and_free (cell r "Event type") →
        cell r "event_category" = CStr "deallocation"
        ∧ is_category "deallocation" r = true
        ∧ is_category "allocation" r = false
        ∧ r ∉ df_rows (select ClassificationExample.events (is_category "allocation")))
  ∧ (forallb (has_column ClassificationExample.raw) ["size"; "ptr"] = true →
     ∀ r0, r0 ∈ df_rows ClassificationExample.raw →
           names_malloc_and_free (cell r0 "Event type") →
           ∃ r, r ∈ df_rows ClassificationExample.events
                ∧ row_index r = row_index r0
                ∧ cell r "Event type" = cell r0 "Event type"
                ∧ cell r "event_category" = CStr "deallocation")
  ∧ (∀ dataframe separated r,
       _separate_events Examples.externals dataframe = Ok separated →
       r ∈ df_rows separated →
       names_malloc_and_free (cell r "Event type") →
       cell r "event_category" = CStr "deallocation").
Proof.
  apply (post_process_malloc_and_free Examples.externals
           ClassificationExample.self ClassificationExample.self'
           ClassificationExample.raw ClassificationExample.events);
    vm_compute; reflexivity.
Defined.

(** The second event of the example names both; it is kept as a
    deallocation, and one allocation is counted where two events name
    malloc. *)
Lemma post_process_example_categories :
  map (fun r => (row_index r, cell r "event_category"))
      (df_rows ClassificationExample.events)
  = [(0%Z, CStr "allocation"); (1%Z, CStr "deallocation"); (3%Z, CStr "deallocation")].
Proof. vm_compute. reflexivity. Qed.

(** ** C7: the lifecycle records *)

Lemma count_cons {A : Type} (f : A → bool) (x : A) (l : list A) :
  count f (x :: l) = ((if f x then 1 else 0) + count f l)%nat.
Proof. unfold count. simpl. by destruct (f x). Qed.

Lemma count_app {A : Type} (f : A → bool) (l l' : list A) :
  count f (l ++ l') = (count f l + count f l')%nat.
Proof. unfold count. by rewrite List.filter_app, length_app. Qed.

Lemma count_ext {A : Type} (f g : A → bool) (l : list A) :
  (∀ x, x ∈ l → f x = g x) → count f l = count g l.
Proof.
  induction l as [|x l IH]; intros H; [done|].
  rewrite !count_cons, (H x), IH; [done| |left].
  intros y Hy. apply H. by right.
Qed.

Lemma count_map {A B : Type} (f : B → bool) (h : A → B) (l : list A) :
  count f (map h l) = count (fun x => f (h x)) l.
Proof.
  induction l as [|x l IH]; [done|]. simpl map. by rewrite !count_cons, IH.
Qed.

Lemma count_flat_map {A B : Type} (f : B → bool) (g : A → list B) (l : list A) :
  count f (flat_map g l) = sum_list (map (fun x => count f (g x)) l).
Proof.
  induction l as [|x l IH]; [done|]. simpl. by rewrite count_app, IH.
Qed.

Lemma count_all {A : Type} (f : A → bool) (l : list A) :
  (∀ x, x ∈ l → f x = true) → count f l = length l.
Proof.
  induction l as [|x l IH]; intros H; [done|].
  rewrite count_cons, (H x), IH; [done| |left].
  intros y Hy. apply H. by right.
Qed.

Lemma count_none {A : Type} (f : A → bool) (l : list A) :
  (∀ x, x ∈ l → f x = false) → count f l = 0%nat.
Proof.
  induction l as [|x l IH]; intros H; [done|].
  rewrite count_cons, (H x), IH; [done| |left].
  intros y Hy. apply H. by right.
Qed.

Lemma count_Permutation {A : Type} (f : A → bool) (l l' : list A) :
  l ≡ₚ l' → count f l = count f l'.
Proof.
  induction 1 as [|x l l' _ IH|x y l|l l' l'' _ IH1 _ IH2];
    rewrite ?count_cons; lia.
Qed.

Lemma head_filter_unique {A : Type} (f : A → bool) (l : list A) (a : A) :
  (count f l ≤ 1)%nat → a ∈ l → f a = true → head (List.filter f l) = Some a.
Proof.
  induction l as [|x l IH]; intros Hc Ha Hf.
  - by apply elem_of_nil in Ha.
  - rewrite count_cons in Hc. simpl. destruct (f x) eqn:Hx.
    + apply elem_of_cons in Ha as [->|Ha]; [done|]. exfalso.
      assert (count f l = 0)%nat as H0 by lia.
      unfold count in H0. apply length_zero_iff_nil in H0.
      assert (a ∈ List.filter f l) as Hin.
      { apply list_elem_of_In, filter_In. split; [by apply list_elem_of_In|done]. }
      rewrite H0 in Hin. by apply elem_of_nil in Hin.
    + apply elem_of_cons in Ha as [->|Ha]; [congruence|]. apply IH; [lia|done..].
Qed.

(** *** Keys *)

Lemma cell_eqb_str (p : string) (c : Cell) : cell_eqb (CStr p) c = cell_is_str p c.
Proof.
  destruct c; simpl; try done.
  destruct (decide (p = s)) as [->|Hne].
  - by rewrite !bool_decide_true.
  - rewrite !bool_decide_false; [done|congruence|done].
Qed.

Lemma cell_is_str_true (p : string) (c : Cell) : cell_is_str p c = true → c = CStr p.
Proof.
  destruct c; simpl; try done. intros H. apply bool_decide_eq_true in H. by subst.
Qed.

Lemma cell_eqb_str_r (p : string) (c : Cell) : cell_eqb c (CStr p) = cell_is_str p c.
Proof. destruct c; simpl; done. Qed.

Lemma count_filter_removed {A : Type} (f g : A → bool) (l : list A) :
  (∀ x, f x = true → g x = false) → count f (List.filter g l) = 0%nat.
Proof.
  intros H. apply count_none. intros x Hx.
  apply list_elem_of_In, filter_In in Hx as [_ Hg].
  destruct (f x) eqn:Hf; [|done]. rewrite (H x Hf) in Hg. done.
Qed.

Lemma count_filter_kept {A : Type} (f g : A → bool) (l : list A) :
  (∀ x, f x = true → g x = true) → count f (List.filter g l) = count f l.
Proof.
  intros H. induction l as [|x l IH]; [done|]. simpl.
  rewrite count_cons. destruct (g x) eqn:Hg.
  - by rewrite count_cons, IH.
  - rewrite IH. destruct (f x) eqn:Hf; [|done]. rewrite (H x Hf) in Hg. done.
Qed.

Lemma count_distinct_keys (p : string) (ks : list Cell) :
  count (cell_is_str p) (distinct_keys ks)
  = if existsb (cell_is_str p) ks then 1%nat else 0%nat.
Proof.
  induction ks as [|k ks IH]; [done|]. simpl.
  set (rest := List.filter _ (distinct_keys ks)).
  assert (count (cell_is_str p) rest
          = if cell_is_str p k then 0%nat else count (cell_is_str p) (distinct_keys ks))
    as Hrest.
  { unfold rest. destruct (cell_is_str p k) eqn:Hk.
    - apply count_filter_removed. intros c Hc.
      apply cell_is_str_true in Hk, Hc. subst. simpl. by rewrite bool_decide_true.
    - apply count_filter_kept. intros c Hc.
      apply cell_is_str_true in Hc. subst. by rewrite cell_eqb_str_r, Hk. }
  destruct (is_null k) eqn:Hnull.
  - destruct k; try done. simpl in *. by rewrite Hrest, IH.
  - rewrite count_cons, Hrest. destruct (cell_is_str p k); simpl; [done|]. by rewrite IH.
Qed.

Lemma distinct_keys_subset (k : Cell) (ks : list Cell) :
  k ∈ distinct_keys ks → k ∈ ks.
Proof.
  induction ks as [|k' ks IH]; [done|]. simpl.
  intros Hk.
  assert (k ∈ List.filter (fun c => negb (cell_eqb k' c)) (distinct_keys ks) → k ∈ ks)
    as Hrest.
  { intros H. apply list_elem_of_In, filter_In in H as [H _].
    by apply IH, list_elem_of_In. }
  destruct (is_null k').
  - right. by apply Hrest.
  - apply elem_of_cons in Hk as [->|Hk]; [left|right; by apply Hrest].
Qed.

Lemma has_duplicate_false (p : string) (ks : list Cell) :
  has_duplicate ks = false → (count (cell_is_str p) ks ≤ 1)%nat.
Proof.
  induction ks as [|k ks IH]; [simpl; intros; unfold count; simpl; lia|].
  simpl. intros H. apply orb_false_iff in H as [Hk Hks].
  rewrite count_cons. specialize (IH Hks).
  destruct (cell_is_str p k) eqn:Hp; [|lia].
  apply cell_is_str_true in Hp. subst k. simpl in Hk.
  assert (count (cell_is_str p) ks = 0)%nat; [|lia].
  apply count_none. intros c Hc. rewrite <- cell_eqb_str.
  destruct (cell_eqb (CStr p) c) eqn:E; [|done].
  assert (existsb (cell_eqb (CStr p)) ks = true); [|congruence].
  apply existsb_exists. exists c. split; [by apply list_elem_of_In|done].
Qed.

(** *** The allocation records *)

Lemma count_le_1_existsb {A : Type} (f : A → bool) (l : list A) :
  (count f l ≤ 1)%nat → count f l = if existsb f l then 1%nat else 0%nat.
Proof.
  induction l as [|x l IH]; [done|]. rewrite count_cons. simpl.
  destruct (f x); simpl; intros H.
  - lia.
  - by apply IH.
Qed.

Lemma existsb_map {A B : Type} (f : B → bool) (g : A → B) (l : list A) :
  existsb f (map g l) = existsb (fun x => f (g x)) l.
Proof. induction l as [|x l IH]; [done|]. simpl. by rewrite IH. Qed.

Lemma reset_index_cells (l : list Row) :
  Forall2 (fun r r' => row_cells r' = row_cells r) l (reset_index l).
Proof.
  unfold reset_index.
  generalize (fun i : nat => Z.of_nat i) as g.
  change (fun (i : nat) (r : Row) => {| row_index := Z.of_nat i; row_cells := row_cells r |})
    with (fun (i : nat) (r : Row) =>
            {| row_index := (fun i : nat => Z.of_nat i) i; row_cells := row_cells r |}).
  generalize (fun i : nat => Z.of_nat i) as h. intros h _.
  revert h. induction l as [|r l IH]; intros h; simpl; constructor; [done|].
  apply (IH (fun i => h (S i))).
Qed.

Lemma Forall2_cells_count (f : Row → bool) (l l' : list Row) :
  (∀ r r', row_cells r' = row_cells r → f r' = f r) →
  Forall2 (fun r r' => row_cells r' = row_cells r) l l' →
  count f l' = count f l.
Proof.
  intros Hf. induction 1 as [|r r' l l' Hr _ IH]; [done|].
  by rewrite !count_cons, (Hf r r' Hr), IH.
Qed.

Lemma Forall2_elem_of_r {A B : Type} (P : A → B → Prop) (l : list A) (l' : list B) (y : B) :
  Forall2 P l l' → y ∈ l' → ∃ x, x ∈ l ∧ P x y.
Proof.
  induction 1 as [|x0 y0 l l' H0 _ IH]; intros Hy.
  - by apply elem_of_nil in Hy.
  - apply elem_of_cons in Hy as [->|Hy].
    + exists x0. split; [left|done].
    + destruct (IH Hy) as (x & ? & ?). exists x. split; [by right|done].
Qed.

Lemma cell_of_cells (r r' : Row) (k : string) :
  row_cells r' = row_cells r → cell r' k = cell r k.
Proof. unfold cell. by intros ->. Qed.

Lemma lookup_list_to_map_columns (f : string → Cell) (cols : list string) (k : string) :
  k ∈ cols →
  (list_to_map (map (fun c => (c, f c)) cols) : gmap string Cell) !! k = Some (f k).
Proof.
  induction cols as [|c cols IH]; intros Hk.
  - by apply elem_of_nil in Hk.
  - simpl. destruct (decide (c = k)) as [->|Hne].
    + by rewrite lookup_insert_eq.
    + rewrite lookup_insert_ne by done. apply IH.
      apply elem_of_cons in Hk as [->|Hk]; [done|done].
Qed.


Lemma filter_map_commute {A B : Type} (f : B → bool) (g : A → B) (l : list A) :
  List.filter f (map g l) = map g (List.filter (fun x => f (g x)) l).
Proof.
  induction l as [|x l IH]; [done|]. simpl. destruct (f (g x)); simpl; by rewrite IH.
Qed.

Lemma filter_ext_in {A : Type} (f g : A → bool) (l : list A) :
  (∀ x, f x = g x) → List.filter f l = List.filter g l.
Proof. intros H. induction l as [|x l IH]; [done|]. simpl. by rewrite H, IH. Qed.

Lemma ptr_is_stamp (p : string) (r : Row) : ptr_is p (stamp_allocation r) = ptr_is p r.
Proof. unfold ptr_is, stamp_allocation. by rewrite cell_set_cell_ne. Qed.

Lemma stamped_rows (events : DataFrame) :
  df_rows (with_index_as (select events (is_category "allocation")) "allocation_time")
  = map stamp_allocation (allocations_of events).
Proof. reflexivity. Qed.

Lemma elem_of_add_column (cols : list string) (k k' : string) :
  k ∈ cols ∨ k = k' → k ∈ add_column cols k'.
Proof.
  unfold add_column. intros [H| ->]; case_bool_decide; try done.
  - apply elem_of_app. by left.
  - apply elem_of_app. right. left.
Qed.

(** A row of the grouped records: its key, and under [allocation_time] the
    first time of its group. *)
Lemma grouped_row_cells (events : DataFrame) (r : Row) :
  r ∈ df_rows (groupby_first
                 (with_index_as (select events (is_category "allocation")) "allocation_time")
                 "ptr") →
  ∃ key, key ∈ distinct_keys
                 (map (fun r => cell r "ptr") (map stamp_allocation (allocations_of events)))
         ∧ cell r "ptr" = key
         ∧ cell r "allocation_time"
           = first_valid
               (map (fun r => cell r "allocation_time")
                  (List.filter (fun r => cell_eqb key (cell r "ptr"))
                     (map stamp_allocation (allocations_of events)))).
Proof.
  unfold groupby_first. rewrite stamped_rows. cbn [df_rows df_columns].
  intros Hr.
  destruct (Forall2_elem_of_r _ _ _ r (reset_index_cells _) Hr) as (r1 & Hr1 & Hcells).
  apply list_elem_of_In, in_map_iff in Hr1 as (k & <- & Hk).
  exists k. split.
  { unfold sorted_keys in Hk. apply list_elem_of_In in Hk.
    by rewrite merge_sort_Permutation in Hk. }
  rewrite !(cell_of_cells _ _ _ Hcells). unfold cell. cbn [row_cells].
  split; [by rewrite lookup_insert_eq|].
  rewrite lookup_insert_ne by done.
  rewrite (lookup_list_to_map_columns
             (fun c => first_valid (map (fun r0 => default CNull (row_cells r0 !! c))
                                      (List.filter (fun r0 => cell_eqb k (cell r0 "ptr"))
                                         (map stamp_allocation (allocations_of events))))));
    [done|].
  apply list_elem_of_In, filter_In. split; [|done].
  apply list_elem_of_In, elem_of_add_column. by right.
Qed.

Lemma first_valid_times (rows : list Row) :
  first_valid (map (fun r => cell r "allocation_time") (map stamp_allocation rows))
  = from_option (fun r => CTime (row_index r)) CNull (head rows).
Proof.
  destruct rows as [|r rows]; [done|]. simpl map.
  unfold stamp_allocation at 1. by rewrite cell_set_cell_eq.
Qed.

Lemma group_of_key (p : string) (rows : list Row) :
  List.filter (fun r => cell_eqb (CStr p) (cell r "ptr")) (map stamp_allocation rows)
  = map stamp_allocation (List.filter (ptr_is p) rows).
Proof.
  rewrite filter_map_commute. f_equal. apply filter_ext_in. intros r.
  rewrite cell_eqb_str. apply ptr_is_stamp.
Qed.

Section Records.

Variable events : DataFrame.

(** Each identity among the allocations has one record. *)
Lemma allocation_records_count (p : string) :
  count (ptr_is p) (df_rows (allocation_records events))
  = if existsb (ptr_is p) (allocations_of events) then 1%nat else 0%nat.
Proof.
  unfold allocation_records. rewrite stamped_rows.
  assert (existsb (cell_is_str p)
            (map (fun r => cell r "ptr") (map stamp_allocation (allocations_of events)))
          = existsb (ptr_is p) (allocations_of events)) as Hex.
  { rewrite map_map, existsb_map.
    induction (allocations_of events) as [|a A' IH]; [done|]. simpl.
    rewrite IH. f_equal. apply ptr_is_stamp. }
  destruct (has_duplicate _) eqn:Hdup.
  - unfold groupby_first. rewrite stamped_rows. cbn [df_rows].
    rewrite (Forall2_cells_count (ptr_is p) _ _
               (fun r r' H => f_equal (cell_is_str p) (cell_of_cells r r' "ptr" H))
               (reset_index_cells _)).
    rewrite count_map.
    rewrite (count_ext _ (cell_is_str p)).
    2:{ intros k _. unfold ptr_is, cell. cbn [row_cells]. by rewrite lookup_insert_eq. }
    unfold sorted_keys.
    rewrite (count_Permutation _ _ _ (merge_sort_Permutation _ _)).
    by rewrite count_distinct_keys, Hex.
  - rewrite stamped_rows.
    pose proof (has_duplicate_false p _ Hdup) as Hle.
    rewrite count_map in Hle. fold (ptr_is p) in Hle.
    change (fun x : Row => cell_is_str p (cell x "ptr")) with (ptr_is p) in Hle.
    rewrite (count_le_1_existsb _ _ Hle).
    rewrite <- Hex, !existsb_map. done.
Qed.

(** The record of an identity carries the time of the first allocation that
    has it. *)
Lemma allocation_records_time (rec : Row) (p : string) :
  rec ∈ df_rows (allocation_records events) →
  cell rec "ptr" = CStr p →
  ∃ a, head (List.filter (ptr_is p) (allocations_of events)) = Some a
       ∧ cell rec "allocation_time" = CTime (row_index a).
Proof.
  unfold allocation_records. rewrite stamped_rows.
  set (A := allocations_of events).
  destruct (has_duplicate _) eqn:Hdup.
  - intros Hrec Hp.
    destruct (grouped_row_cells events rec Hrec) as (key & Hkey & Hptr & Htime).
    rewrite Hp in Hptr. subst key. fold A in Htime, Hkey.
    rewrite group_of_key, first_valid_times in Htime.
    apply distinct_keys_subset, list_elem_of_In, in_map_iff in Hkey as (r0 & Hr0 & Hin).
    apply in_map_iff in Hin as (a0 & <- & Ha0).
    unfold stamp_allocation in Hr0. rewrite cell_set_cell_ne in Hr0 by done.
    destruct (List.filter (ptr_is p) A) as [|a l] eqn:Hf.
    + exfalso. assert (In a0 (List.filter (ptr_is p) A)) as Hno.
      { apply filter_In. split; [done|]. unfold ptr_is. rewrite Hr0. simpl.
        by rewrite bool_decide_true. }
      by rewrite Hf in Hno.
    + exists a. by split.
  - rewrite stamped_rows. intros Hrec Hp.
    apply list_elem_of_In, in_map_iff in Hrec as (a & <- & Ha).
    exists a. split.
    + apply head_filter_unique.
      * pose proof (has_duplicate_false p _ Hdup) as Hle.
        rewrite map_map, count_map in Hle.
        rewrite (count_ext _ (ptr_is p)) in Hle; [exact Hle|].
        intros r _. apply ptr_is_stamp.
      * by apply list_elem_of_In.
      * unfold stamp_allocation in Hp. rewrite cell_set_cell_ne in Hp by done.
        unfold ptr_is. rewrite Hp. simpl. by rewrite bool_decide_true.
    + unfold stamp_allocation. by rewrite cell_set_cell_eq.
Qed.

(** Every record has the identity of an allocation. *)
Lemma allocation_records_ptr (rec : Row) :
  rec ∈ df_rows (allocation_records events) →
  ∃ a, a ∈ allocations_of events ∧ cell rec "ptr" = cell a "ptr".
Proof.
  unfold allocation_records. rewrite stamped_rows.
  destruct (has_duplicate _).
  - intros Hrec.
    destruct (grouped_row_cells events rec Hrec) as (key & Hkey & Hptr & _).
    apply distinct_keys_subset, list_elem_of_In, in_map_iff in Hkey as (r0 & Hr0 & Hin).
    apply in_map_iff in Hin as (a0 & <- & Ha0).
    unfold stamp_allocation in Hr0. rewrite cell_set_cell_ne in Hr0 by done.
    exists a0. split; [by apply list_elem_of_In|congruence].
  - rewrite stamped_rows. intros Hrec.
    apply list_elem_of_In, in_map_iff in Hrec as (a & <- & Ha).
    exists a. split; [by apply list_elem_of_In|].
    unfold stamp_allocation. by rewrite cell_set_cell_ne.
Qed.

Lemma allocation_records_time_or_null (rec : Row) :
  rec ∈ df_rows (allocation_records events) →
  time_or_null (cell rec "allocation_time").
Proof.
  unfold allocation_records. rewrite stamped_rows.
  destruct (has_duplicate _).
  - intros Hrec.
    destruct (grouped_row_cells events rec Hrec) as (key & _ & _ & ->).
    rewrite filter_map_commute, first_valid_times.
    destruct (head _); simpl; [right; eauto|by left].
  - rewrite stamped_rows. intros Hrec.
    apply list_elem_of_In, in_map_iff in Hrec as (a & <- & Ha).
    right. exists (row_index a). unfold stamp_allocation. by rewrite cell_set_cell_eq.
Qed.


End Records.

(** *** The merge *)

Lemma project_ptr (d : DataFrame) :
  has_column d "ptr" = true →
  project d ["ptr"]
  = Ok {| df_columns := ["ptr"];
          df_rows := map (fun r => {| row_index := row_index r;
                                      row_cells := list_to_map [("ptr", cell r "ptr")] |})
                         (df_rows d) |}.
Proof. intros H. unfold project, getitem. simpl. by rewrite H. Qed.

Lemma merge_left_rows (events : DataFrame) :
  df_rows (merge_left (allocation_records events) (deallocation_times events) "ptr")
  = reset_index (flat_map (joined events) (df_rows (allocation_records events))).
Proof. reflexivity. Qed.

Lemma ptr_is_stamp_deallocation (p : string) (r : Row) :
  ptr_is p (stamp_deallocation r) = ptr_is p r.
Proof.
  unfold ptr_is, stamp_deallocation. rewrite cell_set_cell_ne by done.
  unfold cell at 1. simpl. by rewrite lookup_insert_eq.
Qed.

Lemma joined_cells (events : DataFrame) (rec m : Row) :
  m ∈ joined events rec →
  cell m "ptr" = cell rec "ptr"
  ∧ cell m "allocation_time" = cell rec "allocation_time"
  ∧ time_or_null (cell m "deallocation_time").
Proof.
  unfold joined. destruct (List.filter _ _) as [|r rs] eqn:Hf.
  - intros Hm. apply list_elem_of_singleton in Hm as ->.
    rewrite !cell_set_cell_ne by done. rewrite cell_set_cell_eq.
    split; [done|]. split; [done|]. by left.
  - intros Hm. apply list_elem_of_In, in_map_iff in Hm as (r' & <- & Hr').
    rewrite !cell_set_cell_ne by done. rewrite cell_set_cell_eq.
    split; [done|]. split; [done|].
    rewrite <- Hf in Hr'. apply filter_In in Hr' as [Hr' _].
    simpl in Hr'. apply in_map_iff in Hr' as (d & <- & _).
    right. exists (row_index d). unfold stamp_deallocation. by rewrite cell_set_cell_eq.
Qed.

Lemma joined_length (events : DataFrame) (rec : Row) (p : string) :
  cell rec "ptr" = CStr p →
  length (joined events rec) = (1 `max` count (ptr_is p) (deallocations_of events))%nat.
Proof.
  intros Hp. unfold joined. rewrite Hp.
  assert (length (List.filter (fun r => cell_eqb (CStr p) (cell r "ptr"))
                    (df_rows (deallocation_times events)))
          = count (ptr_is p) (deallocations_of events)) as Hn.
  { unfold deallocation_times. cbn [df_rows].
    rewrite filter_map_commute, length_map. unfold count. f_equal.
    apply filter_ext_in. intros r. rewrite cell_eqb_str.
    apply ptr_is_stamp_deallocation. }
  destruct (List.filter _ _) as [|r rs].
  - simpl in *. lia.
  - rewrite length_map. simpl in *. lia.
Qed.

Lemma joined_count (events : DataFrame) (rec : Row) (p : string) :
  count (ptr_is p) (joined events rec)
  = if ptr_is p rec then (1 `max` count (ptr_is p) (deallocations_of events))%nat
    else 0%nat.
Proof.
  destruct (ptr_is p rec) eqn:Hp.
  - unfold ptr_is in Hp. pose proof (cell_is_str_true _ _ Hp) as Hc.
    rewrite <- (joined_length events rec p Hc). apply count_all.
    intros m Hm. apply joined_cells in Hm as (Hm & _). unfold ptr_is. by rewrite Hm.
  - apply count_none. intros m Hm. apply joined_cells in Hm as (Hm & _).
    unfold ptr_is. by rewrite Hm.
Qed.

Lemma sum_indicator {A : Type} (f : A → bool) (c : nat) (l : list A) :
  sum_list (map (fun x => if f x then c else 0%nat) l) = (count f l * c)%nat.
Proof.
  induction l as [|x l IH]; [done|]. simpl. rewrite count_cons, IH.
  destruct (f x); lia.
Qed.

(** Each identity among the allocations has as many merged rows as it has
    deallocations, and one if it has none. *)
Lemma merged_count (events : DataFrame) (p : string) :
  count (ptr_is p)
    (df_rows (merge_left (allocation_records events) (deallocation_times events) "ptr"))
  = if existsb (ptr_is p) (allocations_of events)
    then (1 `max` count (ptr_is p) (deallocations_of events))%nat
    else 0%nat.
Proof.
  rewrite merge_left_rows.
  rewrite (Forall2_cells_count (ptr_is p) _ _
             (fun r r' H => f_equal (cell_is_str p) (cell_of_cells r r' "ptr" H))
             (reset_index_cells _)).
  rewrite count_flat_map.
  rewrite (map_ext _ _ (fun rec => joined_count events rec p)).
  rewrite sum_indicator, allocation_records_count.
  destruct (existsb _ _); lia.
Qed.

Lemma merged_rows (events : DataFrame) (m : Row) :
  m ∈ df_rows (merge_left (allocation_records events) (deallocation_times events) "ptr") →
  ∃ rec, rec ∈ df_rows (allocation_records events)
         ∧ cell m "ptr" = cell rec "ptr"
         ∧ cell m "allocation_time" = cell rec "allocation_time"
         ∧ time_or_null (cell m "deallocation_time").
Proof.
  rewrite merge_left_rows. intros Hm.
  destruct (Forall2_elem_of_r _ _ _ m (reset_index_cells _) Hm) as (m0 & Hm0 & Hcells).
  apply list_elem_of_In, in_flat_map in Hm0 as (rec & Hrec & Hm0).
  apply list_elem_of_In in Hrec, Hm0.
  exists rec. split; [done|].
  rewrite !(cell_of_cells _ _ _ Hcells). by apply (joined_cells events).
Qed.

(** *** The lifecycle table *)

Lemma mapM_result_ok {A B : Type} (f : A → result B) (P : A → B → Prop) (l : list A) :
  (∀ x, x ∈ l → ∃ y, f x = Ok y ∧ P x y) →
  ∃ l', mapM f l = Ok l' ∧ Forall2 P l l'.
Proof.
  induction l as [|x l IH]; intros H.
  - exists []. split; [done|constructor].
  - destruct (H x) as (y & Hy & HP); [left|].
    destruct IH as (l' & Hl' & HF); [intros z Hz; apply H; by right|].
    exists (y :: l'). split; [|by constructor].
    simpl. rewrite Hy. simpl. by rewrite Hl'.
Qed.

Lemma total_seconds_between_ok (d a : Cell) :
  time_or_null d → time_or_null a →
  ∃ v, total_seconds_between d a = Ok v ∧ (v = CNull ∨ ∃ x, v = CNum x).
Proof.
  intros [->|[td ->]] [->|[ta ->]]; simpl; eauto.
Qed.

Lemma clip_lower_0_ok (v : Cell) :
  v = CNull ∨ (∃ x, v = CNum x) → ∃ v', clip_lower_0 v = Ok v'.
Proof. intros [->|[x ->]]; simpl; eauto. Qed.

Lemma getitem_ok (d : DataFrame) (k : string) :
  has_column d k = true → getitem d k = Ok (map (fun r => cell r k) (df_rows d)).
Proof. intros H. unfold getitem. by rewrite H. Qed.

Lemma lifecycle_of_merged (events : DataFrame) :
  has_column events "event_category" = true →
  has_column events "ptr" = true →
  lifecycle_of events
  = (merged ← assign_rows
                (merge_left (allocation_records events) (deallocation_times events) "ptr")
                "lifetime"
                (fun r => total_seconds_between (cell r "deallocation_time")
                                                (cell r "allocation_time"));
     merged ← convert_column merged "lifetime" clip_lower_0;
     mret (rename merged "allocation_size" "size")).
Proof.
  intros Hcat Hptr. unfold lifecycle_of.
  rewrite (getitem_ok events _ Hcat). cbn [mbind result_bind].
  assert (has_column
            (with_index_as (select events (is_category "allocation")) "allocation_time")
            "ptr" = true) as Hp1.
  { apply bool_decide_eq_true, elem_of_add_column. left. by apply bool_decide_eq_true in Hptr. }
  rewrite (getitem_ok _ _ Hp1). cbn [mbind result_bind].
  rewrite (project_ptr (select events (is_category "deallocation")) Hptr).
  cbn [mbind result_bind].
  assert (with_index_as
            {| df_columns := ["ptr"];
               df_rows := map (fun r => {| row_index := row_index r;
                                           row_cells := list_to_map [("ptr", cell r "ptr")] |})
                              (df_rows (select events (is_category "deallocation"))) |}
            "deallocation_time"
          = deallocation_times events) as ->.
  { unfold with_index_as, deallocation_times. cbn [df_columns df_rows].
    f_equal. by rewrite map_map. }
  reflexivity.
Qed.

Lemma rename_same_record (d : DataFrame) :
  Forall2 same_record (df_rows d) (df_rows (rename d "allocation_size" "size")).
Proof.
  unfold rename. destruct (has_column d "allocation_size"); cbn [df_rows].
  - induction (df_rows d) as [|r rows IH]; simpl; constructor; [|done].
    repeat split; by apply cell_rename_row_ne.
  - induction (df_rows d); constructor; done.
Qed.

Lemma lifecycle_of_rows (events : DataFrame) :
  has_column events "event_category" = true →
  has_column events "ptr" = true →
  ∃ lifecycle,
    lifecycle_of events = Ok lifecycle
    ∧ Forall2 same_record
        (df_rows (merge_left (allocation_records events) (deallocation_times events) "ptr"))
        (df_rows lifecycle).
Proof.
  intros Hcat Hptr. rewrite (lifecycle_of_merged events Hcat Hptr).
  set (merged := merge_left _ _ _).
  (* the lifetime column *)
  destruct (mapM_result_ok
              (fun r => v ← total_seconds_between (cell r "deallocation_time")
                                                  (cell r "allocation_time");
                        mret (set_cell r "lifetime" v))
              (fun r r' => same_record r r'
                           ∧ (cell r' "lifetime" = CNull ∨ ∃ x, cell r' "lifetime" = CNum x))
              (df_rows merged)) as (rows1 & Hrows1 & HF1).
  { intros m Hm. apply merged_rows in Hm as (rec & Hrec & _ & Hat & Hdt).
    apply allocation_records_time_or_null in Hrec. rewrite <- Hat in Hrec.
    destruct (total_seconds_between_ok _ _ Hdt Hrec) as (v & -> & Hv).
    eexists. split; [done|]. split.
    - repeat split; by rewrite cell_set_cell_ne.
    - by rewrite cell_set_cell_eq. }
  unfold assign_rows. rewrite Hrows1. cbn [mbind result_bind mret result_ret].
  set (merged1 := {| df_columns := _; df_rows := rows1 |}).
  (* the clipping *)
  destruct (mapM_result_ok
              (fun r => v ← clip_lower_0 (cell r "lifetime"); mret (set_cell r "lifetime" v))
              same_record rows1) as (rows2 & Hrows2 & HF2).
  { intros r Hr.
    destruct (Forall2_elem_of_r _ _ _ r HF1 Hr) as (m & _ & _ & Hv).
    destruct (clip_lower_0_ok _ Hv) as (v' & ->).
    eexists. split; [done|]. repeat split; by rewrite cell_set_cell_ne. }
  unfold convert_column, getitem.
  assert (has_column merged1 "lifetime" = true) as ->.
  { apply bool_decide_eq_true, elem_of_add_column. by right. }
  cbn [mbind result_bind]. change (df_rows merged1) with rows1. rewrite Hrows2.
  cbn [mbind result_bind mret result_ret].
  eexists. split; [done|].
  (* the renaming *)
  assert (∀ l1 l2 l3 : list Row,
             Forall2 same_record l1 l2 → Forall2 same_record l2 l3 →
             Forall2 same_record l1 l3) as Htrans.
  { intros l1 l2 l3 Ha. revert l3. induction Ha; intros l3 Hb; inversion Hb; subst;
      constructor; [|by auto].
    unfold same_record in *. intuition congruence. }
  eapply Htrans; [eapply Forall2_impl; [exact HF1|by intros ? ? [? _]]|].
  eapply Htrans; [exact HF2|].
  apply (rename_same_record {| df_columns := df_columns merged1; df_rows := rows2 |}).
Qed.

Lemma Forall2_same_record_count (p : string) (l l' : list Row) :
  Forall2 same_record l l' → count (ptr_is p) l' = count (ptr_is p) l.
Proof.
  induction 1 as [|r r' l l' (Hr & _) _ IH]; [done|].
  rewrite !count_cons, IH. unfold ptr_is. by rewrite Hr.
Qed.

(** C7, amended. On an events table with its [event_category] and [ptr]
    columns the tracker returns a table, which it also stores.  Among the
    allocations that share a pointer identity only the first one of the
    table is kept: each row of the result has the identity of an allocation
    and the time of the first allocation with that identity.  An identity
    among the allocations has one row for each deallocation that shares it,
    and one row if there is none: exactly one row when it has at most one
    deallocation, as with two allocations and one deallocation on one
    identity, where the table has exactly one row. *)
Theorem track_pointer_lifecycle_records (self : Module) (events : DataFrame) :
  dataframes self !! "Events Table" = Some events →
  df_empty events = false →
  has_column events "event_category" = true →
  has_column events "ptr" = true →
  ∃ lifecycle,
    _track_pointer_lifecycle self = (Ok lifecycle, set_ptr_lifecycle self lifecycle)
    ∧ (∀ r, r ∈ df_rows lifecycle →
            ∃ a, a ∈ allocations_of events ∧ cell r "ptr" = cell a "ptr")
    ∧ (∀ r p, r ∈ df_rows lifecycle → cell r "ptr" = CStr p →
              ∃ a, head (List.filter (ptr_is p) (allocations_of events)) = Some a
                   ∧ cell r "allocation_time" = CTime (row_index a))
    ∧ (∀ p, count (ptr_is p) (df_rows lifecycle)
            = if existsb (ptr_is p) (allocations_of events)
              then (1 `max` count (ptr_is p) (deallocations_of events))%nat
              else 0%nat)
    ∧ (∀ p, existsb (ptr_is p) (allocations_of events) = true →
            (count (ptr_is p) (deallocations_of events) ≤ 1)%nat →
            count (ptr_is p) (df_rows lifecycle) = 1%nat)
    ∧ (∀ p a1 a2 d,
         allocations_of events = [a1; a2] → deallocations_of events = [d] →
         cell a1 "ptr" = CStr p → cell a2 "ptr" = CStr p → cell d "ptr" = CStr p →
         length (df_rows lifecycle) = 1%nat).
Proof.
  intros Hevents Hne Hcat Hptr.
  destruct (lifecycle_of_rows events Hcat Hptr) as (lifecycle & Hlc & Hrows).
  exists lifecycle.
  assert (∀ r, r ∈ df_rows lifecycle →
               ∃ a, a ∈ allocations_of events ∧ cell r "ptr" = cell a "ptr") as Hidentity.
  { intros r Hr.
    destruct (Forall2_elem_of_r _ _ _ r Hrows Hr) as (m & Hm & Hp & _).
    apply merged_rows in Hm as (rec & Hrec & Hmp & _).
    apply allocation_records_ptr in Hrec as (a & Ha & Hrp).
    exists a. split; [done|congruence]. }
  assert (∀ p, count (ptr_is p) (df_rows lifecycle)
               = if existsb (ptr_is p) (allocations_of events)
                 then (1 `max` count (ptr_is p) (deallocations_of events))%nat
                 else 0%nat) as Hcount.
  { intros p. rewrite (Forall2_same_record_count p _ _ Hrows). apply merged_count. }
  split; [|split; [exact Hidentity|split; [|split; [exact Hcount|split]]]].
  - unfold _track_pointer_lifecycle. by rewrite Hevents, Hne, Hlc.
  - intros r p Hr Hp.
    destruct (Forall2_elem_of_r _ _ _ r Hrows Hr) as (m & Hm & Hmp & Hmt & _).
    apply merged_rows in Hm as (rec & Hrec & Hrp & Hrt & _).
    destruct (allocation_records_time events rec p Hrec) as (a & Ha & Hat); [congruence|].
    exists a. split; [done|congruence].
  - intros p Hex Hle. rewrite Hcount, Hex. lia.
  - intros p a1 a2 d Ha Hd H1 H2 H3.
    rewrite <- (count_all (ptr_is p) (df_rows lifecycle)).
    + rewrite Hcount, Ha, Hd. unfold ptr_is, count. simpl.
      rewrite H1, H3. simpl. by rewrite !bool_decide_true.
    + intros r Hr. destruct (Hidentity r Hr) as (a & Hin & Hpa).
      rewrite Ha in Hin. unfold ptr_is. rewrite Hpa.
      apply elem_of_cons in Hin as [->|Hin].
      * rewrite H1. simpl. by rewrite bool_decide_true.
      * apply list_elem_of_singleton in Hin as ->. rewrite H2. simpl.
        by rewrite bool_decide_true.
Qed.

(** C7 as stated fails: the pointer of the example is allocated twice and
    freed twice; one allocation is kept, the one at time 0, and the table
    has two rows for it, one for each deallocation. *)
Lemma track_pointer_lifecycle_two_rows :
  ∃ lifecycle,
    (_track_pointer_lifecycle LifecycleExample.reused).1 = Ok lifecycle
    ∧ length (df_rows (allocation_records
                         (LifecycleExample.events_of LifecycleExample.reused))) = 1%nat
    ∧ map (fun r => (cell r "ptr", cell r "allocation_time", cell r "deallocation_time"))
          (df_rows lifecycle)
      = [(CStr "0x1", CTime 0, CTime 1000000000);
         (CStr "0x1", CTime 0, CTime 3000000000)]
    ∧ length (df_rows lifecycle) ≠ 1%nat.
Proof.
  eexists. split; [vm_compute; reflexivity|].
  split; [vm_compute; reflexivity|]. split; [vm_compute; reflexivity|].
  simpl. lia.
Qed.

Lemma track_pointer_lifecycle_records_witness :
  let self := LifecycleExample.twice_allocated in
  let events := LifecycleExample.events_of self in
  ∃ lifecycle,
    _track_pointer_lifecycle self = (Ok lifecycle, set_ptr_lifecycle self lifecycle)
    ∧ (∀ r, r ∈ df_rows lifecycle →
            ∃ a, a ∈ allocations_of events ∧ cell r "ptr" = cell a "ptr")
    ∧ (∀ r p, r ∈ df_rows lifecycle → cell r "ptr" = CStr p →
              ∃ a, head (List.filter (ptr_is p) (allocations_of events)) = Some a
                   ∧ cell r "allocation_time" = CTime (row_index a))
    ∧ (∀ p, count (ptr_is p) (df_rows lifecycle)
            = if existsb (ptr_is p) (allocations_of events)
              then (1 `max` count (ptr_is p) (deallocations_of events))%nat
              else 0%nat)
    ∧ (∀ p, existsb (ptr_is p) (allocations_of events) = true →
            (count (ptr_is p) (deallocations_of events) ≤ 1)%nat →
            count (ptr_is p) (df_rows lifecycle) = 1%nat)
    ∧ (∀ p a1 a2 d,
         allocations_of events = [a1; a2] → deallocations_of events = [d] →
         cell a1 "ptr" = CStr p → cell a2 "ptr" = CStr p → cell d "ptr" = CStr p →
         length (df_rows lifecycle) = 1%nat).
Proof.
  intros self events.
  apply (track_pointer_lifecycle_records self events); vm_compute; reflexivity.
Defined.

(** On the example with two allocations and one deallocation the table has
    one row, with the time of the first allocation. *)
Lemma track_pointer_lifecycle_twice_allocated :
  map (fun r => (cell r "ptr", cell r "allocation_time", cell r "deallocation_time"))
      (df_rows (LifecycleExample.lifecycle_of_module LifecycleExample.twice_allocated))
  = [(CStr "0x1", CTime 0, CTime 2000000000)].
Proof. vm_compute. reflexivity. Qed.

(** * Further properties *)

(** ** The severity evaluator *)

Lemma py_min_le_cap (a b : Q) : (py_min a b <= a)%Q.
Proof. destruct (py_min_spec a b) as [[? ->] | [? ->]]; lra. Qed.

Lemma py_min_nonneg (b : Q) : (0 <= b)%Q → (0 <= py_min 1 b)%Q.
Proof. intros. destruct (py_min_spec 1 b) as [[? ->] | [? ->]]; lra. Qed.

Lemma py_min_monotone (a b b' : Q) : (b <= b')%Q → (py_min a b <= py_min a b')%Q.
Proof.
  intros. destruct (py_min_spec a b) as [[? ->] | [? ->]],
                   (py_min_spec a b') as [[? ->] | [? ->]]; lra.
Qed.

Lemma Qdiv_nonneg (a b : Q) : (0 <= a)%Q → (0 < b)%Q → (0 <= a / b)%Q.
Proof.
  intros Ha Hb. unfold Qdiv. apply Qmult_le_0_compat; [done|].
  apply Qlt_le_weak, Qinv_lt_0_compat, Hb.
Qed.

Lemma Qdiv_monotone (a a' b : Q) : (a <= a')%Q → (0 < b)%Q → (a / b <= a' / b)%Q.
Proof.
  intros Ha Hb. unfold Qdiv. apply Qmult_le_compat_r; [done|].
  apply Qlt_le_weak, Qinv_lt_0_compat, Hb.
Qed.

Lemma inject_Z_le (a b : Z) : (a ≤ b)%Z → (inject_Z a <= inject_Z b)%Q.
Proof. intros H. unfold Qle. simpl. lia. Qed.

Lemma inject_Z_pos (a : Z) : (0 < a)%Z → (0 < inject_Z a)%Q.
Proof. intros H. unfold Qlt. simpl. lia. Qed.

(** What [weighted_score] returns when its three divisors are positive. *)
Lemma weighted_score_value (th : MemoryThresholds) (m : MemoryMetrics) :
  (0 < growth_slope th)%Q → (0 < fragmentation th)%Q → (0 < total_allocations m)%Z →
  weighted_score th m
  = Ok (0.4 * py_min 1 (leak_rate m / growth_slope th)
        + 0.4 * py_min 1 (inject_Z (unreleased_allocations m)
                          / inject_Z (total_allocations m))
        + 0.2 * py_min 1 (memory_fragmentation_score m / fragmentation th))%Q.
Proof.
  intros Hg Hf Ht. unfold weighted_score.
  pose proof (inject_Z_pos _ Ht) as Ht'.
  rewrite (py_div_ok (leak_rate m) (growth_slope th)) by lra.
  rewrite (py_div_ok (inject_Z (unreleased_allocations m))
             (inject_Z (total_allocations m))) by lra.
  rewrite (py_div_ok (memory_fragmentation_score m) (fragmentation th)) by lra.
  reflexivity.
Qed.

Lemma weighted_score_inv (th : MemoryThresholds) (m : MemoryMetrics) (w : Q) :
  weighted_score th m = Ok w →
  ∃ g u f, w = (0.4 * py_min 1 g + 0.4 * py_min 1 u + 0.2 * py_min 1 f)%Q
           ∧ total_allocations m ≠ 0%Z.
Proof.
  intros Hw.
  assert (total_allocations m ≠ 0%Z) as Ht.
  { intros H0. by rewrite (weighted_score_zero_allocations th m H0) in Hw. }
  unfold weighted_score in Hw.
  destruct (py_div (leak_rate m) _) as [g|]; simpl in Hw; [|done].
  destruct (py_div (inject_Z _) _) as [u|]; simpl in Hw; [|done].
  destruct (py_div (memory_fragmentation_score m) _) as [f|]; simpl in Hw; [|done].
  injection Hw as <-. eauto.
Qed.

(** X1. The weighted score is never above 1: each of the three scores is capped at
    1 and the weights add up to 1.  It is not below 0 when the metrics are
    not negative and the thresholds are positive, as they are for the
    metrics that the aggregator builds. *)
Theorem weighted_score_bounds (th : MemoryThresholds) (m : MemoryMetrics) (w : Q) :
  weighted_score th m = Ok w →
  (w <= 1)%Q
  ∧ ((0 < growth_slope th)%Q → (0 < fragmentation th)%Q →
     (0 <= leak_rate m)%Q → (0 <= memory_fragmentation_score m)%Q →
     (0 ≤ unreleased_allocations m)%Z → (0 < total_allocations m)%Z →
     (0 <= w)%Q).
Proof.
  intros Hw. split.
  - destruct (weighted_score_inv th m w Hw) as (g & u & f & -> & _).
    pose proof (py_min_le_cap 1 g). pose proof (py_min_le_cap 1 u).
    pose proof (py_min_le_cap 1 f). lra.
  - intros Hg Hf Hl Hfr Hu Ht.
    rewrite (weighted_score_value th m Hg Hf Ht) in Hw. injection Hw as <-.
    pose proof (py_min_nonneg _ (Qdiv_nonneg _ _ Hl Hg)).
    pose proof (py_min_nonneg _ (Qdiv_nonneg _ _ Hfr Hf)).
    pose proof (py_min_nonneg _ (Qdiv_nonneg _ _ (inject_Z_le 0 _ Hu : (0 <= _)%Q)
                                   (inject_Z_pos _ Ht))).
    lra.
Qed.

Lemma weighted_score_bounds_witness :
  let w := (700000 # 3500000)%Q in
  (w <= 1)%Q
  ∧ ((0 < growth_slope default_thresholds)%Q → (0 < fragmentation default_thresholds)%Q →
     (0 <= leak_rate quarter_rate)%Q → (0 <= memory_fragmentation_score quarter_rate)%Q →
     (0 ≤ unreleased_allocations quarter_rate)%Z → (0 < total_allocations quarter_rate)%Z →
     (0 <= w)%Q).
Proof.
  intros w. apply (weighted_score_bounds default_thresholds quarter_rate w).
  vm_compute. reflexivity.
Defined.

(** X2. With three allocations or more the confidence is 1 for every p-value up
    to 1, and for a p-value that is NaN it is 1 whatever the count: the
    count enters the sum as it is, not as a share. *)
Theorem confidence_saturates (self : Module) (m : MemoryMetrics) (p : pyfloat) (w : Q) :
  weighted_score (thresholds self) m = Ok w →
  p = None ∨ (∃ q, p = Some q ∧ (q <= 1)%Q ∧ (3 ≤ total_allocations m)%Z) →
  ∃ s, _evaluate_severity self m p = Ok (s, 1%Q).
Proof.
  intros Hw Hp.
  destruct (evaluate_severity_of_score self m p w Hw) as (s & Hs & _).
  exists s. rewrite Hs. do 2 f_equal.
  destruct Hp as [-> | (q & -> & Hq & Ht)]; [done|].
  simpl fadd. rewrite fmin_some.
  destruct (py_min_spec 1 (0.6 * (1 - q) + 0.4 * inject_Z (total_allocations m)))
    as [[Hlt _] | [_ ->]]; [|done].
  exfalso. pose proof (inject_Z_le 3 _ Ht) as H3.
  change (inject_Z 3) with 3%Q in H3. lra.
Qed.

Lemma confidence_saturates_witness :
  ∃ s, _evaluate_severity (Examples.module_of [])
         {| unreleased_allocations := 1; total_allocations := 3;
            leak_rate := 0; avg_allocation_size := 8;
            max_continuous_growth_duration := Some 0%Q;
            memory_fragmentation_score := 0.5;
            regression_slope := Some 0%Q; regression_intercept := Some 1%Q |}
         (Some 1%Q)
       = Ok (s, 1%Q).
Proof.
  apply (confidence_saturates (Examples.module_of []) _ (Some 1%Q)
           (match weighted_score default_thresholds
                    {| unreleased_allocations := 1; total_allocations := 3;
                       leak_rate := 0; avg_allocation_size := 8;
                       max_continuous_growth_duration := Some 0%Q;
                       memory_fragmentation_score := 0.5;
                       regression_slope := Some 0%Q; regression_intercept := Some 1%Q |}
            with Ok w => w | Raise _ => 0%Q end)).
  - vm_compute. reflexivity.
  - right. exists 1%Q. split; [reflexivity|]. split; [|simpl; lia].
    unfold Qle. simpl. lia.
Defined.

(** X3. With positive thresholds, a metrics record with at least the leak rate,
    the unreleased count and the fragmentation score of another, and the
    same positive total, gets a severity that is at least as high. *)
Theorem severity_monotone_in_metrics
    (self : Module) (m m' : MemoryMetrics) (p p' : pyfloat) :
  (0 < growth_slope (thresholds self))%Q →
  (0 < fragmentation (thresholds self))%Q →
  (0 < total_allocations m)%Z →
  total_allocations m' = total_allocations m →
  (unreleased_allocations m ≤ unreleased_allocations m')%Z →
  (leak_rate m <= leak_rate m')%Q →
  (memory_fragmentation_score m <= memory_fragmentation_score m')%Q →
  ∃ s c s' c',
    _evaluate_severity self m p = Ok (s, c)
    ∧ _evaluate_severity self m' p' = Ok (s', c')
    ∧ severity_rank s ≤ severity_rank s'.
Proof.
  intros Hg Hf Ht Htot Hu Hl Hfr.
  assert (0 < total_allocations m')%Z as Ht' by lia.
  pose proof (weighted_score_value (thresholds self) m Hg Hf Ht) as Hw.
  pose proof (weighted_score_value (thresholds self) m' Hg Hf Ht') as Hw'.
  destruct (evaluate_severity_of_score self m p _ Hw) as (s & Hs & Hb).
  destruct (evaluate_severity_of_score self m' p' _ Hw') as (s' & Hs' & Hb').
  eexists s, _, s', _. split; [exact Hs|]. split; [exact Hs'|].
  eapply in_band_monotone; [exact Hb|exact Hb'|].
  pose proof (py_min_monotone 1 _ _ (Qdiv_monotone _ _ _ Hl Hg)).
  pose proof (py_min_monotone 1 _ _ (Qdiv_monotone _ _ _ Hfr Hf)).
  pose proof (py_min_monotone 1 _ _
                (Qdiv_monotone _ _ _ (inject_Z_le _ _ Hu) (inject_Z_pos _ Ht))).
  rewrite Htot. lra.
Qed.

Lemma severity_monotone_in_metrics_witness :
  ∃ s c s' c',
    _evaluate_severity (Examples.module_of []) quarter_rate (Some 1%Q) = Ok (s, c)
    ∧ _evaluate_severity (Examples.module_of []) all_leaked (Some 0.5%Q) = Ok (s', c')
    ∧ severity_rank s ≤ severity_rank s'.
Proof.
  apply (severity_monotone_in_metrics (Examples.module_of []) quarter_rate all_leaked
           (Some 1%Q) (Some 0.5%Q));
    first [reflexivity | (simpl; lia) | (vm_compute; congruence)].
Defined.

(** ** The metrics aggregator *)

Lemma count_where_bounds {A : Type} (f : A → bool) (l : list A) :
  (0 ≤ count_where f l ≤ Z.of_nat (length l))%Z.
Proof.
  unfold count_where. pose proof (List.filter_length_le f l). lia.
Qed.

Lemma df_empty_rows (d : DataFrame) (k : string) :
  has_column d k = true → df_empty d = match df_rows d with [] => true | _ => false end.
Proof.
  unfold has_column, df_empty. intros H. apply bool_decide_eq_true in H.
  destruct (df_columns d); [by apply elem_of_nil in H|done].
Qed.

(** The metrics that the aggregator builds from a lifecycle table with its
    [deallocation_time] column and two filled dictionaries. *)
Lemma calculate_memory_metrics_value
    (ptr_tracking : DataFrame) (trend : MemoryTrend) (patterns : AllocationPatterns) :
  has_column ptr_tracking "deallocation_time" = true →
  ∃ m,
    _calculate_memory_metrics ptr_tracking (Some trend) (Some patterns) = Ok m
    ∧ unreleased_allocations m
      = count_where (fun r => is_null (cell r "deallocation_time")) (df_rows ptr_tracking)
    ∧ (0 ≤ unreleased_allocations m ≤ Z.of_nat (length (df_rows ptr_tracking)))%Z
    ∧ (0 <= memory_fragmentation_score m)%Q
    ∧ (memory_fragmentation_score m <= 1)%Q
    ∧ (memory_fragmentation_score m * inject_Z (Z.of_nat (length (df_rows ptr_tracking)))
       == inject_Z (unreleased_allocations m))%Q
    ∧ total_allocations m = patterns_total_allocations patterns
    ∧ leak_rate m = growth_rate trend
    ∧ avg_allocation_size m = mean_allocation_size patterns
    ∧ max_continuous_growth_duration m = max_growth_duration_of (rolling_mean trend)
    ∧ regression_slope m = slope trend
    ∧ regression_intercept m = intercept trend.
Proof.
  intros Hcol. unfold _calculate_memory_metrics.
  rewrite (getitem_ok _ _ Hcol). cbn [mbind result_bind].
  rewrite (df_empty_rows _ _ Hcol).
  assert (count_where is_null
            (map (fun r => cell r "deallocation_time") (df_rows ptr_tracking))
          = count_where (fun r => is_null (cell r "deallocation_time"))
              (df_rows ptr_tracking)) as ->.
  { unfold count_where. by rewrite filter_map_commute, length_map. }
  pose proof (count_where_bounds (fun r => is_null (cell r "deallocation_time"))
                (df_rows ptr_tracking)) as Hb.
  generalize dependent (count_where (fun r => is_null (cell r "deallocation_time"))
                          (df_rows ptr_tracking)).
  intros n Hb.
  destruct (df_rows ptr_tracking) as [|r rows].
  - cbn [negb length Z.of_nat] in *. assert (n = 0%Z) as -> by lia.
    eexists. split; [done|]. cbn.
    repeat split; try done; try lia.
  - cbn [negb].
    assert (0 < Z.of_nat (length (r :: rows)))%Z as Hlen by (simpl; lia).
    generalize dependent (Z.of_nat (length (r :: rows))).
    intros len Hb Hlen.
    rewrite bool_decide_true by done.
    pose proof (inject_Z_pos _ Hlen) as Hpos.
    rewrite py_div_ok by lra.
    eexists. split; [done|]. cbn.
    assert (0 <= inject_Z n)%Q as Hn0 by (apply (inject_Z_le 0); lia).
    assert (inject_Z n <= inject_Z len)%Q as Hn1 by (apply inject_Z_le; lia).
    split; [done|]. split; [lia|]. split; [by apply Qdiv_nonneg|]. split.
    { apply Qle_shift_div_r; [done|]. lra. }
    split; [|done].
    unfold Qdiv. rewrite <- Qmult_assoc, (Qmult_comm (/ _)), Qmult_inv_r; [ring|lra].
Qed.

(** X4. On a lifecycle table that has its [deallocation_time] column, and with
    the two dictionaries filled, the aggregator returns: no division by zero
    is met.  The unreleased count is the number of rows with no
    deallocation time, between 0 and the number of rows; the fragmentation
    score is that count over the number of rows, 0 for a table with no row,
    and lies in [0, 1]; the other fields are taken over as they are. *)
Theorem calculate_memory_metrics_bounds
    (ptr_tracking : DataFrame) (trend : MemoryTrend) (patterns : AllocationPatterns) :
  has_column ptr_tracking "deallocation_time" = true →
  ∃ m,
    _calculate_memory_metrics ptr_tracking (Some trend) (Some patterns) = Ok m
    ∧ unreleased_allocations m
      = count_where (fun r => is_null (cell r "deallocation_time")) (df_rows ptr_tracking)
    ∧ (0 ≤ unreleased_allocations m ≤ Z.of_nat (length (df_rows ptr_tracking)))%Z
    ∧ (0 <= memory_fragmentation_score m)%Q
    ∧ (memory_fragmentation_score m <= 1)%Q
    ∧ (memory_fragmentation_score m * inject_Z (Z.of_nat (length (df_rows ptr_tracking)))
       == inject_Z (unreleased_allocations m))%Q
    ∧ total_allocations m = patterns_total_allocations patterns
    ∧ leak_rate m = growth_rate trend
    ∧ avg_allocation_size m = mean_allocation_size patterns
    ∧ max_continuous_growth_duration m = max_growth_duration_of (rolling_mean trend)
    ∧ regression_slope m = slope trend
    ∧ regression_intercept m = intercept trend.
Proof. exact (calculate_memory_metrics_value ptr_tracking trend patterns). Qed.

Lemma calculate_memory_metrics_bounds_witness :
  ∃ m,
    _calculate_memory_metrics GrowthExample.ptr_tracking
      (Some GrowthExample.memory_trend) (Some GrowthExample.allocation_patterns) = Ok m
    ∧ unreleased_allocations m
      = count_where (fun r => is_null (cell r "deallocation_time"))
          (df_rows GrowthExample.ptr_tracking)
    ∧ (0 ≤ unreleased_allocations m
         ≤ Z.of_nat (length (df_rows GrowthExample.ptr_tracking)))%Z
    ∧ (0 <= memory_fragmentation_score m)%Q
    ∧ (memory_fragmentation_score m <= 1)%Q
    ∧ (memory_fragmentation_score m
         * inject_Z (Z.of_nat (length (df_rows GrowthExample.ptr_tracking)))
       == inject_Z (unreleased_allocations m))%Q
    ∧ total_allocations m = patterns_total_allocations GrowthExample.allocation_patterns
    ∧ leak_rate m = growth_rate GrowthExample.memory_trend
    ∧ avg_allocation_size m = mean_allocation_size GrowthExample.allocation_patterns
    ∧ max_continuous_growth_duration m
      = max_growth_duration_of (rolling_mean GrowthExample.memory_trend)
    ∧ regression_slope m = slope GrowthExample.memory_trend
    ∧ regression_intercept m = intercept GrowthExample.memory_trend.
Proof.
  apply (calculate_memory_metrics_bounds GrowthExample.ptr_tracking
           GrowthExample.memory_trend GrowthExample.allocation_patterns).
  vm_compute. reflexivity.
Defined.

(** X5. The aggregator reads before it checks: on the table without columns that
    the tracker returns for missing events it raises [KeyError] for
    ["deallocation_time"]; with a lifecycle table but an empty trend
    dictionary it raises [KeyError] for ["rolling_mean"], and with an empty
    patterns dictionary [KeyError] for ["total_allocations"]. *)
Theorem calculate_memory_metrics_missing
    (ptr_tracking : DataFrame) (trend : option MemoryTrend)
    (patterns : option AllocationPatterns) :
  (has_column ptr_tracking "deallocation_time" = false →
   _calculate_memory_metrics ptr_tracking trend patterns
   = Raise (KeyError "deallocation_time"))
  ∧ (has_column ptr_tracking "deallocation_time" = true →
     _calculate_memory_metrics ptr_tracking None patterns
     = Raise (KeyError "rolling_mean"))
  ∧ (has_column ptr_tracking "deallocation_time" = true →
     ∀ t, _calculate_memory_metrics ptr_tracking (Some t) None
          = Raise (KeyError "total_allocations")).
Proof.
  split; [|split].
  - intros H. unfold _calculate_memory_metrics, getitem. by rewrite H.
  - intros H. unfold _calculate_memory_metrics. rewrite (getitem_ok _ _ H).
    cbn [mbind result_bind].
    destruct (negb (df_empty ptr_tracking)); cbv zeta; [|done].
    case_bool_decide as Hlen; [|done].
    pose proof (inject_Z_pos _ Hlen). by rewrite py_div_ok by lra.
  - intros H t. unfold _calculate_memory_metrics. rewrite (getitem_ok _ _ H).
    cbn [mbind result_bind].
    destruct (negb (df_empty ptr_tracking)); cbv zeta; [|done].
    case_bool_decide as Hlen; [|done].
    pose proof (inject_Z_pos _ Hlen). by rewrite py_div_ok by lra.
Qed.

(** ** Event classification *)

Lemma categorise_one_cells (r : Row) :
  row_index (categorise_one r) = row_index r
  ∧ cell (categorise_one r) "Event type" = cell r "Event type"
  ∧ is_category "other" (categorise_one r) = negb (names_memory_event r)
  ∧ (names_memory_event r = true →
     cell (categorise_one r) "event_category" = CStr (category_of r)).
Proof.
  unfold categorise_one, names_memory_event, category_of, is_category. cbv zeta.
  assert (event_type_contains "malloc" (set_cell r "event_category" (CStr "other"))
          = event_type_contains "malloc" r) as ->.
  { unfold event_type_contains. by rewrite cell_set_cell_ne. }
  destruct (event_type_contains "malloc" r) eqn:Hm.
  - assert (event_type_contains "free"
              (set_cell (set_cell r "event_category" (CStr "other"))
                 "event_category" (CStr "allocation"))
            = event_type_contains "free" r) as ->.
    { unfold event_type_contains. by rewrite !cell_set_cell_ne. }
    destruct (event_type_contains "free" r); simpl;
      rewrite ?cell_set_cell_eq, ?cell_set_cell_ne by done; done.
  - assert (event_type_contains "free" (set_cell r "event_category" (CStr "other"))
            = event_type_contains "free" r) as ->.
    { unfold event_type_contains. by rewrite cell_set_cell_ne. }
    destruct (event_type_contains "free" r); simpl;
      rewrite ?cell_set_cell_eq, ?cell_set_cell_ne by done; done.
Qed.

Lemma categorise_kept (df : DataFrame) :
  List.filter (fun r => negb (is_category "other" r))
    (df_rows (categorise (assign_all df "event_category" (CStr "other"))))
  = map categorise_one (List.filter names_memory_event (df_rows df)).
Proof.
  rewrite categorise_row. fold categorise_one.
  change (fun r : Row =>
            let r1 := set_cell r "event_category" (CStr "other") in
            let r2 := if event_type_contains "malloc" r1
                      then set_cell r1 "event_category" (CStr "allocation") else r1 in
            if event_type_contains "free" r2
            then set_cell r2 "event_category" (CStr "deallocation") else r2)
    with categorise_one.
  rewrite filter_map_commute. f_equal. apply filter_ext_in. intros r.
  destruct (categorise_one_cells r) as (_ & _ & -> & _). by rewrite negb_involutive.
Qed.

Lemma elem_of_rename_columns (cols : list string) (k : string) :
  k ∈ map (fun c => if bool_decide (c = "size") then "allocation_size" else c) cols
  ↔ (k = "allocation_size" ∧ "size" ∈ cols) ∨ (k ≠ "size" ∧ k ∈ cols).
Proof.
  rewrite list_elem_of_In, in_map_iff. split.
  - intros (c & Hc & Hin). apply list_elem_of_In in Hin. case_bool_decide; subst; [by left|by right].
  - intros [[-> Hin] | [Hne Hin]].
    + exists "size". split; [done|by apply list_elem_of_In].
    + exists k. split; [by rewrite bool_decide_false|by apply list_elem_of_In].
Qed.

Section PostProcess.

Variable ext : Externals.

(** What [keep_memory_events] returns on a table that has a [size] column:
    its columns, and row by row the rows it kept. *)
Lemma keep_memory_events_shape (df3 df' : DataFrame) :
  has_column df3 "size" = true →
  keep_memory_events ext df3 = Ok df' →
  df_columns df'
  = map (fun c => if bool_decide (c = "size") then "allocation_size" else c) (df_columns df3)
  ∧ Forall2 (fun r3 r => same_event r3 r
                         ∧ str_cell (cell r "ptr")
                         ∧ float_cell (cell r "allocation_size"))
      (List.filter (fun r => negb (is_category "other" r)) (df_rows df3)) (df_rows df').
Proof.
  intros Hsize. unfold keep_memory_events.
  set (sel := select df3 _).
  assert (has_column sel "size" = true) as Hsel by done.
  destruct (convert_column (rename sel _ _) _ _) as [d1|e] eqn:H1; simpl; [|done].
  intros H2.
  apply convert_column_rows in H1 as [Hc1 Hr1].
  apply convert_column_rows in H2 as [Hc2 Hr2].
  split.
  { rewrite Hc2, Hc1. unfold rename. by rewrite Hsel. }
  pose proof (rename_same_event sel) as H0.
  change (df_rows sel)
    with (List.filter (fun r => negb (is_category "other" r)) (df_rows df3)) in H0.
  revert H0 Hr1 Hr2.
  generalize (List.filter (fun r => negb (is_category "other" r)) (df_rows df3)).
  generalize (df_rows (rename sel "size" "allocation_size")).
  generalize (df_rows d1). generalize (df_rows df').
  intros l3 l2 l1 l0 H0. revert l2 l3.
  induction H0 as [|r0 r1 l0 l1 Hr _ IH]; intros l2 l3 Hr1 Hr2.
  - inversion Hr1; subst. inversion Hr2; subst. constructor.
  - inversion Hr1 as [|? r2 ? l2' (v1 & Hv1 & ->) Hr1']; subst.
    inversion Hr2 as [|? r3 ? l3' (v2 & Hv2 & ->) Hr2']; subst.
    constructor; [|by eapply IH].
    destruct Hr as (Hi & Hty & Hcat).
    split; [|split].
    + split; [done|]. split; rewrite !cell_set_cell_ne by done; done.
    + rewrite cell_set_cell_eq. unfold astype_str in Hv2.
      destruct (cell _ "ptr"); injection Hv2 as <-; by eexists.
    + rewrite cell_set_cell_ne by done. rewrite cell_set_cell_eq.
      unfold astype_float in Hv1.
      destruct (cell r1 "allocation_size") as [s|x| |].
      * destruct (float_of_string ext s) as [[x|]|]; simpl in Hv1; [| |done];
          injection Hv1 as <-; [right; eauto|by left].
      * injection Hv1 as <-. right. eauto.
      * done.
      * injection Hv1 as <-. by left.
Qed.

Lemma post_process_inv (self self' : Module) (raw : DataFrame) :
  dataframes self !! "Events Table" = Some raw →
  forallb (has_column raw) ["size"; "ptr"] = true →
  _post_process ext self = (Ok (), self') →
  ∃ events,
    keep_memory_events ext (categorise (assign_all raw "event_category" (CStr "other")))
    = Ok events
    ∧ self' = set_dataframe self "Events Table" events.
Proof.
  intros Hraw Hcols. unfold _post_process. rewrite Hraw, Hcols. simpl.
  destruct (getitem _ "Event type"); [|done].
  destruct (keep_memory_events _ _) as [events|]; [|done].
  intros [= <-]. eauto.
Qed.

Lemma categorised_has_column (raw : DataFrame) (k : string) :
  has_column raw k = true →
  has_column (categorise (assign_all raw "event_category" (CStr "other"))) k = true.
Proof.
  unfold has_column. rewrite !bool_decide_eq_true. intros H.
  unfold categorise, assign_where, assign_all. cbn [df_columns].
  apply elem_of_add_column. left. apply elem_of_add_column. left.
  apply elem_of_add_column. by left.
Qed.

End PostProcess.

Lemma classified_rows (l rows : list Row) :
  (∀ r, r ∈ l → names_memory_event r = true) →
  Forall2 same_event (map categorise_one l) rows →
  Forall2 (fun r0 r => row_index r = row_index r0
                       ∧ cell r "Event type" = cell r0 "Event type"
                       ∧ cell r "event_category" = CStr (category_of r0))
    l rows.
Proof.
  revert rows. induction l as [|x l IH]; intros rows Hall H; inversion H; subst;
    constructor.
  - destruct (categorise_one_cells x) as (Hxi & Hxt & _ & Hxc).
    match goal with Hs : same_event _ _ |- _ => destruct Hs as (? & ? & Hc') end.
    split; [congruence|]. split; [congruence|]. rewrite Hc'. apply Hxc, Hall. left.
  - apply IH; [|done]. intros r Hr. apply Hall. by right.
Qed.

Section StoredTable.

Variable ext : Externals.

(** X6. When [_post_process] returns on an events table that has its [size] and
    [ptr] columns, the table it stores holds, in their order, the rows whose
    event type contains ["malloc"] or ["free"] and no other row; each keeps
    its timestamp and event type, and has the category ["deallocation"] if
    its type contains ["free"] and ["allocation"] if not.  Nothing else of
    the module changes. *)
Theorem post_process_keeps_memory_events (self self' : Module) (raw : DataFrame) :
  dataframes self !! "Events Table" = Some raw →
  forallb (has_column raw) ["size"; "ptr"] = true →
  _post_process ext self = (Ok (), self') →
  ∃ events,
    dataframes self' !! "Events Table" = Some events
    ∧ Forall2 (fun r0 r => row_index r = row_index r0
                           ∧ cell r "Event type" = cell r0 "Event type"
                           ∧ cell r "event_category" = CStr (category_of r0))
        (List.filter names_memory_event (df_rows raw)) (df_rows events)
    ∧ (∀ k, k ≠ "Events Table" → dataframes self' !! k = dataframes self !! k)
    ∧ thresholds self' = thresholds self
    ∧ ptr_lifecycle self' = ptr_lifecycle self.
Proof.
  intros Hraw Hcols Hpost.
  destruct (post_process_inv ext self self' raw Hraw Hcols Hpost) as (events & Hkeep & ->).
  exists events. split; [apply lookup_insert_eq|].
  split; [|split; [|done]].
  - apply keep_memory_events_rows in Hkeep. rewrite categorise_kept in Hkeep.
    apply classified_rows; [|done].
    intros r Hr. by apply list_elem_of_In, filter_In in Hr as [_ ?].
  - intros k Hk. simpl. by rewrite lookup_insert_ne.
Qed.

(** X7. The table that [_post_process] stores has the columns and the types
    that the later steps read: [allocation_size] in place of [size], with a
    float or NaN in every row; [ptr], with a string in every row; and
    [event_category], with ["allocation"] or ["deallocation"] in every
    row. *)
Theorem post_process_canonical_table (self self' : Module) (raw : DataFrame) :
  dataframes self !! "Events Table" = Some raw →
  forallb (has_column raw) ["size"; "ptr"] = true →
  _post_process ext self = (Ok (), self') →
  ∃ events,
    dataframes self' !! "Events Table" = Some events
    ∧ has_column events "size" = false
    ∧ has_column events "allocation_size" = true
    ∧ has_column events "ptr" = true
    ∧ has_column events "event_category" = true
    ∧ (∀ r, r ∈ df_rows events →
            str_cell (cell r "ptr")
            ∧ float_cell (cell r "allocation_size")
            ∧ (is_category "allocation" r = true ∨ is_category "deallocation" r = true)).
Proof.
  intros Hraw Hcols Hpost.
  destruct (post_process_inv ext self self' raw Hraw Hcols Hpost) as (events & Hkeep & ->).
  exists events. split; [apply lookup_insert_eq|].
  simpl in Hcols. rewrite andb_true_r in Hcols. apply andb_true_iff in Hcols as [Hsize Hptr].
  pose proof (keep_memory_events_rows ext _ _ Hkeep) as Hevent.
  rewrite categorise_kept in Hevent.
  apply keep_memory_events_shape in Hkeep as [Hc Hrows];
    [|by apply categorised_has_column].
  assert (∀ k, has_column events k
               = bool_decide ((k = "allocation_size"
                               ∧ "size" ∈ df_columns (categorise
                                   (assign_all raw "event_category" (CStr "other"))))
                              ∨ (k ≠ "size"
                                 ∧ k ∈ df_columns (categorise
                                     (assign_all raw "event_category" (CStr "other"))))))
    as Hcol.
  { intros k. unfold has_column. rewrite Hc. apply bool_decide_ext, elem_of_rename_columns. }
  assert (∀ k, has_column raw k = true →
               k ∈ df_columns (categorise (assign_all raw "event_category" (CStr "other"))))
    as Hin.
  { intros k Hk. apply categorised_has_column in Hk. unfold has_column in Hk.
    by apply bool_decide_eq_true in Hk. }
  rewrite !Hcol. split; [|split; [|split; [|split]]].
  - apply bool_decide_eq_false. intros [[? _] | [? _]]; done.
  - apply bool_decide_eq_true. left. split; [done|by apply Hin].
  - apply bool_decide_eq_true. right. split; [done|by apply Hin].
  - apply bool_decide_eq_true. right. split; [done|].
    unfold categorise, assign_where, assign_all. cbn [df_columns].
    apply elem_of_add_column. by right.
  - intros r Hr.
    destruct (Forall2_elem_of_r _ _ _ r Hrows Hr) as (r3 & _ & _ & Hp & Hs).
    split; [done|]. split; [done|].
    destruct (Forall2_elem_of_r _ _ _ r Hevent Hr) as (rc & Hrc & _ & _ & Hcat).
    apply list_elem_of_In, in_map_iff in Hrc as (r0 & <- & Hr0).
    apply filter_In in Hr0 as [_ Hr0].
    destruct (categorise_one_cells r0) as (_ & _ & _ & Hc0).
    unfold is_category. rewrite Hcat, (Hc0 Hr0). unfold category_of.
    destruct (event_type_contains "free" r0); simpl; [by right|by left].
Qed.

(** X8. [_post_process] is not to be run twice: the table it stored has no
    [size] column any more, so that a second run takes it for a table
    without the columns it needs and replaces it by the empty table, on
    which the analysis returns the neutral result. *)
Theorem post_process_twice (self self' : Module) (raw : DataFrame)
    (window : string) (fragmentation_threshold slope_threshold : Q) :
  dataframes self !! "Events Table" = Some raw →
  forallb (has_column raw) ["size"; "ptr"] = true →
  _post_process ext self = (Ok (), self') →
  let self'' := set_dataframe self' "Events Table" empty_frame in
  _post_process ext self' = (Ok (), self'')
  ∧ analyze_memory_leaks ext self'' window fragmentation_threshold slope_threshold
    = (Ok neutral_result, self'').
Proof.
  intros Hraw Hcols Hpost self''.
  destruct (post_process_inv ext self self' raw Hraw Hcols Hpost) as (events & Hkeep & Hself).
  simpl in Hcols. rewrite andb_true_r in Hcols. apply andb_true_iff in Hcols as [Hsize Hptr].
  apply keep_memory_events_shape in Hkeep as [Hc _];
    [|by apply categorised_has_column].
  assert (has_column events "size" = false) as Hno.
  { unfold has_column. rewrite Hc. apply bool_decide_eq_false.
    rewrite elem_of_rename_columns. intros [[? _] | [? _]]; done. }
  assert (dataframes self' !! "Events Table" = Some events) as Hev.
  { rewrite Hself. apply lookup_insert_eq. }
  split.
  - unfold _post_process. rewrite Hev. simpl. by rewrite Hno.
  - unfold analyze_memory_leaks, missing_or_empty at 1. unfold self''. simpl.
    by rewrite lookup_insert_eq.
Qed.

End StoredTable.

Lemma post_process_keeps_memory_events_witness :
  ∃ events,
    dataframes ClassificationExample.self' !! "Events Table" = Some events
    ∧ Forall2 (fun r0 r => row_index r = row_index r0
                           ∧ cell r "Event type" = cell r0 "Event type"
                           ∧ cell r "event_category" = CStr (category_of r0))
        (List.filter names_memory_event (df_rows ClassificationExample.raw))
        (df_rows events)
    ∧ (∀ k, k ≠ "Events Table" →
            dataframes ClassificationExample.self' !! k
            = dataframes ClassificationExample.self !! k)
    ∧ thresholds ClassificationExample.self' = thresholds ClassificationExample.self
    ∧ ptr_lifecycle ClassificationExample.self' = ptr_lifecycle ClassificationExample.self.
Proof.
  apply (post_process_keeps_memory_events Examples.externals
           ClassificationExample.self ClassificationExample.self'
           ClassificationExample.raw);
    vm_compute; reflexivity.
Defined.

Lemma post_process_canonical_table_witness :
  ∃ events,
    dataframes ClassificationExample.self' !! "Events Table" = Some events
    ∧ has_column events "size" = false
    ∧ has_column events "allocation_size" = true
    ∧ has_column events "ptr" = true
    ∧ has_column events "event_category" = true
    ∧ (∀ r, r ∈ df_rows events →
            str_cell (cell r "ptr")
            ∧ float_cell (cell r "allocation_size")
            ∧ (is_category "allocation" r = true ∨ is_category "deallocation" r = true)).
Proof.
  apply (post_process_canonical_table Examples.externals
           ClassificationExample.self ClassificationExample.self'
           ClassificationExample.raw);
    vm_compute; reflexivity.
Defined.

Lemma post_process_twice_witness :
  let self'' := set_dataframe ClassificationExample.self' "Events Table" empty_frame in
  _post_process Examples.externals ClassificationExample.self' = (Ok (), self'')
  ∧ analyze_memory_leaks Examples.externals self'' "1s" 0.7%Q 0.5%Q
    = (Ok neutral_result, self'').
Proof.
  apply (post_process_twice Examples.externals
           ClassificationExample.self ClassificationExample.self'
           ClassificationExample.raw "1s" 0.7%Q 0.5%Q);
    vm_compute; reflexivity.
Defined.

(** ** The two classifiers *)

Lemma elem_of_add_column_iff (cols : list string) (k k' : string) :
  k ∈ add_column cols k' ↔ k ∈ cols ∨ k = k'.
Proof.
  split; [|apply elem_of_add_column].
  unfold add_column. case_bool_decide; [by left|].
  intros Hk. apply elem_of_app in Hk as [Hk|Hk]; [by left|].
  apply list_elem_of_singleton in Hk. by right.
Qed.

Lemma categorised_columns (raw : DataFrame) (k : string) :
  k ≠ "event_category" →
  has_column (categorise (assign_all raw "event_category" (CStr "other"))) k
  = has_column raw k.
Proof.
  intros Hk. unfold has_column, categorise, assign_where, assign_all. cbn [df_columns].
  apply bool_decide_ext. rewrite !elem_of_add_column_iff. tauto.
Qed.

Section Classifiers.

Variable ext : Externals.

(** X9. On a table with its [size] and [ptr] columns [_separate_events] returns
    the table that [_post_process] stores. *)
Theorem separate_events_as_post_process (self self' : Module) (raw : DataFrame) :
  dataframes self !! "Events Table" = Some raw →
  forallb (has_column raw) ["size"; "ptr"] = true →
  _post_process ext self = (Ok (), self') →
  ∃ events, _separate_events ext raw = Ok events
            ∧ dataframes self' !! "Events Table" = Some events.
Proof.
  intros Hraw Hcols Hpost.
  pose proof Hpost as Hinv.
  apply (post_process_inv ext self self' raw Hraw Hcols) in Hinv as (events & Hkeep & ->).
  exists events. split; [|apply lookup_insert_eq].
  unfold _post_process in Hpost. rewrite Hraw, Hcols in Hpost. cbn [negb] in Hpost.
  unfold _separate_events.
  destruct (getitem (assign_all raw "event_category" (CStr "other")) "Event type");
    [|done].
  exact Hkeep.
Qed.

(** X10. The two differ on a table that lacks a column.  Without [size] (and
    with no [allocation_size] either) [_post_process] stores an empty table
    and returns, where [_separate_events] raises [KeyError] for
    ["allocation_size"], the column that the renaming did not make; without
    [Event type], [_separate_events] raises [KeyError] for it, and so does
    [_post_process] when [size] and [ptr] are there. *)
Theorem separate_events_missing_columns (self : Module) (raw : DataFrame) :
  dataframes self !! "Events Table" = Some raw →
  (has_column raw "Event type" = true →
   has_column raw "size" = false →
   has_column raw "allocation_size" = false →
   _separate_events ext raw = Raise (KeyError "allocation_size")
   ∧ _post_process ext self = (Ok (), set_dataframe self "Events Table" empty_frame))
  ∧ (has_column raw "Event type" = false →
     _separate_events ext raw = Raise (KeyError "Event type")
     ∧ (forallb (has_column raw) ["size"; "ptr"] = true →
        (_post_process ext self).1 = Raise (KeyError "Event type"))).
Proof.
  intros Hraw. split.
  - intros Htype Hsize Halloc. split.
    + unfold _separate_events, getitem at 1.
      assert (has_column (assign_all raw "event_category" (CStr "other")) "Event type" = true)
        as ->.
      { unfold has_column, assign_all. cbn [df_columns].
        apply bool_decide_eq_true, elem_of_add_column. left.
        by apply bool_decide_eq_true in Htype. }
      cbn [mbind result_bind]. unfold keep_memory_events, rename.
      assert (has_column
                (select (categorise (assign_all raw "event_category" (CStr "other")))
                   (fun r => negb (is_category "other" r))) "size" = false) as ->.
      { change (has_column (select ?d _) ?k) with (has_column d k).
        by rewrite categorised_columns. }
      unfold convert_column, getitem.
      assert (has_column
                (select (categorise (assign_all raw "event_category" (CStr "other")))
                   (fun r => negb (is_category "other" r))) "allocation_size" = false) as ->.
      { change (has_column (select ?d _) ?k) with (has_column d k).
        by rewrite categorised_columns. }
      reflexivity.
    + unfold _post_process. rewrite Hraw. cbn [forallb]. by rewrite Hsize.
  - intros Htype.
    assert (getitem (assign_all raw "event_category" (CStr "other")) "Event type"
            = Raise (KeyError "Event type")) as Hget.
    { unfold getitem.
      assert (has_column (assign_all raw "event_category" (CStr "other")) "Event type"
              = false) as ->; [|done].
      unfold has_column, assign_all. cbn [df_columns].
      apply bool_decide_eq_false. rewrite elem_of_add_column_iff.
      apply bool_decide_eq_false in Htype. by intros [?|?]. }
    split.
    + unfold _separate_events. by rewrite Hget.
    + intros Hcols. unfold _post_process. rewrite Hraw, Hcols. cbn [negb].
      by rewrite Hget.
Qed.

End Classifiers.

Lemma separate_events_as_post_process_witness :
  ∃ events, _separate_events Examples.externals ClassificationExample.raw = Ok events
            ∧ dataframes ClassificationExample.self' !! "Events Table" = Some events.
Proof.
  apply (separate_events_as_post_process Examples.externals ClassificationExample.self
           ClassificationExample.self' ClassificationExample.raw);
    vm_compute; reflexivity.
Defined.

Lemma separate_events_missing_columns_witness :
  let typed := {| df_columns := ["Event type"; "ptr"];
                  df_rows := [{| row_index := 0;
                                 row_cells := list_to_map [("Event type", CStr "malloc");
                                                           ("ptr", CStr "0x1")] |}] |} in
  let untyped := TrendExample.usage in
  (_separate_events Examples.externals typed = Raise (KeyError "allocation_size")
   ∧ _post_process Examples.externals (Examples.module_of [("Events Table", typed)])
     = (Ok (), set_dataframe (Examples.module_of [("Events Table", typed)])
                 "Events Table" empty_frame))
  ∧ _separate_events Examples.externals untyped = Raise (KeyError "Event type").
Proof.
  intros typed untyped. split.
  - apply (separate_events_missing_columns Examples.externals
             (Examples.module_of [("Events Table", typed)]) typed);
      vm_compute; reflexivity.
  - apply (separate_events_missing_columns Examples.externals
             (Examples.module_of [("Events Table", untyped)]) untyped);
      vm_compute; reflexivity.
Defined.

(** ** The lifetimes of the lifecycle table *)

Lemma rename_has_column (d : DataFrame) (old new k : string) :
  k ≠ old → k ≠ new → has_column (rename d old new) k = has_column d k.
Proof.
  intros Ho Hn. unfold rename. destruct (has_column d old); [|done].
  unfold has_column. cbn [df_columns]. apply bool_decide_ext.
  rewrite !list_elem_of_In, in_map_iff. split.
  - intros (c & Hc & Hin). case_bool_decide; subst; [done|done].
  - intros Hin. exists k. split; [by rewrite bool_decide_false|done].
Qed.

Lemma matching_deallocations (events : DataFrame) (p : string) :
  List.filter (fun r => cell_eqb (CStr p) (cell r "ptr")) (df_rows (deallocation_times events))
  = map stamp_deallocation (List.filter (ptr_is p) (deallocations_of events)).
Proof.
  unfold deallocation_times. cbn [df_rows]. rewrite filter_map_commute. f_equal.
  apply filter_ext_in. intros r. rewrite cell_eqb_str. apply ptr_is_stamp_deallocation.
Qed.

(** The deallocation time of a merged row is the time of a deallocation
    that shares the identity of the record, and null if there is none. *)
Lemma joined_deallocation_time (events : DataFrame) (rec m : Row) (p : string) :
  m ∈ joined events rec →
  cell rec "ptr" = CStr p →
  (cell m "deallocation_time" = CNull
   ∧ count (ptr_is p) (deallocations_of events) = 0%nat)
  ∨ (∃ d, d ∈ deallocations_of events ∧ ptr_is p d = true
          ∧ cell m "deallocation_time" = CTime (row_index d)).
Proof.
  intros Hm Hp. unfold joined in Hm. rewrite Hp, matching_deallocations in Hm.
  unfold count.
  destruct (List.filter (ptr_is p) (deallocations_of events)) as [|d0 ds] eqn:Hf.
  - left. simpl in Hm. apply list_elem_of_singleton in Hm as ->.
    by rewrite cell_set_cell_eq.
  - right. assert (∀ d, d ∈ d0 :: ds → d ∈ deallocations_of events ∧ ptr_is p d = true) as Hin.
    { intros d Hd. rewrite <- Hf in Hd. by apply list_elem_of_In, filter_In in Hd as [?%list_elem_of_In ?]. }
    change (map stamp_deallocation (d0 :: ds))
      with (stamp_deallocation d0 :: map stamp_deallocation ds) in Hm.
    cbv iota in Hm.
    apply list_elem_of_In, in_map_iff in Hm as (s & <- & Hs).
    change (stamp_deallocation d0 :: map stamp_deallocation ds)
      with (map stamp_deallocation (d0 :: ds)) in Hs.
    apply in_map_iff in Hs as (d & <- & Hd). apply list_elem_of_In in Hd.
    destruct (Hin d Hd) as [? ?]. exists d. split; [done|]. split; [done|].
    rewrite cell_set_cell_eq. unfold stamp_deallocation. by rewrite cell_set_cell_eq.
Qed.

Lemma merged_deallocation_time (events : DataFrame) (m : Row) (p : string) :
  m ∈ df_rows (merge_left (allocation_records events) (deallocation_times events) "ptr") →
  cell m "ptr" = CStr p →
  (cell m "deallocation_time" = CNull
   ∧ count (ptr_is p) (deallocations_of events) = 0%nat)
  ∨ (∃ d, d ∈ deallocations_of events ∧ ptr_is p d = true
          ∧ cell m "deallocation_time" = CTime (row_index d)).
Proof.
  rewrite merge_left_rows. intros Hm Hp.
  destruct (Forall2_elem_of_r _ _ _ m (reset_index_cells _) Hm) as (m0 & Hm0 & Hcells).
  apply list_elem_of_In, in_flat_map in Hm0 as (rec & Hrec & Hm0).
  apply list_elem_of_In in Hm0.
  rewrite !(cell_of_cells _ _ _ Hcells) in *.
  apply (joined_deallocation_time events rec m0 p Hm0).
  apply joined_cells in Hm0 as (<- & _). done.
Qed.

Lemma Qltb_seconds (z : Z) : Qltb (z # 1000000000) 0%Q = bool_decide (z < 0)%Z.
Proof.
  unfold Qltb, Qle_bool. simpl. rewrite Z.mul_1_r.
  case_bool_decide.
  - apply negb_true_iff, Z.leb_gt. lia.
  - apply negb_false_iff, Z.leb_le. lia.
Qed.

Lemma lifecycle_of_lifetimes (events : DataFrame) :
  has_column events "event_category" = true →
  has_column events "ptr" = true →
  ∃ lifecycle,
    lifecycle_of events = Ok lifecycle
    ∧ has_column lifecycle "lifetime" = true
    ∧ has_column lifecycle "deallocation_time" = true
    ∧ has_column lifecycle "ptr" = true
    ∧ Forall2 (fun m r => same_record m r ∧ lifetime_written m r)
        (df_rows (merge_left (allocation_records events) (deallocation_times events) "ptr"))
        (df_rows lifecycle).
Proof.
  intros Hcat Hptr. rewrite (lifecycle_of_merged events Hcat Hptr).
  set (merged := merge_left _ _ _).
  destruct (mapM_result_ok
              (fun r => v ← total_seconds_between (cell r "deallocation_time")
                                                  (cell r "allocation_time");
                        mret (set_cell r "lifetime" v))
              (fun r r' => same_record r r'
                           ∧ total_seconds_between (cell r "deallocation_time")
                                                   (cell r "allocation_time")
                             = Ok (cell r' "lifetime")
                           ∧ (cell r' "lifetime" = CNull ∨ ∃ x, cell r' "lifetime" = CNum x))
              (df_rows merged)) as (rows1 & Hrows1 & HF1).
  { intros m Hm. apply merged_rows in Hm as (rec & Hrec & _ & Hat & Hdt).
    apply allocation_records_time_or_null in Hrec. rewrite <- Hat in Hrec.
    destruct (total_seconds_between_ok _ _ Hdt Hrec) as (v & Hv1 & Hv).
    rewrite Hv1. eexists. split; [done|]. rewrite cell_set_cell_eq. split; [|done].
    repeat split; by rewrite cell_set_cell_ne. }
  unfold assign_rows. rewrite Hrows1. cbn [mbind result_bind mret result_ret].
  set (merged1 := {| df_columns := _; df_rows := rows1 |}).
  destruct (mapM_result_ok
              (fun r => v ← clip_lower_0 (cell r "lifetime"); mret (set_cell r "lifetime" v))
              (fun r r' => same_record r r'
                           ∧ clip_lower_0 (cell r "lifetime") = Ok (cell r' "lifetime"))
              rows1) as (rows2 & Hrows2 & HF2).
  { intros r Hr.
    destruct (Forall2_elem_of_r _ _ _ r HF1 Hr) as (m & _ & _ & _ & Hv).
    destruct (clip_lower_0_ok _ Hv) as (v' & ->).
    eexists. split; [done|]. rewrite cell_set_cell_eq. split; [|done].
    repeat split; by rewrite cell_set_cell_ne. }
  unfold convert_column, getitem.
  assert (has_column merged1 "lifetime" = true) as Hl.
  { apply bool_decide_eq_true, elem_of_add_column. by right. }
  rewrite Hl.
  cbn [mbind result_bind]. change (df_rows merged1) with rows1. rewrite Hrows2.
  cbn [mbind result_bind mret result_ret].
  eexists. split; [done|].
  rewrite !rename_has_column by done. unfold has_column at 1 2 3. cbn [df_columns].
  split; [exact Hl|].
  split.
  { apply bool_decide_eq_true, elem_of_add_column. left.
    unfold merged, merge_left. cbn [df_columns]. apply elem_of_app. right.
    unfold deallocation_times. cbn [df_columns]. simpl. set_solver. }
  split.
  { apply bool_decide_eq_true, elem_of_add_column. left.
    unfold merged, merge_left. cbn [df_columns]. apply elem_of_app. left.
    unfold allocation_records. destruct (has_duplicate _).
    - unfold groupby_first. cbn [df_columns]. left.
    - unfold with_index_as. cbn [df_columns]. apply elem_of_add_column. left.
      by apply bool_decide_eq_true in Hptr. }
  pose proof (rename_same_record {| df_columns := df_columns merged1; df_rows := rows2 |}) as HF3.
  cbn [df_rows] in HF3.
  assert (Forall2 (fun r r' => same_record r r' ∧ cell r' "lifetime" = cell r "lifetime")
            rows2 (df_rows (rename {| df_columns := df_columns merged1; df_rows := rows2 |}
                              "allocation_size" "size"))) as HF3'.
  { unfold rename. destruct (has_column _ "allocation_size"); cbn [df_rows].
    - clear. induction rows2 as [|r rows IH]; simpl; constructor; [|done].
      split; [repeat split|]; by apply cell_rename_row_ne.
    - clear. induction rows2; constructor; [|done]. by split. }
  clear HF3 Hrows1 Hrows2.
  revert HF1 HF2 HF3'.
  generalize (df_rows (rename {| df_columns := df_columns merged1; df_rows := rows2 |}
                         "allocation_size" "size")).
  generalize (df_rows merged). clear.
  intros l0 l3 H1. revert rows2 l3.
  induction H1 as [|m r1 l0 l1 (Hs1 & Ht & _) _ IH]; intros rows2 l3 H2 H3.
  - inversion H2; subst. inversion H3; subst. constructor.
  - inversion H2 as [|? r2 ? l2 (Hs2 & Hc) H2']; subst.
    inversion H3 as [|? r3 ? l3' (Hs3 & Hl3) H3']; subst.
    constructor; [|by eapply IH].
    split.
    + unfold same_record in *. intuition congruence.
    + unfold lifetime_written. rewrite Hl3.
      destruct (cell m "deallocation_time") as [| |td|] eqn:Hd;
        destruct (cell m "allocation_time") as [| |ta|] eqn:Ha;
        simpl in Ht; try discriminate Ht;
        injection Ht as Ht; rewrite <- Ht in Hc; simpl in Hc; injection Hc as Hc;
        rewrite <- Hc; try done.
      f_equal. rewrite Qltb_seconds. unfold seconds.
      repeat case_bool_decide; try lia; done.
Qed.

Lemma seconds_nonneg (z : Z) : (0 ≤ z)%Z → (0 <= seconds z)%Q.
Proof. intros H. unfold seconds, Qle. simpl. lia. Qed.

Lemma track_pointer_lifecycle_of (self : Module) (events lifecycle : DataFrame) :
  dataframes self !! "Events Table" = Some events →
  df_empty events = false →
  lifecycle_of events = Ok lifecycle →
  _track_pointer_lifecycle self = (Ok lifecycle, set_ptr_lifecycle self lifecycle).
Proof. intros H1 H2 H3. unfold _track_pointer_lifecycle. by rewrite H1, H2, H3. Qed.

(** X11. The lifetime of a row of the lifecycle table is null when the row has
    no deallocation time, and else the seconds from the allocation to the
    deallocation, or 0 when the deallocation is the earlier one: it is never
    negative. *)
Theorem track_pointer_lifecycle_lifetimes (self : Module) (events : DataFrame) :
  dataframes self !! "Events Table" = Some events →
  df_empty events = false →
  has_column events "event_category" = true →
  has_column events "ptr" = true →
  ∃ lifecycle,
    _track_pointer_lifecycle self = (Ok lifecycle, set_ptr_lifecycle self lifecycle)
    ∧ has_column lifecycle "lifetime" = true
    ∧ (∀ r, r ∈ df_rows lifecycle →
         (cell r "deallocation_time" = CNull → cell r "lifetime" = CNull)
         ∧ (∀ ta td, cell r "allocation_time" = CTime ta →
                     cell r "deallocation_time" = CTime td →
                     cell r "lifetime"
                     = CNum (if bool_decide (td < ta)%Z then 0%Q else seconds (td - ta)))
         ∧ (cell r "lifetime" = CNull ∨ ∃ x, cell r "lifetime" = CNum x ∧ (0 <= x)%Q)).
Proof.
  intros Hevents Hne Hcat Hptr.
  destruct (lifecycle_of_lifetimes events Hcat Hptr) as (lifecycle & Hlc & Hl & _ & _ & Hrows).
  exists lifecycle. split; [by apply track_pointer_lifecycle_of with events|].
  split; [done|]. intros r Hr.
  destruct (Forall2_elem_of_r _ _ _ r Hrows Hr) as (m & Hm & (_ & Ha & Hd) & Hw).
  unfold lifetime_written in Hw. rewrite <- Ha, <- Hd in Hw.
  split; [|split].
  - intros Hnull. by rewrite Hnull in Hw.
  - intros ta td Hta Htd. by rewrite Hta, Htd in Hw.
  - destruct (cell r "deallocation_time") as [| |td|]; try (by left).
    destruct (cell r "allocation_time") as [| |ta|]; try (by left).
    right. eexists. split; [exact Hw|].
    case_bool_decide; [done|]. apply seconds_nonneg. lia.
Qed.

(** X12. The deallocation time of a row of the lifecycle table is the time of a
    deallocation event with the pointer of the row, whether it comes after
    the allocation or before it; the row has none only if no deallocation
    event has its pointer. *)
Theorem track_pointer_lifecycle_deallocation_times (self : Module) (events : DataFrame) :
  dataframes self !! "Events Table" = Some events →
  df_empty events = false →
  has_column events "event_category" = true →
  has_column events "ptr" = true →
  ∃ lifecycle,
    _track_pointer_lifecycle self = (Ok lifecycle, set_ptr_lifecycle self lifecycle)
    ∧ has_column lifecycle "deallocation_time" = true
    ∧ (∀ r p, r ∈ df_rows lifecycle → cell r "ptr" = CStr p →
         (cell r "deallocation_time" = CNull
          ∧ count (ptr_is p) (deallocations_of events) = 0%nat)
         ∨ (∃ d, d ∈ deallocations_of events ∧ cell d "ptr" = CStr p
                 ∧ cell r "deallocation_time" = CTime (row_index d))).
Proof.
  intros Hevents Hne Hcat Hptr.
  destruct (lifecycle_of_lifetimes events Hcat Hptr) as (lifecycle & Hlc & _ & Hd & _ & Hrows).
  exists lifecycle. split; [by apply track_pointer_lifecycle_of with events|].
  split; [done|]. intros r p Hr Hp.
  destruct (Forall2_elem_of_r _ _ _ r Hrows Hr) as (m & Hm & (Hmp & _ & Hmd) & _).
  rewrite Hmd. rewrite Hmp in Hp.
  destruct (merged_deallocation_time events m p Hm Hp) as [?|(d & ? & Hpd & ?)]; [by left|].
  right. exists d. split; [done|]. split; [|done]. by apply cell_is_str_true.
Qed.

Lemma existsb_filter {A : Type} (f : A → bool) (l : list A) :
  existsb f l = match List.filter f l with [] => false | _ => true end.
Proof. induction l as [|x l IH]; [done|]. simpl. by destruct (f x). Qed.

Lemma joined_not_deallocated (events : DataFrame) (rec : Row) :
  count not_deallocated (joined events rec)
  = if negb (existsb (fun d => cell_eqb (cell rec "ptr") (cell d "ptr"))
               (deallocations_of events))
    then 1%nat else 0%nat.
Proof.
  unfold joined, deallocation_times. cbn [df_rows]. rewrite filter_map_commute.
  rewrite (filter_ext_in _ (fun d => cell_eqb (cell rec "ptr") (cell d "ptr"))).
  2:{ intros d. unfold stamp_deallocation. rewrite cell_set_cell_ne by done.
      unfold cell at 2. simpl. by rewrite lookup_insert_eq. }
  rewrite existsb_filter.
  destruct (List.filter _ (deallocations_of events)) as [|d ds].
  - unfold count, not_deallocated. simpl. by rewrite cell_set_cell_eq.
  - change (map stamp_deallocation (d :: ds))
      with (stamp_deallocation d :: map stamp_deallocation ds).
    cbv iota.
    change (stamp_deallocation d :: map stamp_deallocation ds)
      with (map stamp_deallocation (d :: ds)).
    rewrite map_map. simpl negb. cbv iota.
    apply count_none. intros m Hm.
    apply list_elem_of_In, in_map_iff in Hm as (x & <- & _).
    unfold not_deallocated. rewrite cell_set_cell_eq. unfold stamp_deallocation.
    by rewrite cell_set_cell_eq.
Qed.

Lemma sum_indicator_1 {A : Type} (f : A → bool) (l : list A) :
  sum_list (map (fun x => if f x then 1%nat else 0%nat) l) = count f l.
Proof. rewrite sum_indicator. lia. Qed.

Lemma merged_not_deallocated (events : DataFrame) :
  count not_deallocated
    (df_rows (merge_left (allocation_records events) (deallocation_times events) "ptr"))
  = length (unmatched_records events).
Proof.
  rewrite merge_left_rows.
  rewrite (Forall2_cells_count not_deallocated _ _
             (fun r r' H => f_equal is_null (cell_of_cells r r' "deallocation_time" H))
             (reset_index_cells _)).
  rewrite count_flat_map.
  rewrite (map_ext _ _ (joined_not_deallocated events)).
  by rewrite sum_indicator_1.
Qed.

Lemma Forall2_count_by {A B : Type} (P : A → B → Prop) (f : A → bool) (g : B → bool)
    (l : list A) (l' : list B) :
  (∀ x y, P x y → g y = f x) → Forall2 P l l' → count g l' = count f l.
Proof.
  intros Hf. induction 1 as [|x y l l' Hxy _ IH]; [done|].
  by rewrite !count_cons, (Hf x y Hxy), IH.
Qed.

Lemma length_filter_le {A : Type} (f : A → bool) (l : list A) :
  (length (List.filter f l) ≤ length l)%nat.
Proof. induction l as [|x l IH]; simpl; [done|]. destruct (f x); simpl; lia. Qed.

Lemma length_distinct_keys (ks : list Cell) : (length (distinct_keys ks) ≤ length ks)%nat.
Proof.
  induction ks as [|k ks IH]; simpl; [done|].
  pose proof (length_filter_le (fun k' => negb (cell_eqb k k')) (distinct_keys ks)).
  destruct (is_null k); simpl; lia.
Qed.

Lemma length_reset_index (l : list Row) : length (reset_index l) = length l.
Proof. unfold reset_index. apply length_imap. Qed.

Lemma allocation_records_length (events : DataFrame) :
  (length (df_rows (allocation_records events)) ≤ length (allocations_of events))%nat.
Proof.
  unfold allocation_records. destruct (has_duplicate _).
  - unfold groupby_first. cbn [df_rows]. rewrite length_reset_index, length_map.
    unfold sorted_keys. rewrite (Permutation_length (merge_sort_Permutation _ _)).
    etransitivity; [apply length_distinct_keys|].
    rewrite length_map, stamped_rows, length_map. done.
  - rewrite stamped_rows, length_map. done.
Qed.

(** X13. The rows of the lifecycle table without a deallocation time are as
    many as the allocation records that no deallocation event matches by
    pointer: one for each such pointer, however often it was allocated.
    They are at most as many as the allocation events. *)
Theorem track_pointer_lifecycle_unmatched (self : Module) (events : DataFrame) :
  dataframes self !! "Events Table" = Some events →
  df_empty events = false →
  has_column events "event_category" = true →
  has_column events "ptr" = true →
  ∃ lifecycle,
    _track_pointer_lifecycle self = (Ok lifecycle, set_ptr_lifecycle self lifecycle)
    ∧ count not_deallocated (df_rows lifecycle) = length (unmatched_records events)
    ∧ (count not_deallocated (df_rows lifecycle) ≤ length (allocations_of events))%nat.
Proof.
  intros Hevents Hne Hcat Hptr.
  destruct (lifecycle_of_lifetimes events Hcat Hptr) as (lifecycle & Hlc & _ & _ & _ & Hrows).
  exists lifecycle. split; [by apply track_pointer_lifecycle_of with events|].
  assert (count not_deallocated (df_rows lifecycle) = length (unmatched_records events)) as Hc.
  { rewrite <- merged_not_deallocated.
    apply Forall2_count_by with
      (P := fun m r => same_record m r ∧ lifetime_written m r); [|done].
    intros m r [(_ & _ & Hd) _]. unfold not_deallocated. by rewrite Hd. }
  split; [done|]. rewrite Hc. unfold unmatched_records.
  etransitivity; [apply length_filter_le|apply allocation_records_length].
Qed.

Lemma track_pointer_lifecycle_lifetimes_witness :
  let self := LifecycleExample.reused in
  ∃ lifecycle,
    _track_pointer_lifecycle self = (Ok lifecycle, set_ptr_lifecycle self lifecycle)
    ∧ has_column lifecycle "lifetime" = true
    ∧ (∀ r, r ∈ df_rows lifecycle →
         (cell r "deallocation_time" = CNull → cell r "lifetime" = CNull)
         ∧ (∀ ta td, cell r "allocation_time" = CTime ta →
                     cell r "deallocation_time" = CTime td →
                     cell r "lifetime"
                     = CNum (if bool_decide (td < ta)%Z then 0%Q else seconds (td - ta)))
         ∧ (cell r "lifetime" = CNull ∨ ∃ x, cell r "lifetime" = CNum x ∧ (0 <= x)%Q)).
Proof.
  intros self.
  apply (track_pointer_lifecycle_lifetimes self (LifecycleExample.events_of self));
    vm_compute; reflexivity.
Defined.

Lemma track_pointer_lifecycle_deallocation_times_witness :
  let self := LifecycleExample.reused in
  let events := LifecycleExample.events_of self in
  ∃ lifecycle,
    _track_pointer_lifecycle self = (Ok lifecycle, set_ptr_lifecycle self lifecycle)
    ∧ has_column lifecycle "deallocation_time" = true
    ∧ (∀ r p, r ∈ df_rows lifecycle → cell r "ptr" = CStr p →
         (cell r "deallocation_time" = CNull
          ∧ count (ptr_is p) (deallocations_of events) = 0%nat)
         ∨ (∃ d, d ∈ deallocations_of events ∧ cell d "ptr" = CStr p
                 ∧ cell r "deallocation_time" = CTime (row_index d))).
Proof.
  intros self events.
  apply (track_pointer_lifecycle_deallocation_times self events); vm_compute; reflexivity.
Defined.

Lemma track_pointer_lifecycle_unmatched_witness :
  let self := LifecycleExample.twice_allocated in
  let events := LifecycleExample.events_of self in
  ∃ lifecycle,
    _track_pointer_lifecycle self = (Ok lifecycle, set_ptr_lifecycle self lifecycle)
    ∧ count not_deallocated (df_rows lifecycle) = length (unmatched_records events)
    ∧ (count not_deallocated (df_rows lifecycle) ≤ length (allocations_of events))%nat.
Proof.
  intros self events.
  apply (track_pointer_lifecycle_unmatched self events); vm_compute; reflexivity.
Defined.

(** ** Suspicious locations *)

Lemma cell_leb_total (a b : Cell) :
  a ≠ CNull → b ≠ CNull → cell_leb a b = true ∨ cell_leb b a = true.
Proof.
  destruct a as [s|x|t|], b as [s'|y|t'|]; simpl; intros Ha Hb; try done; auto.
  - apply String.leb_total.
  - destruct (Qle_bool x y) eqn:Hxy; [by left|right].
    apply Qle_bool_iff. apply Qlt_le_weak, Qnot_le_lt. intros H.
    apply Qle_bool_iff in H. congruence.
  - destruct (decide (t ≤ t')%Z); [left|right]; apply bool_decide_eq_true; lia.
Qed.

Lemma cell_geb_total (a b : Cell) : cell_geb a b = true ∨ cell_geb b a = true.
Proof.
  destruct a as [s|x|t|], b as [s'|y|t'|]; try (by left); try (by right).
  all: match goal with
       | |- cell_geb ?a ?b = true ∨ _ =>
           destruct (cell_leb_total a b) as [H|H]; [done|done|right|left]; exact H
       end.
Qed.

Lemma cell_geb_Total (k : string) :
  Total (fun a b : Row => Is_true (cell_geb (cell a k) (cell b k))).
Proof.
  intros a b. destruct (cell_geb_total (cell a k) (cell b k)) as [H|H];
    [left|right]; by apply Is_true_true.
Qed.

Lemma more_bytes_trans : Transitive more_bytes.
Proof.
  intros a b c (x & y & Ha & Hb & Hxy) (y' & z & Hb' & Hc & Hyz).
  rewrite Hb in Hb'. injection Hb' as <-.
  exists x, z. split; [done|]. split; [done|]. by apply Qle_trans with y.
Qed.

Lemma Sorted_numbers (k : string) (l : list Row) :
  Forall (fun r => ∃ x, cell r k = CNum x) l →
  Sorted (fun a b : Row => Is_true (cell_geb (cell a k) (cell b k))) l →
  Sorted (fun a b => ∃ x y, cell a k = CNum x ∧ cell b k = CNum y ∧ (y <= x)%Q) l.
Proof.
  intros Hall. induction 1 as [|a l Hs IH Hd]; constructor.
  - apply IH. by inversion Hall.
  - inversion Hall as [|? ? (x & Hx) Hl]; subst.
    destruct Hd as [|b l Hab]; constructor.
    inversion Hl as [|? ? (y & Hy) _]; subst.
    exists x, y. split; [done|]. split; [done|].
    rewrite Hx, Hy in Hab. simpl in Hab. apply Is_true_true in Hab.
    by apply Qle_bool_iff.
Qed.

Lemma bind_ok_inv {A B : Type} (m : result A) (f : A → result B) (y : B) :
  m ≫= f = Ok y → ∃ x, m = Ok x ∧ f x = Ok y.
Proof. destruct m as [x|e]; [|done]. intros H. by exists x. Qed.

Lemma getitem_bind_inv {B : Type} (d : DataFrame) (k : string) (f : list Cell → result B)
    (y : B) :
  getitem d k ≫= f = Ok y →
  has_column d k = true ∧ f (map (fun r => cell r k) (df_rows d)) = Ok y.
Proof.
  unfold getitem. destruct (has_column d k); [|done]. intros H. by split.
Qed.

Lemma identify_suspicious_locations_inv (self : Module) (events ptr_tracking out : DataFrame) :
  dataframes self !! "Events Table" = Some events →
  df_empty events = false →
  _identify_suspicious_locations self ptr_tracking = Ok out →
  let unfreed_ptrs :=
    map (fun r => cell r "ptr") (List.filter not_deallocated (df_rows ptr_tracking)) in
  let suspicious_allocs :=
    List.filter (fun r => is_category "allocation" r
                          && existsb (cell_eqb (cell r "ptr")) unfreed_ptrs)
      (df_rows events) in
  ∃ rows,
    Forall2 (fun key r =>
               ∃ sizes,
                 valid_numbers
                   (map (fun r => cell r "allocation_size")
                      (List.filter (fun r => cell_eqb key (cell r "ptr")) suspicious_allocs))
                 = Ok sizes
                 ∧ r = location_row suspicious_allocs key sizes)
      (sorted_keys (map (fun r => cell r "ptr") suspicious_allocs)) rows
    ∧ out = sort_descending
              {| df_columns := ["ptr"; "total_bytes"; "allocation_count"; "event_context"];
                 df_rows := reset_index rows |} "total_bytes".
Proof.
  intros Hevents Hne. unfold _identify_suspicious_locations. rewrite Hevents, Hne.
  intros H.
  apply getitem_bind_inv in H as [_ H].
  apply getitem_bind_inv in H as [_ H].
  apply getitem_bind_inv in H as [_ H].
  apply getitem_bind_inv in H as [_ H].
  apply getitem_bind_inv in H as [_ H].
  apply getitem_bind_inv in H as [_ H].
  apply bind_ok_inv in H as (rows & Hrows & H).
  cbn [mret result_ret] in H. injection H as <-.
  exists rows. split; [|done].
  apply mapM_result_Forall2 in Hrows.
  eapply Forall2_impl; [exact Hrows|].
  intros key r Hr. cbv beta in Hr.
  apply bind_ok_inv in Hr as (sizes & Hsizes & Hr).
  exists sizes. split; [exact Hsizes|].
  cbn [mret result_ret] in Hr. by injection Hr as <-.
Qed.

Lemma location_row_cells (suspicious_allocs : list Row) (key : Cell) (sizes : list Q) :
  cell (location_row suspicious_allocs key sizes) "ptr" = key
  ∧ cell (location_row suspicious_allocs key sizes) "total_bytes" = CNum (Qsum sizes)
  ∧ cell (location_row suspicious_allocs key sizes) "allocation_count"
    = CNum (inject_Z (Z.of_nat (length sizes))).
Proof.
  unfold cell, location_row. cbn [row_cells list_to_map foldr uncurry].
  split; [by rewrite lookup_insert_eq|]. split.
  - rewrite lookup_insert_ne by done. by rewrite lookup_insert_eq.
  - rewrite !(lookup_insert_ne _ _ "allocation_count") by done. by rewrite lookup_insert_eq.
Qed.

(** Where the rows of the result come from. *)
Lemma suspicious_rows (self : Module) (events ptr_tracking out : DataFrame) (r : Row) :
  dataframes self !! "Events Table" = Some events →
  df_empty events = false →
  _identify_suspicious_locations self ptr_tracking = Ok out →
  r ∈ df_rows out →
  ∃ a u sizes,
    a ∈ allocations_of events
    ∧ u ∈ df_rows ptr_tracking
    ∧ not_deallocated u = true
    ∧ cell r "ptr" = cell a "ptr"
    ∧ cell_eqb (cell a "ptr") (cell u "ptr") = true
    ∧ cell r "total_bytes" = CNum (Qsum sizes)
    ∧ cell r "allocation_count" = CNum (inject_Z (Z.of_nat (length sizes))).
Proof.
  intros Hevents Hne Hout Hr.
  destruct (identify_suspicious_locations_inv self events ptr_tracking out Hevents Hne Hout)
    as (rows & Hrows & ->).
  unfold sort_descending in Hr. cbn [df_rows] in Hr.
  rewrite merge_sort_Permutation in Hr.
  destruct (Forall2_elem_of_r _ _ _ r (reset_index_cells rows) Hr) as (r0 & Hr0 & Hcells).
  destruct (Forall2_elem_of_r _ _ _ r0 Hrows Hr0) as (key & Hkey & sizes & _ & ->).
  unfold sorted_keys in Hkey. rewrite merge_sort_Permutation in Hkey.
  apply distinct_keys_subset, list_elem_of_In, in_map_iff in Hkey as (a & Ha & Hin).
  apply filter_In in Hin as [Hin Hsel]. apply andb_true_iff in Hsel as [Hcat Hex].
  apply existsb_exists in Hex as (c & Hc & Heq).
  apply in_map_iff in Hc as (u & <- & Hu). apply filter_In in Hu as [Hu Hnull].
  exists a, u, sizes.
  destruct (location_row_cells
              (List.filter
                 (fun r => is_category "allocation" r
                           && existsb (cell_eqb (cell r "ptr"))
                                (map (fun r => cell r "ptr")
                                   (List.filter not_deallocated (df_rows ptr_tracking))))
                 (df_rows events)) key sizes) as (Hp & Hb & Hn).
  rewrite !(cell_of_cells _ _ _ Hcells), Hp, Hb, Hn.
  split; [apply list_elem_of_In, filter_In; by split|].
  split; [by apply list_elem_of_In|]. by repeat split.
Qed.

(** X14. [_identify_suspicious_locations] returns its rows with the largest
    [total_bytes] first.  Each row has the pointer of an allocation event,
    and the lifecycle table it was given has a row without deallocation time
    for that pointer. *)
Theorem identify_suspicious_locations_sorted (self : Module)
    (events ptr_tracking out : DataFrame) :
  dataframes self !! "Events Table" = Some events →
  df_empty events = false →
  _identify_suspicious_locations self ptr_tracking = Ok out →
  df_columns out = ["ptr"; "total_bytes"; "allocation_count"; "event_context"]
  ∧ StronglySorted more_bytes (df_rows out)
  ∧ (∀ r, r ∈ df_rows out →
       ∃ a u, a ∈ allocations_of events
              ∧ u ∈ df_rows ptr_tracking
              ∧ not_deallocated u = true
              ∧ cell r "ptr" = cell a "ptr"
              ∧ cell_eqb (cell a "ptr") (cell u "ptr") = true).
Proof.
  intros Hevents Hne Hout.
  assert (Forall (fun r => ∃ x, cell r "total_bytes" = CNum x) (df_rows out)) as Hnum.
  { apply Forall_forall. intros r Hr.
    destruct (suspicious_rows self events ptr_tracking out r Hevents Hne Hout Hr)
      as (_ & _ & sizes & _ & _ & _ & _ & _ & Hb & _).
    by exists (Qsum sizes). }
  split; [|split].
  - destruct (identify_suspicious_locations_inv self events ptr_tracking out
                Hevents Hne Hout) as (rows & _ & ->). done.
  - apply Sorted_StronglySorted; [exact more_bytes_trans|].
    apply (Sorted_numbers "total_bytes"); [done|].
    destruct (identify_suspicious_locations_inv self events ptr_tracking out
                Hevents Hne Hout) as (rows & _ & ->).
    unfold sort_descending. cbn [df_rows].
    apply (@Sorted_merge_sort _ _ _ (cell_geb_Total "total_bytes")).
  - intros r Hr.
    destruct (suspicious_rows self events ptr_tracking out r Hevents Hne Hout Hr)
      as (a & u & _ & ? & ? & ? & ? & ? & _).
    by exists a, u.
Qed.

Lemma lifecycle_of_columns (events lifecycle : DataFrame) :
  lifecycle_of events = Ok lifecycle →
  has_column events "event_category" = true ∧ has_column events "ptr" = true.
Proof.
  unfold lifecycle_of. intros H.
  apply getitem_bind_inv in H as [Hcat H].
  apply getitem_bind_inv in H as [_ H].
  apply bind_ok_inv in H as (right & Hright & _).
  unfold project in Hright. apply bind_ok_inv in Hright as (cs & Hcs & _).
  simpl in Hcs. apply getitem_bind_inv in Hcs as [Hptr _].
  by split.
Qed.

Lemma track_pointer_lifecycle_inv (self self' : Module) (events lifecycle : DataFrame) :
  dataframes self !! "Events Table" = Some events →
  df_empty events = false →
  _track_pointer_lifecycle self = (Ok lifecycle, self') →
  lifecycle_of events = Ok lifecycle ∧ self' = set_ptr_lifecycle self lifecycle.
Proof.
  intros Hevents Hne. unfold _track_pointer_lifecycle. rewrite Hevents, Hne.
  destruct (lifecycle_of events); [|done]. by intros [= -> <-].
Qed.

(** X15. On the lifecycle table of the module's own events, the suspicious
    locations are pointers that were allocated and that no deallocation
    event names: a pointer with a deallocation anywhere in the trace is not
    listed, whether or not it was allocated again afterwards. *)
Theorem suspicious_locations_never_freed (self self' : Module)
    (events ptr_tracking out : DataFrame) :
  dataframes self !! "Events Table" = Some events →
  df_empty events = false →
  _track_pointer_lifecycle self = (Ok ptr_tracking, self') →
  _identify_suspicious_locations self' ptr_tracking = Ok out →
  ∀ r p, r ∈ df_rows out → cell r "ptr" = CStr p →
         existsb (ptr_is p) (allocations_of events) = true
         ∧ count (ptr_is p) (deallocations_of events) = 0%nat.
Proof.
  intros Hevents Hne Htrack Hout r p Hr Hp.
  destruct (track_pointer_lifecycle_inv self self' events ptr_tracking Hevents Hne Htrack)
    as [Hlc ->].
  destruct (lifecycle_of_columns events ptr_tracking Hlc) as [Hcat Hptr].
  destruct (lifecycle_of_lifetimes events Hcat Hptr) as (lifecycle & Hlc' & _ & _ & _ & Hrows).
  rewrite Hlc in Hlc'. injection Hlc' as <-.
  destruct (suspicious_rows (set_ptr_lifecycle self ptr_tracking) events ptr_tracking out r
              Hevents Hne Hout Hr) as (a & u & _ & Ha & Hu & Hnull & Hra & Heq & _).
  rewrite Hp in Hra. rewrite <- Hra in Heq. rewrite cell_eqb_str in Heq.
  split.
  - apply existsb_exists. exists a. split; [by apply list_elem_of_In|].
    unfold ptr_is. rewrite <- Hra. simpl. by apply bool_decide_eq_true.
  - destruct (Forall2_elem_of_r _ _ _ u Hrows Hu) as (m & Hm & (Hmp & _ & Hmd) & _).
    apply cell_is_str_true in Heq. rewrite Heq in Hmp.
    destruct (merged_deallocation_time events m p Hm) as [[_ ?]|(d & _ & _ & Hd)];
      [done|done|].
    unfold not_deallocated in Hnull. rewrite Hmd, Hd in Hnull. done.
Qed.

Lemma leak_example_locations :
  map (fun r => (cell r "ptr", cell r "total_bytes", cell r "allocation_count"))
      (df_rows LeakExample.locations)
  = [(CStr "0x2", CNum 64, CNum 1); (CStr "0x1", CNum 16, CNum 2)].
Proof. vm_compute. reflexivity. Qed.

Lemma identify_suspicious_locations_sorted_witness :
  df_columns LeakExample.locations
  = ["ptr"; "total_bytes"; "allocation_count"; "event_context"]
  ∧ StronglySorted more_bytes (df_rows LeakExample.locations)
  ∧ (∀ r, r ∈ df_rows LeakExample.locations →
       ∃ a u, a ∈ allocations_of LeakExample.events
              ∧ u ∈ df_rows LeakExample.ptr_tracking
              ∧ not_deallocated u = true
              ∧ cell r "ptr" = cell a "ptr"
              ∧ cell_eqb (cell a "ptr") (cell u "ptr") = true).
Proof.
  apply (identify_suspicious_locations_sorted LeakExample.self' LeakExample.events
           LeakExample.ptr_tracking LeakExample.locations);
    vm_compute; reflexivity.
Defined.

Lemma suspicious_locations_never_freed_witness :
  existsb (ptr_is "0x2") (allocations_of LeakExample.events) = true
  ∧ count (ptr_is "0x2") (deallocations_of LeakExample.events) = 0%nat.
Proof.
  apply (suspicious_locations_never_freed LeakExample.self LeakExample.self'
           LeakExample.events LeakExample.ptr_tracking LeakExample.locations
           eq_refl eq_refl eq_refl eq_refl
           (default {| row_index := 0; row_cells := ∅ |}
              (head (df_rows LeakExample.locations)))
           "0x2").
  - apply list_elem_of_In. vm_compute. left. reflexivity.
  - vm_compute. reflexivity.
Defined.

(** ** The maximum growth duration in general *)

Lemma max_of_elem (xs : list Q) (d : Q) : max_of xs = Some d → d ∈ xs.
Proof.
  destruct xs as [|x xs]; [done|]. simpl. intros [= <-].
  revert x. induction xs as [|y ys IH]; intros x; [left|].
  simpl. destruct (Qltb x y).
  - right. apply IH.
  - specialize (IH x). apply elem_of_cons in IH as [->|IH]; [left|by do 2 right].
Qed.

Lemma diff_from_length (prev : pyfloat) (vs : list pyfloat) :
  length (diff_from prev vs) = length vs.
Proof. revert prev. induction vs as [|v vs IH]; intros prev; simpl; [done|]. by rewrite IH. Qed.

Lemma ne_shift_from_length (prev : option bool) (bs : list bool) :
  length (ne_shift_from prev bs) = length bs.
Proof. revert prev. induction bs as [|b bs IH]; intros prev; simpl; [done|]. by rewrite IH. Qed.

Lemma cumsum_from_length (acc : nat) (bs : list bool) :
  length (cumsum_from acc bs) = length bs.
Proof. revert acc. induction bs as [|b bs IH]; intros acc; simpl; [done|]. by rewrite IH. Qed.

Lemma groupby_labels_nonempty {A : Type} (labels : list nat) (items : list A) :
  labels ≠ [] → groupby_labels labels items ≠ [].
Proof.
  intros Hne Hg. unfold groupby_labels in Hg. apply map_eq_nil in Hg.
  pose proof (merge_sort_Permutation le (remove_dups labels)) as Hp.
  rewrite Hg in Hp. apply Permutation_nil_l in Hp.
  destruct labels as [|l labels]; [done|].
  assert (l ∈ remove_dups (l :: labels)) as Hin by (apply elem_of_remove_dups; left).
  first [rewrite Hp in Hin | rewrite <- Hp in Hin]. by apply elem_of_nil in Hin.
Qed.

(** The members of a group are items of the series, in their order. *)
Lemma group_sorted {A : Type} (R : A → A → Prop) (f : nat * A → bool)
    (labels : list nat) (items : list A) :
  StronglySorted R items →
  StronglySorted R (map snd (List.filter f (zip labels items)))
  ∧ ∀ x, x ∈ map snd (List.filter f (zip labels items)) → x ∈ items.
Proof.
  intros Hs. revert labels. induction Hs as [|x items Hs IH Hx]; intros labels.
  - destruct labels; simpl; (split; [constructor|intros y Hy; by apply elem_of_nil in Hy]).
  - destruct labels as [|l labels];
      [simpl; split; [constructor|intros y Hy; by apply elem_of_nil in Hy]|].
    destruct (IH labels) as [IH1 IH2]. cbn [zip zip_with List.filter].
    fold (zip labels items).
    destruct (f (l, x)); cbn [map snd].
    + split.
      * constructor; [done|]. apply Forall_forall. intros y Hy.
        rewrite Forall_forall in Hx. apply Hx, IH2, Hy.
      * intros y Hy. apply elem_of_cons in Hy as [->|Hy]; [left|right; by apply IH2].
    + split; [done|]. intros y Hy. right. by apply IH2.
Qed.

Lemma sorted_head_last {A : Type} (R : A → A → Prop) (l : list A) (a b : A) :
  (∀ x, R x x) → StronglySorted R l → head l = Some a → last l = Some b → R a b.
Proof.
  intros Hrefl Hs Ha Hb. destruct Hs as [|x l Hs Hx]; [done|].
  injection Ha as ->. destruct l as [|y l]; [injection Hb as ->; apply Hrefl|].
  rewrite Forall_forall in Hx. apply Hx.
  change (last (a :: y :: l)) with (last (y :: l)) in Hb.
  apply last_Some_elem_of in Hb. done.
Qed.

Lemma zip_sorted (idx : list Z) (bs : list bool) :
  StronglySorted Z.le idx →
  StronglySorted (fun p q : Z * bool => (p.1 ≤ q.1)%Z) (zip idx bs)
  ∧ ∀ p, p ∈ zip idx bs → p.1 ∈ idx.
Proof.
  intros Hs. revert bs. induction Hs as [|t idx Hs IH Ht]; intros bs.
  - split; [constructor|]. intros p Hp. by apply elem_of_nil in Hp.
  - destruct bs as [|b bs]; [split; [constructor|intros p Hp; by apply elem_of_nil in Hp]|].
    destruct (IH bs) as [IH1 IH2]. cbn [zip zip_with]. fold (zip idx bs). split.
    + constructor; [done|]. apply Forall_forall. intros p Hp.
      rewrite Forall_forall in Ht. apply Ht, IH2, Hp.
    + intros p Hp. apply elem_of_cons in Hp as [->|Hp]; [left|right; by apply IH2].
Qed.

Lemma sorted_bounds (l : list Z) (t0 tn t : Z) :
  StronglySorted Z.le l → head l = Some t0 → last l = Some tn → t ∈ l →
  (t0 ≤ t ≤ tn)%Z.
Proof.
  intros Hs. revert t0. induction Hs as [|x l Hs IH Hx]; intros t0 H0 Hn Ht; [done|].
  injection H0 as ->. rewrite Forall_forall in Hx.
  destruct l as [|y l].
  - injection Hn as ->. apply list_elem_of_singleton in Ht as ->. lia.
  - change (last (t0 :: y :: l)) with (last (y :: l)) in Hn.
    apply elem_of_cons in Ht as [->|Ht].
    + split; [lia|]. apply Hx. by apply last_Some_elem_of.
    + specialize (IH y eq_refl Hn Ht). split; [|lia].
      by apply Hx.
Qed.

Lemma seconds_le (a b : Z) : (a ≤ b)%Z → (seconds a <= seconds b)%Q.
Proof. intros H. unfold seconds, Qle. simpl. lia. Qed.

(** X16. The maximum growth duration is NaN on an empty rolling mean only.  On a
    rolling mean whose timestamps are in order it is not negative and not
    longer than the time from the first sample to the last. *)
Theorem max_growth_duration_bounds (rolling_mean : Series) :
  rolling_mean ≠ [] →
  ∃ d, max_growth_duration_of rolling_mean = Some d
       ∧ (Sorted Z.le (map fst rolling_mean) →
          (0 <= d)%Q
          ∧ ∀ t0 tn, head (map fst rolling_mean) = Some t0 →
                     last (map fst rolling_mean) = Some tn →
                     (d <= seconds (tn - t0))%Q).
Proof.
  intros Hne. unfold max_growth_duration_of.
  set (growth_periods := map (fltb (Some 0%Q)) (diff (map snd rolling_mean))).
  set (labels := cumsum (ne_shift growth_periods)).
  set (items := zip (map fst rolling_mean) growth_periods).
  assert (labels ≠ []) as Hlabels.
  { intros H. apply (f_equal length) in H. unfold labels, cumsum, ne_shift in H.
    rewrite cumsum_from_length, ne_shift_from_length in H.
    unfold growth_periods, diff in H.
    rewrite length_map, diff_from_length, length_map in H.
    by destruct rolling_mean. }
  pose proof (groupby_labels_nonempty labels items Hlabels) as Hgroups.
  destruct (max_of (map span_of_group (groupby_labels labels items))) as [d|] eqn:Hmax.
  2:{ destruct (groupby_labels labels items); done. }
  exists d. split; [done|]. intros Hsorted.
  apply Sorted_StronglySorted in Hsorted; [|intros ? ? ?; lia].
  destruct (zip_sorted _ growth_periods Hsorted) as [Hitems Hidx]. fold items in Hitems, Hidx.
  apply max_of_elem, list_elem_of_In, in_map_iff in Hmax as (g & <- & Hg).
  unfold groupby_labels in Hg. apply in_map_iff in Hg as (l & <- & _).
  destruct (group_sorted _ (fun p : nat * (Z * bool) => bool_decide (p.1 = l))
              labels items Hitems) as [Hgs Hgin].
  set (g := map snd (List.filter _ _)) in *. clearbody g.
  unfold span_of_group. case_bool_decide as Hlen.
  2:{ split; [done|]. intros t0 tn H0 Hn. apply seconds_nonneg.
      assert (t0 ≤ tn)%Z; [|lia].
      apply (sorted_head_last Z.le (map fst rolling_mean)); [lia|done..]. }
  destruct (head g) as [a|] eqn:Ha; [|destruct g; [simpl in Hlen; lia|done]].
  destruct (last g) as [b|] eqn:Hb.
  2:{ apply last_None in Hb. rewrite Hb in Ha. done. }
  pose proof (sorted_head_last _ g a b (fun x => Z.le_refl x.1) Hgs Ha Hb) as Hab.
  cbv beta in Hab.
  split; [apply seconds_nonneg; lia|].
  intros t0 tn H0 Hn. apply seconds_le.
  assert (a ∈ g) as Hain.
  { destruct g as [|x g']; [done|]. injection Ha as ->. left. }
  assert (b ∈ g) as Hbin by (by apply last_Some_elem_of).
  pose proof (sorted_bounds _ t0 tn a.1 Hsorted H0 Hn (Hidx a (Hgin a Hain))).
  pose proof (sorted_bounds _ t0 tn b.1 Hsorted H0 Hn (Hidx b (Hgin b Hbin))).
  lia.
Qed.

Lemma max_growth_duration_bounds_witness :
  ∃ d, max_growth_duration_of GrowthExample.means = Some d
       ∧ (Sorted Z.le (map fst GrowthExample.means) →
          (0 <= d)%Q
          ∧ ∀ t0 tn, head (map fst GrowthExample.means) = Some t0 →
                     last (map fst GrowthExample.means) = Some tn →
                     (d <= seconds (tn - t0))%Q).
Proof.
  apply (max_growth_duration_bounds GrowthExample.means). vm_compute. discriminate.
Defined.

(** ** Allocation patterns *)

Lemma valid_numbers_length (cs : list Cell) (xs : list Q) :
  valid_numbers cs = Ok xs →
  (length xs + length (List.filter is_null cs) = length cs)%nat.
Proof.
  revert xs. induction cs as [|c cs IH]; intros xs; simpl.
  - by intros [= <-].
  - destruct c as [s|x|t|]; try done.
    + intros H. apply bind_ok_inv in H as (xs' & Hxs & H).
      cbn [mret result_ret] in H. injection H as <-. specialize (IH xs' Hxs).
      simpl. lia.
    + intros H. specialize (IH xs H). simpl. lia.
Qed.

Section Patterns.

Variable ext : Externals.

(** X17. The counts of [_analyze_allocation_patterns]: the total is the number
    of allocation events, the null sizes are those among them with no size,
    and the sizes that are left number the difference.  The mean is their
    sum over their number, and 0 when none is left, as are the median, the
    deviation and the number of distinct sizes. *)
Theorem analyze_allocation_patterns_counts (self : Module) (events : DataFrame)
    (o : option AllocationPatterns) :
  dataframes self !! "Events Table" = Some events →
  df_empty events = false →
  _analyze_allocation_patterns ext self = Ok o →
  ∃ patterns valid_sizes,
    o = Some patterns
    ∧ valid_numbers (map (fun r => cell r "allocation_size") (allocations_of events))
      = Ok valid_sizes
    ∧ patterns_total_allocations patterns = Z.of_nat (length (allocations_of events))
    ∧ null_size_count patterns
      = Z.of_nat (count (fun r => is_null (cell r "allocation_size")) (allocations_of events))
    ∧ (Z.of_nat (length valid_sizes) + null_size_count patterns
       = patterns_total_allocations patterns)%Z
    ∧ (0 ≤ unique_sizes patterns ≤ Z.of_nat (length valid_sizes))%Z
    ∧ (mean_allocation_size patterns * inject_Z (Z.of_nat (length valid_sizes))
       == Qsum valid_sizes)%Q
    ∧ (valid_sizes = [] →
       mean_allocation_size patterns = 0%Q
       ∧ median_allocation_size patterns = Some 0%Q
       ∧ size_std patterns = Some 0%Q
       ∧ unique_sizes patterns = 0%Z).
Proof.
  intros Hev Hne. unfold _analyze_allocation_patterns. rewrite Hev, Hne. intros H.
  apply getitem_bind_inv in H as [_ H].
  apply getitem_bind_inv in H as [_ H].
  apply bind_ok_inv in H as (freq & _ & H).
  apply bind_ok_inv in H as (valid & Hvalid & H).
  cbn [mret result_ret] in H. injection H as <-.
  change (df_rows (select events (is_category "allocation"))) with (allocations_of events)
    in *.
  pose proof (valid_numbers_length _ _ Hvalid) as Hlen.
  rewrite length_map in Hlen.
  eexists _, valid. split; [done|]. split; [exact Hvalid|]. cbn.
  split; [done|].
  assert (count_where is_null
            (map (fun r => cell r "allocation_size") (allocations_of events))
          = Z.of_nat (count (fun r => is_null (cell r "allocation_size"))
                        (allocations_of events))) as Hnull.
  { unfold count_where, count. by rewrite filter_map_commute, length_map. }
  split; [exact Hnull|].
  split.
  { unfold count_where. unfold allocations_of in Hlen. lia. }
  split.
  { unfold allocations_of in Hlen. case_bool_decide; [lia|].
    pose proof (length_distinct_keys (map CNum valid)) as Hd.
    rewrite length_map in Hd. lia. }
  split.
  { case_bool_decide as Hz.
    - destruct valid; [|done]. reflexivity.
    - assert (0 < Z.of_nat (length valid))%Z as Hpos by lia.
      apply inject_Z_pos in Hpos.
      unfold Qdiv. rewrite <- Qmult_assoc, (Qmult_comm (/ _)), Qmult_inv_r; [ring|lra]. }
  intros ->. done.
Qed.

End Patterns.

Lemma analyze_allocation_patterns_counts_witness :
  ∃ patterns valid_sizes,
    _analyze_allocation_patterns Examples.externals LeakExample.self = Ok (Some patterns)
    ∧ valid_numbers (map (fun r => cell r "allocation_size")
                       (allocations_of LeakExample.events))
      = Ok valid_sizes
    ∧ patterns_total_allocations patterns
      = Z.of_nat (length (allocations_of LeakExample.events))
    ∧ null_size_count patterns
      = Z.of_nat (count (fun r => is_null (cell r "allocation_size"))
                    (allocations_of LeakExample.events))
    ∧ (Z.of_nat (length valid_sizes) + null_size_count patterns
       = patterns_total_allocations patterns)%Z
    ∧ (0 ≤ unique_sizes patterns ≤ Z.of_nat (length valid_sizes))%Z
    ∧ (mean_allocation_size patterns * inject_Z (Z.of_nat (length valid_sizes))
       == Qsum valid_sizes)%Q
    ∧ (valid_sizes = [] →
       mean_allocation_size patterns = 0%Q
       ∧ median_allocation_size patterns = Some 0%Q
       ∧ size_std patterns = Some 0%Q
       ∧ unique_sizes patterns = 0%Z).
Proof.
  destruct (analyze_allocation_patterns_counts Examples.externals LeakExample.self
              LeakExample.events
              (match _analyze_allocation_patterns Examples.externals LeakExample.self with
               | Ok o => o
               | Raise _ => None
               end))
    as (patterns & valid_sizes & Ho & H); [vm_compute; reflexivity..|].
  exists patterns, valid_sizes. split; [|exact H].
  rewrite <- Ho. vm_compute. reflexivity.
Defined.

(** ** The analysis from end to end *)





Section Analysis.

Variable ext : Externals.

Lemma analyze_memory_trend_inv (self : Module) (df : DataFrame)
    (o : option MemoryTrend) :
  dataframes self !! "Memory Usage" = Some df →
  df_empty df = false →
  _analyze_memory_trend ext self = Ok o →
  ∃ trend, o = Some trend
           ∧ is_significant trend = fltb (p_value trend) (Some 0.05%Q)
           ∧ growth_rate trend
             = (if fltb (Some 0%Q) (slope trend) then default 0%Q (slope trend) else 0%Q).
Proof.
  intros Hdf Hne. unfold _analyze_memory_trend. rewrite Hdf, Hne. intros H.
  apply bind_ok_inv in H as (memory_df & _ & H).
  apply bind_ok_inv in H as (t0 & _ & H).
  apply bind_ok_inv in H as (window & _ & H).
  apply bind_ok_inv in H as (usage & _ & H).
  apply bind_ok_inv in H as (rm & _ & H).
  apply bind_ok_inv in H as (rs & _ & H).
  apply bind_ok_inv in H as (lr & _ & H).
  cbn [mret result_ret] in H. injection H as <-.
  eexists. split; [done|]. by split.
Qed.


Lemma analyze_allocation_patterns_inv (self : Module) (events : DataFrame)
    (o : option AllocationPatterns) :
  dataframes self !! "Events Table" = Some events →
  df_empty events = false →
  _analyze_allocation_patterns ext self = Ok o →
  ∃ patterns, o = Some patterns
              ∧ patterns_total_allocations patterns
                = Z.of_nat (length (allocations_of events)).
Proof.
  intros Hev Hne. unfold _analyze_allocation_patterns. rewrite Hev, Hne. intros H.
  apply getitem_bind_inv in H as [_ H].
  apply getitem_bind_inv in H as [_ H].
  apply bind_ok_inv in H as (freq & _ & H).
  apply bind_ok_inv in H as (valid & _ & H).
  cbn [mret result_ret] in H. injection H as <-.
  eexists. split; [done|]. done.
Qed.

(** The steps of a run of [analyze_memory_leaks] that returns a result on
    two tables that are there and not empty. *)
Lemma analyze_memory_leaks_inv (self self' : Module) (window : string)
    (fragmentation_threshold slope_threshold : Q) (r : LeakAnalysisResult) :
  missing_or_empty self "Events Table" = false →
  missing_or_empty self "Memory Usage" = false →
  analyze_memory_leaks ext self window fragmentation_threshold slope_threshold
  = (Ok r, self') →
  let th := {| window_size := window;
               fragmentation := fragmentation_threshold;
               growth_slope := slope_threshold |} in
  ∃ events lifecycle trend patterns,
    dataframes self !! "Events Table" = Some events
    ∧ df_empty events = false
    ∧ lifecycle_of events = Ok lifecycle
    ∧ self' = set_ptr_lifecycle (set_thresholds self th) lifecycle
    ∧ is_significant trend = fltb (p_value trend) (Some 0.05%Q)
    ∧ growth_rate trend
      = (if fltb (Some 0%Q) (slope trend) then default 0%Q (slope trend) else 0%Q)
    ∧ patterns_total_allocations patterns = Z.of_nat (length (allocations_of events))
    ∧ _calculate_memory_metrics lifecycle (Some trend) (Some patterns) = Ok (metrics r)
    ∧ _evaluate_severity self' (metrics r) (p_value trend)
      = Ok (severity r, confidence_score r)
    ∧ _identify_suspicious_locations self' lifecycle = Ok (suspicious_locations r)
    ∧ _collect_detected_patterns ext (Some trend) (Some patterns)
      = Ok (detected_patterns r).
Proof.
  intros Hev Hmem. unfold analyze_memory_leaks. rewrite Hev, Hmem. cbn [orb].
  unfold missing_or_empty in Hev, Hmem.
  destruct (dataframes self !! "Events Table") as [events|] eqn:Hevents; [|done].
  destruct (dataframes self !! "Memory Usage") as [usage|] eqn:Husage; [|done].
  set (th := {| window_size := window; fragmentation := _; growth_slope := _ |}).
  destruct (_track_pointer_lifecycle (set_thresholds self th))
    as [[lifecycle|e] self1] eqn:Htrack; [|done].
  apply (track_pointer_lifecycle_inv (set_thresholds self th) self1 events lifecycle
           Hevents Hev) in Htrack as [Hlc ->].
  intros H. injection H as H <-.
  apply bind_ok_inv in H as (ot & Htrend & H).
  apply (analyze_memory_trend_inv (set_ptr_lifecycle (set_thresholds self th) lifecycle)
           usage ot Husage Hmem) in Htrend
    as (trend & -> & Hsig & Hrate).
  apply bind_ok_inv in H as (op & Hpat & H).
  apply (analyze_allocation_patterns_inv (set_ptr_lifecycle (set_thresholds self th) lifecycle)
           events op Hevents Hev) in Hpat
    as (patterns & -> & Htotal).
  apply bind_ok_inv in H as (m & Hm & H).
  apply bind_ok_inv in H as (p & Hp & H). cbn in Hp. injection Hp as <-.
  apply bind_ok_inv in H as ([s c] & Hs & H).
  apply bind_ok_inv in H as (locs & Hlocs & H).
  apply bind_ok_inv in H as (pats & Hpats & H).
  cbn [mret result_ret] in H. injection H as <-. cbn.
  exists events, lifecycle, trend, patterns. done.
Qed.


End Analysis.

(** ** Narrated patterns *)

Section Narration.

Variable ext : Externals.

Lemma collect_detected_patterns_inv (trend : MemoryTrend) (patterns : AllocationPatterns)
    (ps : list string) :
  _collect_detected_patterns ext (Some trend) (Some patterns) = Ok ps →
  ps = (if is_significant trend && fltb (Some 0%Q) (slope trend)
        then [growth_sentence ext (growth_rate trend)] else [])
       ++ (if fltb (series_mean (allocation_frequency patterns))
                (values_std ext (valid_values (allocation_frequency patterns)))
           then ["Irregular allocation pattern detected"] else [])
       ++ (if fltb (fmul (series_mean (rolling_mean trend)) (Some 0.1%Q))
                (series_mean (rolling_std trend))
           then ["High memory usage volatility detected"] else []).
Proof.
  unfold _collect_detected_patterns. cbn [dict_get mbind result_bind mret result_ret].
  intros [= <-]. f_equal. unfold growth_sentence.
  by destruct (format_bytes ext (growth_rate trend)).
Qed.

(** X19. The patterns of a trend that [_analyze_memory_trend] returned: at most
    three, in a fixed order.  The sentence on systematic growth comes first
    and shows the slope of the regression, when the p-value is below 0.05
    and the slope is positive; when the p-value is not below 0.05, or is
    NaN, or the slope is not positive, no such sentence is among them. *)
Theorem detected_patterns_of_trend (self : Module) (usage : DataFrame)
    (trend : MemoryTrend) (patterns : AllocationPatterns) (ps : list string) :
  dataframes self !! "Memory Usage" = Some usage →
  df_empty usage = false →
  _analyze_memory_trend ext self = Ok (Some trend) →
  _collect_detected_patterns ext (Some trend) (Some patterns) = Ok ps →
  (length ps ≤ 3)%nat
  ∧ (∀ p q, p_value trend = Some p → slope trend = Some q →
            (p < 0.05)%Q → (0 < q)%Q →
            head ps = Some (growth_sentence ext q))
  ∧ (fltb (p_value trend) (Some 0.05%Q) = false ∨ fltb (Some 0%Q) (slope trend) = false →
     ∀ s, s ∈ ps → s = "Irregular allocation pattern detected"
                   ∨ s = "High memory usage volatility detected").
Proof.
  intros Husage Hne Htrend Hps.
  destruct (analyze_memory_trend_inv ext self usage _ Husage Hne Htrend)
    as (trend' & [= <-] & Hsig & Hrate).
  apply collect_detected_patterns_inv in Hps. rewrite Hsig in Hps.
  split; [|split].
  - rewrite Hps. destruct (_ && _), (fltb (series_mean _) _), (fltb (fmul _ _) _);
      simpl; lia.
  - intros p q Hp Hq Hp05 Hq0. rewrite Hps, Hrate, Hp, Hq. simpl.
    assert (Qltb p 0.05 = true) as -> by (by apply Qltb_lt).
    assert (Qltb 0 q = true) as -> by (by apply Qltb_lt).
    done.
  - intros Hnot s Hs. rewrite Hps in Hs.
    assert (fltb (p_value trend) (Some 0.05%Q) && fltb (Some 0%Q) (slope trend) = false)
      as Hoff.
    { destruct Hnot as [-> | ->]; [done|apply andb_false_r]. }
    rewrite Hoff in Hs. simpl in Hs.
    destruct (fltb (series_mean _) _), (fltb (fmul _ _) _); simpl in Hs;
      repeat (apply elem_of_cons in Hs as [->|Hs]; [by auto|]);
      by apply elem_of_nil in Hs.
Qed.

End Narration.

Lemma detected_patterns_of_trend_witness :
  let trend :=
    {| slope := Some (1 # 6); intercept := Some (1 # 2);
       r_squared := Some (1 # 4); p_value := Some (2 # 3);
       growth_rate := 1 # 6; is_significant := false;
       rolling_mean := [(0%Z, Some (1 # 3)); (1000000000%Z, Some 1%Q);
                        (2000000000%Z, Some (2 # 3))];
       rolling_std := [(0%Z, None); (1000000000%Z, None); (2000000000%Z, None)] |} in
  let ps : list string := [] in
  (length ps ≤ 3)%nat
  ∧ (∀ p q, p_value trend = Some p → slope trend = Some q →
            (p < 0.05)%Q → (0 < q)%Q →
            head ps = Some (growth_sentence TrendExample.externals q))
  ∧ (fltb (p_value trend) (Some 0.05%Q) = false ∨ fltb (Some 0%Q) (slope trend) = false →
     ∀ s, s ∈ ps → s = "Irregular allocation pattern detected"
                   ∨ s = "High memory usage volatility detected").
Proof.
  intros trend ps.
  apply (detected_patterns_of_trend TrendExample.externals TrendExample.self
           TrendExample.usage trend GrowthExample.allocation_patterns ps);
    vm_compute; reflexivity.
Defined.

(** ** Presentation *)

Section AfterAnalysis.

Variable ext : Externals.

(** X20. When one of the two tables is missing, the analysis returns the neutral
    result and raises nothing, and [interpret] on that result raises
    [KeyError] for the table it does not find: it looks both up without the
    check that the analysis makes. *)
Theorem interpret_after_insufficient_data (self : Module) (window : string)
    (fragmentation_threshold slope_threshold : Q) :
  dataframes self !! "Memory Usage" = None ∨ dataframes self !! "Events Table" = None →
  analyze_memory_leaks ext self window fragmentation_threshold slope_threshold
  = (Ok neutral_result, self)
  ∧ ∃ k, interpret self neutral_result = (Raise (KeyError k), self, neutral_result)
         ∧ (k = "Memory Usage" ∨ k = "Events Table").
Proof.
  intros Hmissing. split.
  - unfold analyze_memory_leaks, missing_or_empty.
    destruct Hmissing as [-> | ->]; [|done].
    by rewrite orb_true_r.
  - unfold interpret, lookup_frame. cbn [suspicious_locations neutral_result].
    change (negb (df_empty empty_frame)) with false. cbv iota.
    cbn [mbind result_bind mret result_ret].
    destruct (dataframes self !! "Memory Usage") as [memory_df|] eqn:Hmem.
    + destruct Hmissing as [? | ->]; [done|]. cbn [from_option mbind result_bind].
      unfold getitem. destruct (has_column memory_df "Memory Usage");
        cbn [mbind result_bind]; eauto.
    + cbn [from_option mbind result_bind]. eauto.
Qed.

(** X21. After an analysis that returned a result, on a usage table that has its
    [Memory Usage] column, [interpret] finds all it reads and returns; the
    lifecycle table it computes is the one the analysis cached, so that the
    module is as it was. *)
Theorem interpret_after_analysis (self self' : Module) (usage : DataFrame) (window : string)
    (fragmentation_threshold slope_threshold : Q) (r : LeakAnalysisResult) :
  missing_or_empty self "Events Table" = false →
  dataframes self !! "Memory Usage" = Some usage →
  df_empty usage = false →
  has_column usage "Memory Usage" = true →
  analyze_memory_leaks ext self window fragmentation_threshold slope_threshold
  = (Ok r, self') →
  interpret self' r = (Ok (), self', r).
Proof.
  intros Hev Husage Hne Hcol Hrun.
  assert (missing_or_empty self "Memory Usage" = false) as Hmem.
  { unfold missing_or_empty. by rewrite Husage. }
  destruct (analyze_memory_leaks_inv ext self self' window fragmentation_threshold
              slope_threshold r Hev Hmem Hrun)
    as (events & lifecycle & trend & patterns & Hevents & Hnee & Hlc & -> & _ & _
        & _ & _ & _ & Hlocs & _).
  set (th := {| window_size := window; fragmentation := _; growth_slope := _ |}) in *.
  set (self1 := set_ptr_lifecycle (set_thresholds self th) lifecycle) in *.
  destruct (lifecycle_of_columns events lifecycle Hlc) as [Hcat Hptr].
  destruct (lifecycle_of_lifetimes events Hcat Hptr) as (lifecycle' & Hlc' & Hlt & _).
  rewrite Hlc in Hlc'. injection Hlc' as <-.
  destruct (identify_suspicious_locations_inv self1 events lifecycle
              (suspicious_locations r) Hevents Hnee Hlocs) as (rows & _ & Hout).
  unfold interpret, lookup_frame.
  change (dataframes self1) with (dataframes self). rewrite Husage, Hevents.
  cbn [from_option].
  assert ((if negb (df_empty (suspicious_locations r))
           then _ ← getitem (suspicious_locations r) "total_bytes";
                _ ← getitem (suspicious_locations r) "ptr";
                _ ← getitem (suspicious_locations r) "allocation_count";
                _ ← getitem (suspicious_locations r) "event_context";
                mret ()
           else mret ()) = Ok ()) as ->.
  { destruct (negb _); [|done]. rewrite Hout. reflexivity. }
  cbn [mbind result_bind].
  rewrite (getitem_ok usage _ Hcol). cbn [mbind result_bind].
  rewrite (getitem_ok events _ Hcat). cbn [mbind result_bind].
  rewrite (getitem_ok (select events (is_category "allocation")) "ptr" Hptr).
  cbn [mbind result_bind mret result_ret].
  rewrite (track_pointer_lifecycle_of self1 events lifecycle Hevents Hnee Hlc).
  rewrite (getitem_ok lifecycle _ Hlt). reflexivity.
Qed.

(** X22. [plot_memory_leak_analysis] writes to the result object only the slope
    and the intercept of the regression, and to the module only the cached
    lifecycle table, whether it returns or raises; with no usage table, or
    an empty one, it leaves the result as it was. *)
Theorem plot_memory_leak_analysis_frame (self : Module) (r : LeakAnalysisResult) :
  let out := plot_memory_leak_analysis ext self r in
  severity out.2 = severity r
  ∧ confidence_score out.2 = confidence_score r
  ∧ detected_patterns out.2 = detected_patterns r
  ∧ suspicious_locations out.2 = suspicious_locations r
  ∧ set_regression_slope (set_regression_intercept (metrics out.2) None) None
    = set_regression_slope (set_regression_intercept (metrics r) None) None
  ∧ dataframes out.1.2 = dataframes self
  ∧ thresholds out.1.2 = thresholds self
  ∧ (missing_or_empty self "Memory Usage" = true → out.2 = r).
Proof.
  intros out. unfold out, plot_memory_leak_analysis, missing_or_empty. cbv zeta.
  clear out.
  assert (∀ events_df,
             dataframes (plot_memory_operations ext self events_df).2 = dataframes self
             ∧ thresholds (plot_memory_operations ext self events_df).2 = thresholds self)
    as Hops.
  { intros events_df. unfold plot_memory_operations.
    destruct (getitem events_df "event_category"); [|done].
    unfold _track_pointer_lifecycle.
    destruct (dataframes self !! "Events Table") as [e|]; [|done].
    destruct (df_empty e); [done|]. by destruct (lifecycle_of e). }
  set (events_df := default empty_frame (dataframes self !! "Events Table")).
  specialize (Hops events_df).
  destruct (dataframes self !! "Memory Usage") as [memory_df|];
    cbn [default from_option id].
  - destruct (df_empty memory_df) eqn:Hempty; cbn [negb].
    + destruct (negb (df_empty events_df)).
      * destruct (plot_memory_operations ext self events_df) as [res self1].
        cbn in *. by destruct Hops.
      * done.
    + unfold plot_memory_usage.
      destruct (getitem memory_df "Memory Usage" ≫= column_max) as [usage_max|e].
      * destruct (negb (df_empty events_df)).
        -- destruct (plot_memory_operations ext self events_df) as [res self1].
           cbn in *. by destruct Hops.
        -- done.
      * done.
  - change (negb (df_empty empty_frame)) with false. cbv iota.
    destruct (negb (df_empty events_df)).
    + destruct (plot_memory_operations ext self events_df) as [res self1].
      cbn in *. by destruct Hops.
    + done.
Qed.

End AfterAnalysis.


Lemma interpret_after_insufficient_data_witness :
  analyze_memory_leaks Examples.externals TrendExample.self "1s" 0.7%Q 0.5%Q
  = (Ok neutral_result, TrendExample.self)
  ∧ ∃ k, interpret TrendExample.self neutral_result
         = (Raise (KeyError k), TrendExample.self, neutral_result)
         ∧ (k = "Memory Usage" ∨ k = "Events Table").
Proof.
  apply (interpret_after_insufficient_data Examples.externals TrendExample.self
           "1s" 0.7%Q 0.5%Q).
  right. vm_compute. reflexivity.
Defined.

Lemma interpret_after_analysis_witness :
  interpret AnalysisExample.self' AnalysisExample.analysis_result
  = (Ok (), AnalysisExample.self', AnalysisExample.analysis_result).
Proof.
  apply (interpret_after_analysis TrendExample.externals AnalysisExample.self
           AnalysisExample.self'
           (Examples.memory_table [(0%Z, 1%Q); (1%Z, 2%Q); (2%Z, 4%Q)])
           "1s" 0.7%Q 0.5%Q AnalysisExample.analysis_result);
    vm_compute; reflexivity.
Defined.
